(** * fernbus: the result-extraction pipeline of [src/fernbus/main.py]

    A shallow embedding of the scraper's pipeline ([create_browser_session],
    [get_results], [parse_result], [find_bus_connections], [run_cli]) and of
    the library calls it leans on (splitting a [str] or a [unicode] text,
    [float()], the [{0:.2f}] format, the traceback of a fault, lxml's
    [xpath]/[cssselect] on element trees and dryscrape's [wait_for]),
    followed by the properties of the pipeline. *)

From Stdlib Require Import String Ascii ZArith List Bool Lia DecimalString.
From Stdlib Require Import Sorted Permutation.
Import ListNotations.
Local Open Scope string_scope.
Local Open Scope Z_scope.

(** ** Python strings

    A Python 2 [str] is a byte string; it is a Rocq [string].  Text outside
    ASCII (the euro sign of the price suffix, the text of a node that lxml
    gives as a [unicode] object) is held as its UTF-8 bytes. *)

Module PyStr.

(** [str.isspace] on one byte in the C locale: tab, newline, vertical tab,
    form feed, carriage return and space. *)
Definition isspace (c : ascii) : bool :=
  let n := N_of_ascii c in
  ((9 <=? n) && (n <=? 13))%N || (n =? 32)%N.

Definition is_empty (s : string) : bool :=
  match s with EmptyString => true | String _ _ => false end.

(** [s.split()] on a [str]: the maximal runs of non-whitespace bytes, in
    order.  [cur] is the run being read. *)
Fixpoint split_from (cur s : string) : list string :=
  match s with
  | EmptyString => if is_empty cur then [] else [cur]
  | String c s' =>
      if isspace c
      then (if is_empty cur then split_from "" s' else cur :: split_from "" s')
      else split_from (cur ++ String c "") s'
  end.

(** [re.compile(pat).sub(new, s)] for a one-byte literal pattern and a
    one-byte replacement: every occurrence is replaced. *)
Fixpoint sub_char (old new : ascii) (s : string) : string :=
  match s with
  | EmptyString => EmptyString
  | String c s' =>
      String (if Ascii.eqb c old then new else c) (sub_char old new s')
  end.

(** [re.compile(pat).search(s)] for a literal pattern, as a truth value:
    does [pat] occur in [s]? *)
Fixpoint search (pat s : string) : bool :=
  prefix pat s ||
  match s with
  | EmptyString => false
  | String _ s' => search pat s'
  end.

Definition is_digit (c : ascii) : bool :=
  let n := N_of_ascii c in ((48 <=? n) && (n <=? 57))%N.

Definition digit_val (c : ascii) : Z := Z.of_N (N_of_ascii c) - 48.

Definition digit_char (d : Z) : ascii := ascii_of_N (Z.to_N (d + 48)).

Fixpoint all_digits (s : string) : bool :=
  match s with
  | EmptyString => true
  | String c s' => is_digit c && all_digits s'
  end.

(** The longest prefix of decimal digits, and what follows it. *)
Fixpoint span_digits (s : string) : string * string :=
  match s with
  | EmptyString => ("", "")
  | String c s' =>
      if is_digit c
      then let (ds, rest) := span_digits s' in (String c ds, rest)
      else ("", s)
  end.

(** The number a digit string denotes, [acc] being the digits read so far. *)
Fixpoint digits_from (acc : Z) (s : string) : Z :=
  match s with
  | EmptyString => acc
  | String c s' => digits_from (10 * acc + digit_val c) s'
  end.

Definition Z_of_digits (s : string) : Z := digits_from 0 s.

(** [str(n)] for a natural number. *)
Definition string_of_Z (n : Z) : string :=
  NilZero.string_of_uint (N.to_uint (Z.to_N n)).

(** ASCII lower-casing, for the case-insensitive keywords of [float()]. *)
Definition lower (c : ascii) : ascii :=
  let n := N_of_ascii c in
  if ((65 <=? n) && (n <=? 90))%N then ascii_of_N (n + 32) else c.

Fixpoint lowercase (s : string) : string :=
  match s with
  | EmptyString => EmptyString
  | String c s' => String (lower c) (lowercase s')
  end.

(** *** Texts outside ASCII

    lxml hands the text of a node over as a [str] when it is pure ASCII and
    as a [unicode] object otherwise.  Either way the text is held here as
    its UTF-8 bytes; what Python does with a [unicode] object is done on
    its code points (a build of Python 2.7 with four-byte code units, as
    the Linux distributions ship). *)

Definition is_ascii_byte (c : ascii) : bool := (N_of_ascii c <? 128)%N.

Fixpoint is_ascii (s : string) : bool :=
  match s with
  | EmptyString => true
  | String c s' => is_ascii_byte c && is_ascii s'
  end.

(** The six payload bits of a continuation byte. *)
Definition cont (c : ascii) : N := (N_of_ascii c mod 64)%N.

(** The code points of a UTF-8 byte string.  A byte that cannot start a
    character, or a character cut short, stands for itself. *)
Fixpoint decode_utf8 (s : string) : list N :=
  match s with
  | EmptyString => []
  | String b0 r0 =>
      let n0 := N_of_ascii b0 in
      if (n0 <? 192)%N then n0 :: decode_utf8 r0
      else
        match r0 with
        | EmptyString => [n0]
        | String b1 r1 =>
            if (n0 <? 224)%N
            then ((n0 - 192) * 64 + cont b1)%N :: decode_utf8 r1
            else
              match r1 with
              | EmptyString => [n0; N_of_ascii b1]
              | String b2 r2 =>
                  if (n0 <? 240)%N
                  then ((n0 - 224) * 4096 + cont b1 * 64 + cont b2)%N
                       :: decode_utf8 r2
                  else
                    match r2 with
                    | EmptyString => [n0; N_of_ascii b1; N_of_ascii b2]
                    | String b3 r3 =>
                        ((n0 - 240) * 262144 + cont b1 * 4096
                         + cont b2 * 64 + cont b3)%N
                        :: decode_utf8 r3
                    end
              end
        end
  end.

Definition encode_char (cp : N) : string :=
  if (cp <? 128)%N then String (ascii_of_N cp) ""
  else if (cp <? 2048)%N then
    String (ascii_of_N (192 + cp / 64))
      (String (ascii_of_N (128 + cp mod 64)) "")
  else if (cp <? 65536)%N then
    String (ascii_of_N (224 + cp / 4096))
      (String (ascii_of_N (128 + (cp / 64) mod 64))
         (String (ascii_of_N (128 + cp mod 64)) ""))
  else
    String (ascii_of_N (240 + cp / 262144))
      (String (ascii_of_N (128 + (cp / 4096) mod 64))
         (String (ascii_of_N (128 + (cp / 64) mod 64))
            (String (ascii_of_N (128 + cp mod 64)) ""))).

Fixpoint encode_utf8 (u : list N) : string :=
  match u with
  | [] => EmptyString
  | cp :: u' => encode_char cp ++ encode_utf8 u'
  end.

(** [Py_UNICODE_ISSPACE]: the white space of Unicode 5.2, the version
    Python 2.7 carries: U+0009..000D, U+001C..0020, U+0085, U+00A0, U+1680,
    U+180E, U+2000..200A, U+2028, U+2029, U+202F, U+205F and U+3000. *)
Definition uni_isspace (cp : N) : bool :=
  (((9 <=? cp) && (cp <=? 13)) || ((28 <=? cp) && (cp <=? 32))
   || (cp =? 133) || (cp =? 160) || (cp =? 5760) || (cp =? 6158)
   || ((8192 <=? cp) && (cp <=? 8202)) || (cp =? 8232) || (cp =? 8233)
   || (cp =? 8239) || (cp =? 8287) || (cp =? 12288))%N.

(** [u.split()] on a [unicode] object: the maximal runs of code points
    that are not white space. *)
Fixpoint usplit_from (cur u : list N) : list (list N) :=
  match u with
  | [] => match cur with [] => [] | _ :: _ => [cur] end
  | cp :: u' =>
      if uni_isspace cp
      then match cur with
           | [] => usplit_from [] u'
           | _ :: _ => cur :: usplit_from [] u'
           end
      else usplit_from (cur ++ [cp]) u'
  end.

(** [text.split()] for the text of a node: [str.split] on an ASCII text,
    [unicode.split] on any other. *)
Definition split (s : string) : list string :=
  if is_ascii s then split_from "" s
  else map encode_utf8 (usplit_from [] (decode_utf8 s)).

(** [text[:n]]: the first [n] bytes of a [str], the first [n] code points
    of a [unicode] object. *)
Definition slice_to (n : nat) (s : string) : string :=
  if is_ascii s then substring 0 n s
  else encode_utf8 (firstn n (decode_utf8 s)).

(** The zeros of the runs of ten decimal digits of Unicode 5.2. *)
Definition decimal_zeros : list N :=
  [48; 1632; 1776; 1984; 2406; 2534; 2662; 2790; 2918; 3046; 3174; 3302;
   3430; 3664; 3792; 3872; 4160; 4240; 6112; 6160; 6470; 6608; 6784; 6800;
   6992; 7088; 7232; 7248; 42528; 43216; 43264; 43472; 43600; 44016;
   65296; 66720]%N.

(** [Py_UNICODE_TODECIMAL]: the value of a decimal digit of any script;
    besides the runs of ten, U+19DA (a second New Tai Lue one) and the
    five runs of mathematical digits from U+1D7CE on. *)
Definition unicode_decimal (cp : N) : option N :=
  if (cp =? 6618)%N then Some 1%N
  else if ((120782 <=? cp) && (cp <=? 120831))%N
  then Some ((cp - 120782) mod 10)%N
  else
    match find (fun z => ((z <=? cp) && (cp <? z + 10))%N) decimal_zeros with
    | Some z => Some (cp - z)%N
    | None => None
    end.

Definition hex_digit (d : N) : ascii :=
  if (d <? 10)%N then ascii_of_N (48 + d) else ascii_of_N (87 + d).

(** [n] in lower-case hexadecimal, padded with zeros to [width] digits. *)
Fixpoint hex_padded (width : nat) (n : N) : string :=
  match width with
  | O => EmptyString
  | S width' => hex_padded width' (n / 16) ++ String (hex_digit (n mod 16)) ""
  end.

End PyStr.

(** ** Python floats

    A [float] is an IEEE-754 binary64 value.  A finite value is kept as its
    sign and the exact pair (mantissa, binary exponent): it denotes
    [mant * 2^expo]. *)

Module PyFloat.

Inductive pyfloat : Type :=
| Finite (neg : bool) (mant : Z) (expo : Z)
| Inf (neg : bool)
| NaN.

(** The integer nearest to [a / b] ([0 < b]), ties going to the even one. *)
Definition round_half_even (a b : Z) : Z :=
  let q := a / b in
  let r := a mod b in
  if 2 * r <? b then q
  else if b <? 2 * r then q + 1
  else if Z.even q then q else q + 1.

(** Is [2^l <= a / b] ? *)
Definition pow2_le (l a b : Z) : bool :=
  if 0 <=? l then b * 2 ^ l <=? a else b <=? a * 2 ^ (- l).

(** [floor (log2 (a / b))] for positive [a] and [b]. *)
Definition ilog2 (a b : Z) : Z :=
  let l := Z.log2 a - Z.log2 b in
  if pow2_le l a b then l else l - 1.

(** The integer nearest to [a / (b * 2^e)], ties to even. *)
Definition scaled_round (a b e : Z) : Z :=
  if 0 <=? e then round_half_even a (b * 2 ^ e)
  else round_half_even (a * 2 ^ (- e)) b.

(** Round-to-nearest-even of the positive rational [a / b] to binary64:
    53 bits of mantissa, exponents from -1074 (subnormals) to 971, and
    overflow to infinity from [2^1024 - 2^970] on. *)
Definition round_binary64 (neg : bool) (a b : Z) : pyfloat :=
  let expo := Z.max (ilog2 a b - 52) (-1074) in
  let m := scaled_round a b expo in
  if (971 <? expo) || ((expo =? 971) && (2 ^ 53 <=? m))
  then Inf neg
  else Finite neg m expo.

(** The binary64 value nearest to [mant * 10^ex10] ([0 <= mant]). *)
Definition of_decimal (neg : bool) (mant ex10 : Z) : pyfloat :=
  if mant =? 0 then Finite neg 0 0
  else if 0 <=? ex10 then round_binary64 neg (mant * 10 ^ ex10) 1
  else round_binary64 neg mant (10 ^ (- ex10)).

Import PyStr.

Definition parse_sign (s : string) : bool * string :=
  match s with
  | String "-" r => (true, r)
  | String "+" r => (false, r)
  | _ => (false, s)
  end.

(** What may follow the mantissa: nothing, or [e]/[E], an optional sign and
    at least one digit. *)
Definition parse_exponent (s : string) : option Z :=
  match s with
  | EmptyString => Some 0
  | String c r =>
      if Ascii.eqb (lower c) "e" then
        let (neg, r1) := parse_sign r in
        let (ds, r2) := span_digits r1 in
        if is_empty ds || negb (is_empty r2) then None
        else Some (if neg then - Z_of_digits ds else Z_of_digits ds)
      else None
  end.

(** [float(s)] on a string without surrounding whitespace (a token of
    [split()] has none): [None] stands for [ValueError]. *)
Definition of_string (s : string) : option pyfloat :=
  let (neg, body) := parse_sign s in
  let low := lowercase body in
  if String.eqb low "inf" || String.eqb low "infinity" then Some (Inf neg)
  else if String.eqb low "nan" then Some NaN
  else
    let (ip, r1) := span_digits body in
    let (fp, r2) :=
      match r1 with
      | String "." r => span_digits r
      | _ => ("", r1)
      end in
    if is_empty ip && is_empty fp then None
    else
      match parse_exponent r2 with
      | None => None
      | Some ex =>
          Some (of_decimal neg (Z_of_digits (ip ++ fp))
                  (ex - Z.of_nat (String.length fp)))
      end.

(** Does [s] start with a number?  [PyOS_string_to_double] reads the
    longest prefix that is one: digits with at most one period among them,
    or [inf] or [nan] in any case, after an optional sign. *)
Definition starts_number (s : string) : bool :=
  let (_, body) := parse_sign s in
  let (ip, r1) := span_digits body in
  let (fp, _) :=
    match r1 with
    | String "." r => span_digits r
    | _ => ("", r1)
    end in
  negb (is_empty ip && is_empty fp)
  || prefix "inf" (lowercase body) || prefix "nan" (lowercase body).

(** The hundredths nearest to a finite magnitude [mant * 2^expo]. *)
Definition cents (mant expo : Z) : Z :=
  if 0 <=? expo then mant * 100 * 2 ^ expo
  else round_half_even (mant * 100) (2 ^ (- expo)).

Definition two_digits (c : Z) : string :=
  String (digit_char (c / 10)) (String (digit_char (c mod 10)) "").

Definition format_cents (c : Z) : string :=
  string_of_Z (c / 100) ++ "." ++ two_digits (c mod 100).

(** ["{0:.2f}".format(x)]: correctly rounded to two decimals. *)
Definition format_2f (x : pyfloat) : string :=
  match x with
  | NaN => "nan"
  | Inf neg => (if neg then "-" else "") ++ "inf"
  | Finite neg m e => (if neg then "-" else "") ++ format_cents (cents m e)
  end.

End PyFloat.

(** ** Exceptions *)

Inductive exn : Type :=
| IndexError (msg : string)
| AttributeError (msg : string)
| TypeError (msg : string)
| ValueError (msg : string)
| UnicodeEncodeError (msg : string)
| AssertionError (msg : string)
| WaitTimeoutError (msg : string)
| BusliniensucheParsingError (msg : string).

Definition exn_line (e : exn) : string :=
  match e with
  | IndexError m => "IndexError: " ++ m
  | AttributeError m => "AttributeError: " ++ m
  | TypeError m => "TypeError: " ++ m
  | ValueError m => "ValueError: " ++ m
  | UnicodeEncodeError m => "UnicodeEncodeError: " ++ m
  | AssertionError m => "AssertionError: " ++ m
  | WaitTimeoutError m => "WaitTimeoutError: " ++ m
  | BusliniensucheParsingError m => "BusliniensucheParsingError: " ++ m
  end.

(** An exception caught in [parse_result], with the line of [main.py] that
    raised it. *)
Record fault : Type := { fault_line : Z; fault_exn : exn }.

Definition newline : string := String (ascii_of_N 10) "".

Definition dquote : string := String (ascii_of_N 34) "".

(** The lines of [main.py] inside the [try] block of [parse_result], as a
    traceback echoes them: without the white space around them. *)
Definition source_line (line : Z) : string :=
  match line with
  | 107 => "departure = result.xpath('div[1]/div/div[1]/div[1]')[0]"
  | 108 => "departure_date = departure.xpath('div[1]/span[1]')[0].text"
  | 109 => "departure_time = departure.xpath('div[1]/span[3]')[0].text"
  | 110 => "departure_stop = departure.xpath('div[2]/span')[0].text"
  | 112 => "duration = result.xpath('div[1]/div/div[1]/div[2]')[0]"
  | 113 => "trip_duration = duration.xpath('div[1]')[0].text"
  | 114 => "number_of_stops = duration.xpath('div[2]')[0].text"
  | 116 => "arrival = result.xpath('div[1]/div/div[1]/div[3]')[0]"
  | 117 => "arrival_date = arrival.xpath('div[1]/span[1]')[0].text"
  | 118 => "arrival_time = arrival.xpath('div[1]/span[3]')[0].text"
  | 119 => "arrival_stop = arrival.xpath('div[2]/span')[0].text"
  | 121 =>
      "price_str = result.xpath(" ++
      "'div[1]/div/div[2]/div[2]/div[1]/span[2]/strong')[0].text.split()[0]"
  | 122 =>
      "price = u" ++ dquote ++ "{0:.2f} €" ++ dquote ++
      ".format(float(COMMA_REGEX.sub('.', price_str)))"
  | 124 =>
      "company = result.xpath(" ++
      "'div[1]/div/div[2]/div[1]/div[1]/div[1]/span[2]')[0].text"
  | _ => ""
  end.

(** [traceback.format_exc()] inside the handler of [parse_result]: the
    header, the one frame between the handler and the fault (the file the
    module was loaded from, the line, the function, and the line of the
    source as it is read from that file) and the line of the exception.
    [file] is the [co_filename] of the code of [parse_result]. *)
Definition format_exc (file : string) (f : fault) : string :=
  "Traceback (most recent call last):" ++ newline ++
  "  File " ++ dquote ++ file ++ dquote ++ ", line " ++
  PyStr.string_of_Z (fault_line f) ++ ", in parse_result" ++ newline ++
  "    " ++ source_line (fault_line f) ++ newline ++
  exn_line (fault_exn f) ++ newline.

(** The body of a [try] block that touches no state: a value or a fault. *)
Inductive attempt (A : Type) : Type :=
| ok (a : A)
| fail (f : fault).
Arguments ok {A} a.
Arguments fail {A} f.

Definition attempt_bind {A B} (x : attempt A) (k : A -> attempt B)
  : attempt B :=
  match x with
  | ok a => k a
  | fail f => fail f
  end.

Declare Scope attempt_scope.
Delimit Scope attempt_scope with attempt.
Notation "'let?' x ':=' c 'in' k" :=
  (attempt_bind c (fun x => k))
  (at level 10, x name, c at level 100, k at level 200) : attempt_scope.

(** ** The document tree (lxml elements) *)

Module Dom.

(** An element: its tag, the words of its [class] attribute, its [.text]
    (the text before its first child, [None] when there is none) and its
    child elements in document order. *)
#[warning="-register-all"]
Inductive element : Type :=
| Element (tag : string) (classes : list string) (text : option string)
          (children : list element).

Definition tag (e : element) : string :=
  match e with Element t _ _ _ => t end.
Definition classes (e : element) : list string :=
  match e with Element _ c _ _ => c end.
Definition text (e : element) : option string :=
  match e with Element _ _ t _ => t end.
Definition children (e : element) : list element :=
  match e with Element _ _ _ c => c end.

(** One step of a relative location path on the child axis: a tag name and
    an optional position, [div] or [div[k]]. *)
Record step : Type := { step_tag : string; step_pos : option nat }.

Definition each (t : string) : step := {| step_tag := t; step_pos := None |}.
Definition nth (t : string) (k : nat) : step :=
  {| step_tag := t; step_pos := Some k |}.

Definition eval_step (st : step) (ctx : element) : list element :=
  let named := filter (fun c => String.eqb (tag c) (step_tag st))
                      (children ctx) in
  match step_pos st with
  | None => named
  | Some O => []
  | Some (S i) =>
      match nth_error named i with
      | Some c => [c]
      | None => []
      end
  end.

(** [ctx.xpath(path)]: the nodes the path selects from [ctx], in document
    order. *)
Fixpoint select (path : list step) (ctxs : list element) : list element :=
  match path with
  | [] => ctxs
  | st :: path' => select path' (flat_map (eval_step st) ctxs)
  end.

Definition xpath (path : list step) (ctx : element) : list element :=
  select path [ctx].

(** The element and its descendants, in document order. *)
Fixpoint descendant_or_self (e : element) : list element :=
  match e with
  | Element _ _ _ cs => e :: flat_map descendant_or_self cs
  end.

(** [doc.cssselect('t.c')]: every element of tag [t] with [c] among its
    classes, in document order. *)
Definition cssselect (t c : string) (doc : element) : list element :=
  filter (fun e => String.eqb (tag e) t && existsb (String.eqb c) (classes e))
         (descendant_or_self doc).

End Dom.
Import Dom.

(** ** Module constants and the Connection record *)

Definition SEARCH_PAGE : string := "https://www.busliniensuche.de/".
Definition DELAY_MSG : string := "Lade Busverbindungen".

(** The namedtuple [Connection].  A field read from [.text] is a string or
    [None]; [price] is built by [format] and is always a string. *)
Record Connection : Type := {
  departure_date : option string;
  departure_time : option string;
  departure_stop : option string;
  trip_duration : option string;
  number_of_stops : option string;
  arrival_date : option string;
  arrival_time : option string;
  arrival_stop : option string;
  price : string;
  company : option string
}.

(** ** The [try] block of [parse_result] (lines 107-130) *)

Definition no_index : exn := IndexError "list index out of range".

(** [nodes[0]] at source line [line]. *)
Definition first_at (line : Z) {A} (nodes : list A) : attempt A :=
  match nodes with
  | x :: _ => ok x
  | [] => fail {| fault_line := line; fault_exn := no_index |}
  end.

(** [ctx.xpath(path)[0].text] at source line [line]. *)
Definition text_at (line : Z) (path : list step) (ctx : element)
  : attempt (option string) :=
  (let? n := first_at line (xpath path ctx) in ok (text n))%attempt.

Definition departure_path := [nth "div" 1; each "div"; nth "div" 1; nth "div" 1].
Definition duration_path := [nth "div" 1; each "div"; nth "div" 1; nth "div" 2].
Definition arrival_path := [nth "div" 1; each "div"; nth "div" 1; nth "div" 3].
Definition date_path := [nth "div" 1; nth "span" 1].
Definition time_path := [nth "div" 1; nth "span" 3].
Definition stop_path := [nth "div" 2; each "span"].
Definition price_path :=
  [nth "div" 1; each "div"; nth "div" 2; nth "div" 2; nth "div" 1;
   nth "span" 2; each "strong"].
Definition company_path :=
  [nth "div" 1; each "div"; nth "div" 2; nth "div" 1; nth "div" 1;
   nth "div" 1; nth "span" 2].

Definition euro : string := " €".

(** Line 121: [....text.split()[0]]. *)
Definition price_token (result : element) : attempt string :=
  (let? t := text_at 121 price_path result in
   match t with
   | None =>
       fail {| fault_line := 121;
               fault_exn := AttributeError
                 "'NoneType' object has no attribute 'split'" |}
   | Some s => first_at 121 (PyStr.split s)
   end)%attempt.

(** The [ValueError] of [float(s)]: nothing at the start of [s] is a
    number, or something follows the number; the message shows up to 200
    bytes of [s]. *)
Definition float_error (s : string) : exn :=
  ValueError
    ((if PyFloat.starts_number s
      then "invalid literal for float(): "
      else "could not convert string to float: ") ++ substring 0 200 s).

(** What [float()] can turn into a byte of a literal: white space, a
    decimal digit of any script, and the code points from 1 to 255. *)
Definition decimal_encodable (cp : N) : bool :=
  PyStr.uni_isspace cp
  || match PyStr.unicode_decimal cp with Some _ => true | None => false end
  || ((0 <? cp) && (cp <? 256))%N.

(** The code points at the head of [u] that cannot be turned into bytes. *)
Fixpoint unencodable_run (u : list N) : nat :=
  match u with
  | cp :: u' => if decimal_encodable cp then O else S (unencodable_run u')
  | [] => O
  end.

Definition backslash : string := String (ascii_of_N 92) "".

(** [repr] of the code point inside the message of the error. *)
Definition escaped (cp : N) : string :=
  backslash ++
  (if (cp <? 256)%N then "x" ++ PyStr.hex_padded 2 cp
   else if (cp <? 65536)%N then "u" ++ PyStr.hex_padded 4 cp
   else "U" ++ PyStr.hex_padded 8 cp).

(** The [UnicodeEncodeError] of [float(u)] for a code point [cp] at index
    [pos] that cannot be encoded, [more] such code points following it. *)
Definition decimal_error (pos : nat) (cp : N) (more : nat) : exn :=
  UnicodeEncodeError
    ("'decimal' codec can't encode " ++
     match more with
     | O =>
         "character u'" ++ escaped cp ++ "' in position " ++
         PyStr.string_of_Z (Z.of_nat pos)
     | S _ =>
         "characters in position " ++ PyStr.string_of_Z (Z.of_nat pos) ++
         "-" ++ PyStr.string_of_Z (Z.of_nat (pos + more))
     end ++ ": invalid decimal Unicode string").

(** What [float(u)] makes of a [unicode] object before it reads the
    number ([PyUnicode_EncodeDecimal]): white space becomes a space, a
    decimal digit of any script its ASCII digit, a code point below 256
    its byte; any other code point raises. *)
Fixpoint encode_decimal (pos : nat) (u : list N) : attempt string :=
  match u with
  | [] => ok EmptyString
  | cp :: u' =>
      if decimal_encodable cp then
        let c :=
          if PyStr.uni_isspace cp then " "%char
          else match PyStr.unicode_decimal cp with
               | Some d => PyStr.digit_char (Z.of_N d)
               | None => ascii_of_N cp
               end in
        (let? rest := encode_decimal (S pos) u' in ok (String c rest))%attempt
      else
        fail {| fault_line := 122;
                fault_exn := decimal_error pos cp (unencodable_run u') |}
  end.

(** Line 122: [u"{0:.2f} €".format(float(COMMA_REGEX.sub('.', price_str)))].
    The token has no white space in it, so that [float()] has none to
    strip. *)
Definition format_price (price_str : string) : attempt string :=
  let dotted := PyStr.sub_char "," "." price_str in
  (let? literal :=
     (if PyStr.is_ascii dotted then ok dotted
      else encode_decimal 0 (PyStr.decode_utf8 dotted)) in
   match PyFloat.of_string literal with
   | None => fail {| fault_line := 122; fault_exn := float_error literal |}
   | Some x => ok (PyFloat.format_2f x ++ euro)
   end)%attempt.

Definition parse_fields (result : element) : attempt Connection :=
  (let? departure := first_at 107 (xpath departure_path result) in
   let? departure_date := text_at 108 date_path departure in
   let? departure_time := text_at 109 time_path departure in
   let? departure_stop := text_at 110 stop_path departure in
   let? duration := first_at 112 (xpath duration_path result) in
   let? trip_duration := text_at 113 [nth "div" 1] duration in
   let? number_of_stops := text_at 114 [nth "div" 2] duration in
   let? arrival := first_at 116 (xpath arrival_path result) in
   let? arrival_date := text_at 117 date_path arrival in
   let? arrival_time := text_at 118 time_path arrival in
   let? arrival_stop := text_at 119 stop_path arrival in
   let? price_str := price_token result in
   let? price := format_price price_str in
   let? company := text_at 124 company_path result in
   ok {| departure_date := departure_date; departure_time := departure_time;
         departure_stop := departure_stop; trip_duration := trip_duration;
         number_of_stops := number_of_stops; arrival_date := arrival_date;
         arrival_time := arrival_time; arrival_stop := arrival_stop;
         price := price; company := company |})%attempt.

(** ** The world the pipeline runs in *)

(** [datetime.date]. *)
Record date : Type := { year : Z; month : Z; day : Z }.

Fixpoint zeros (n : nat) : string :=
  match n with
  | O => ""
  | S n' => String "0" (zeros n')
  end.

(** ["%0<width>d" % n]. *)
Definition zero_pad (width : nat) (n : Z) : string :=
  let s := PyStr.string_of_Z n in
  zeros (width - String.length s) ++ s.

(** [datetime.date.isoformat]: YYYY-MM-DD. *)
Definition isoformat (d : date) : string :=
  zero_pad 4 (year d) ++ "-" ++ zero_pad 2 (month d) ++ "-" ++
  zero_pad 2 (day d).

(** A row of the printed table: six cells. *)
Definition row : Type := list (option string).

(** What the program does to its collaborators, in the order it does it. *)
Inductive event : Type :=
| SessionNew                                  (* dryscrape.Session() *)
| SetAttribute (name : string) (value : bool) (* session.set_attribute *)
| Visit (url : string)                        (* session.visit *)
| AtCss (selector : string)                   (* session.at_css *)
| FieldSet (selector value : string)          (* node.set *)
| Click (selector : string)                   (* node.click *)
| GetDocument                                 (* session.driver.document() *)
| Render (path : string)                      (* session.driver.render *)
| FileWrite (path : string) (doc : element)   (* open(path, 'w').write(..) *)
| LogDebug (msg : string)                     (* LOGGER.debug *)
| SetTrace                                    (* pudb.set_trace() *)
| Stdout (table : list row).                  (* print table *)

(** The state around one run: the module global [DEBUG], the calendar day,
    the search page's form (which selectors [at_css] finds), the documents
    the browser shows at each successive call of [document()], a clock in
    milliseconds that only [time.sleep] advances, the number of browser
    sessions opened and not released, and the trace of events so far. *)
Record world : Type := {
  DEBUG : bool;
  today : date;
  form : string -> bool;
  pages : nat -> element;
  ndoc : nat;
  clock : Z;
  sessions : nat;
  trace : list event
}.

Definition set_DEBUG (b : bool) (w : world) : world :=
  {| DEBUG := b; today := today w; form := form w; pages := pages w;
     ndoc := ndoc w; clock := clock w; sessions := sessions w;
     trace := trace w |}.

Definition add_event (e : event) (w : world) : world :=
  {| DEBUG := DEBUG w; today := today w; form := form w; pages := pages w;
     ndoc := ndoc w; clock := clock w; sessions := sessions w;
     trace := trace w ++ [e] |}.

Definition next_doc (w : world) : world :=
  {| DEBUG := DEBUG w; today := today w; form := form w; pages := pages w;
     ndoc := S (ndoc w); clock := clock w; sessions := sessions w;
     trace := trace w |}.

Definition advance (ms : Z) (w : world) : world :=
  {| DEBUG := DEBUG w; today := today w; form := form w; pages := pages w;
     ndoc := ndoc w; clock := clock w + ms; sessions := sessions w;
     trace := trace w |}.

Definition open_session (w : world) : world :=
  {| DEBUG := DEBUG w; today := today w; form := form w; pages := pages w;
     ndoc := ndoc w; clock := clock w; sessions := S (sessions w);
     trace := trace w |}.

(** ** A monad for state and exceptions

    A computation ends by returning a value or by raising an exception, in
    both cases with the world it leaves behind; [Unfinished] is a loop that
    ran out of fuel. *)

Inductive result (A : Type) : Type :=
| Returns (a : A) (w : world)
| Raises (e : exn) (w : world)
| Unfinished.
Arguments Returns {A} a w.
Arguments Raises {A} e w.
Arguments Unfinished {A}.

Definition M (A : Type) : Type := world -> result A.

Definition ret {A} (a : A) : M A := fun w => Returns a w.

Definition bind {A B} (m : M A) (k : A -> M B) : M B :=
  fun w =>
    match m w with
    | Returns a w' => k a w'
    | Raises e w' => Raises e w'
    | Unfinished => Unfinished
    end.

Definition raise {A} (e : exn) : M A := fun w => Raises e w.

(** [try: m except: handler]. *)
Definition try_except {A} (m : M A) (handler : exn -> M A) : M A :=
  fun w =>
    match m w with
    | Raises e w' => handler e w'
    | r => r
    end.

Declare Scope py_scope.
Delimit Scope py_scope with py.
Notation "x <- m ;; k" := (bind m (fun x => k))
  (at level 61, m at next level, right associativity) : py_scope.
Notation "m ;; k" := (bind m (fun _ => k))
  (at level 61, right associativity) : py_scope.
Local Open Scope py_scope.

Definition emit (e : event) : M unit := fun w => Returns tt (add_event e w).
Definition get_DEBUG : M bool := fun w => Returns (DEBUG w) w.
Definition time : M Z := fun w => Returns (clock w) w.
Definition sleep (ms : Z) : M unit := fun w => Returns tt (advance ms w).

(** ** The collaborators *)

Definition debug (msg : string) : M unit := emit (LogDebug msg).

(** [session.driver.document()]: the document the browser shows now. *)
Definition document : M element :=
  fun w => Returns (pages w (ndoc w)) (add_event GetDocument (next_doc w)).

Definition render (path : string) : M unit := emit (Render path).

(** [session.at_css(sel)]: the first node the selector finds, or [None]. *)
Definition at_css (sel : string) : M (option string) :=
  fun w => Returns (if form w sel then Some sel else None)
                   (add_event (AtCss sel) w).

Definition no_attribute (name : string) : exn :=
  AttributeError ("'NoneType' object has no attribute '" ++ name ++ "'").

Definition node_set (node : option string) (value : string) : M unit :=
  match node with
  | Some sel => emit (FieldSet sel value)
  | None => raise (no_attribute "set")
  end.

Definition node_click (node : option string) : M unit :=
  match node with
  | Some sel => emit (Click sel)
  | None => raise (no_attribute "click")
  end.

(** [datetime.date.isoformat(datetime.date.today())]. *)
Definition current_iso_date : M string :=
  fun w => Returns (isoformat (today w)) w.

(** A Python truth test on [True], [False] or [None]. *)
Definition truthy (v : option bool) : bool :=
  match v with Some true => true | _ => false end.

(** Modelled from the spec: [WaitMixin.wait_for] of dryscrape, which is not
    part of this repository.  It polls [condition] until it holds, checks
    after each failed probe whether more than [timeout] has elapsed since
    the start, and sleeps [interval] between probes (section 4.1). *)
Fixpoint wait_for_loop (fuel : nat) (condition : M (option bool))
    (interval timeout start : Z) : M (option bool) :=
  match fuel with
  | O => fun _ => Unfinished
  | S fuel' =>
      res <- condition ;;
      if truthy res then ret res
      else
        now <- time ;;
        if timeout <? now - start
        then raise (WaitTimeoutError "wait_for timed out")
        else sleep interval ;;
             wait_for_loop fuel' condition interval timeout start
  end.

Definition wait_for (fuel : nat) (condition : M (option bool))
    (interval timeout : Z) : M (option bool) :=
  start <- time ;;
  wait_for_loop fuel condition interval timeout start.

(** ** The pipeline *)

(** Lines 60-64: a new session, which stays open, is configured and sent
    to the search page. *)
Definition create_browser_session (url : string) (load_images : bool)
  : M unit :=
  (fun w => Returns tt (add_event SessionNew (open_session w))) ;;
  emit (SetAttribute "auto_load_images" load_images) ;;
  emit (Visit url) ;;
  debug "browser session created.".

(** [doc.cssselect('div.search-result')]. *)
Definition search_results (doc : element) : list element :=
  cssselect "div" "search-result" doc.

(** Line 73: [DELAY_MSG_REGEX.search(results[0].text)] and its negation. *)
Definition ready_probe (results : list element) : attempt bool :=
  (let? r := first_at 73 results in
   match text r with
   | None =>
       fail {| fault_line := 73;
               fault_exn := TypeError "expected string or buffer" |}
   | Some t => ok (negb (PyStr.search DELAY_MSG t))
   end)%attempt.

(** Lines 70-76: the closure polled by [wait_for].  Its bare [except]
    swallows the fault of the probe and falls off the end, returning
    [None]. *)
Definition results_are_ready : M (option bool) :=
  doc <- document ;;
  match ready_probe (search_results doc) with
  | ok b => ret (Some b)
  | fail _ =>
      render "error.png" ;;
      debug "Can't get results text. You'll need to wait longer." ;;
      ret None
  end.

Definition past_msg : string := "Can't search for bus connections in the past".

(** [timeout] is in seconds, as on the command line; the clock and the
    half-second interval are in milliseconds.  The session is the one of
    the world, so only the results are returned. *)
Definition get_results (fuel : nat) (departure_stop arrival_stop date : string)
    (timeout : Z) : M (list element) :=
  debug ("Trying to find buses from " ++ departure_stop ++ " to " ++
         arrival_stop ++ " on " ++ date) ;;
  start_field <- at_css "#From" ;;
  node_set start_field departure_stop ;;
  destination_field <- at_css "#To" ;;
  node_set destination_field arrival_stop ;;
  departure_date <- at_css "#When" ;;
  current_date <- current_iso_date ;;
  (if String.leb current_date date then ret tt
   else raise (AssertionError past_msg)) ;;
  node_set departure_date date ;;
  search_button <- at_css ".btn-warning" ;;
  node_click search_button ;;
  try_except
    (wait_for fuel results_are_ready 500 (1000 * timeout) ;; ret tt)
    (fun e =>
       match e with
       | WaitTimeoutError _ =>
           debug "Request timed out. See error.png for a screenshot." ;;
           render "error.png" ;;
           raise (WaitTimeoutError "")
       | _ => raise e
       end) ;;
  doc <- document ;;
  ret (search_results doc).

Definition parse_error_msg (file : string) (f : fault) : string :=
  "Can't parse results. See error.png/htm for details." ++ newline ++
  format_exc file f.

(** The result is a [Connection], or [None] when the debugger branch falls
    off the end of the function.  [file] is the file the module was loaded
    from, which the traceback in the message names. *)
Definition parse_result (file : string) (result : element)
  : M (option Connection) :=
  match parse_fields result with
  | ok c => ret (Some c)
  | fail f =>
      let error_msg := parse_error_msg file f in
      debug error_msg ;;
      render "error.png" ;;
      doc <- document ;;
      emit (FileWrite "error.htm" doc) ;;
      dbg <- get_DEBUG ;;
      if dbg then emit SetTrace ;; ret None
      else raise (BusliniensucheParsingError error_msg)
  end.

(** The loop of lines 146-149, [connections] being the list built so far. *)
Fixpoint parse_results (file : string) (results : list element)
    (connections : list (option Connection)) : M (list (option Connection)) :=
  match results with
  | [] => ret connections
  | result :: rest =>
      c <- parse_result file result ;;
      parse_results file rest (connections ++ [c])
  end.

(** [file] is the file the module was loaded from, which the message of a
    parsing error names; [fuel] bounds the probes of the polling loop, and
    [enough_fuel timeout] of it is enough for the call to end. *)
Definition find_bus_connections (file : string) (fuel : nat)
    (departure_stop arrival_stop date : string) (timeout : Z)
  : M (list (option Connection)) :=
  create_browser_session SEARCH_PAGE false ;;
  results <- get_results fuel departure_stop arrival_stop date timeout ;;
  parse_results file results [].

(** [results2table]: one row per connection.  The table's alignment
    settings do not change its cells. *)
Definition slice20 (line : Z) (field : option string) : attempt string :=
  match field with
  | Some s => ok (PyStr.slice_to 20 s)
  | None =>
      fail {| fault_line := line;
              fault_exn := TypeError
                "'NoneType' object has no attribute '__getitem__'" |}
  end.

Definition table_row (connection : option Connection) : attempt row :=
  match connection with
  | None =>
      fail {| fault_line := 160;
              fault_exn := no_attribute "departure_time" |}
  | Some c =>
      (let? from := slice20 161 (departure_stop c) in
       let? to := slice20 162 (arrival_stop c) in
       ok [departure_time c; Some (price c); Some from; arrival_time c;
           Some to; company c])%attempt
  end.

Fixpoint results2table (connections : list (option Connection))
  : attempt (list row) :=
  match connections with
  | [] => ok []
  | c :: rest =>
      (let? r := table_row c in
       let? rows := results2table rest in
       ok (r :: rows))%attempt
  end.

Definition lift {A} (x : attempt A) : M A :=
  match x with
  | ok a => ret a
  | fail f => raise (fault_exn f)
  end.

(** The parsed command line ([argparse]'s namespace). *)
Record cli_args : Type := {
  arg_debug : bool;
  arg_timeout : Z;
  arg_origin : string;
  arg_destination : string;
  arg_date : string
}.

(** Where an assignment inside a function body binds its name: in the
    module when the function declares the name [global], in the function's
    own frame otherwise. *)
Inductive scope : Type := FunctionLocal | ModuleGlobal.

Definition assignment_scope (global_stmts : list string) (name : string)
  : scope :=
  if existsb (String.eqb name) global_stmts then ModuleGlobal
  else FunctionLocal.

(** [run_cli] has no [global] statement. *)
Definition run_cli_global_stmts : list string := [].

(** [DEBUG = v] inside [run_cli]; [local] is the frame's slot for the name. *)
Definition assign_DEBUG (v : bool) (local : option bool) : M (option bool) :=
  match assignment_scope run_cli_global_stmts "DEBUG" with
  | ModuleGlobal => fun w => Returns local (set_DEBUG v w)
  | FunctionLocal => ret (Some v)
  end.

(** [table.sort_key] is set but [sortby] is not, so the rows are printed in
    the order they were added. *)
Definition run_cli (file : string) (fuel : nat) (args : cli_args)
  : M unit :=
  (if arg_debug args then assign_DEBUG true None else ret None) ;;
  connections <- find_bus_connections file fuel (arg_origin args)
                   (arg_destination args) (arg_date args)
                   (arg_timeout args) ;;
  table <- lift (results2table connections) ;;
  emit (Stdout table).

(** Running the module as a script: the module body sets [DEBUG = False]
    (line 22), then [run_cli()] is called (line 190). *)
Definition main (file : string) (fuel : nat) (args : cli_args) : M unit :=
  (fun w => Returns tt (set_DEBUG false w)) ;;
  run_cli file fuel args.

(** * The vocabulary of the properties *)

Local Open Scope list_scope.

(** ** Worlds along a run *)

(** The world after a list of events, none of which moves a counter. *)
Definition add_events (evs : list event) (w : world) : world :=
  fold_left (fun w e => add_event e w) evs w.

(** The world once [create_browser_session] has run. *)
Definition session_world (url : string) (load_images : bool) (w : world)
  : world :=
  add_event (LogDebug "browser session created.")
    (add_event (Visit url)
       (add_event (SetAttribute "auto_load_images" load_images)
          (add_event SessionNew (open_session w)))).

(** The message of line 68. *)
Definition trying_msg (a b d : string) : string :=
  ("Trying to find buses from " ++ a ++ " to " ++ b ++ " on " ++ d)%string.

(** The events of lines 68-84, up to the date check. *)
Definition events_before_check (a b : string) (d : string) : list event :=
  [LogDebug (trying_msg a b d); AtCss "#From"; FieldSet "#From" a;
   AtCss "#To"; FieldSet "#To" b; AtCss "#When"].

(** The events of lines 87-90, from the date check to the click. *)
Definition events_of_submit (d : string) : list event :=
  [FieldSet "#When" d; AtCss ".btn-warning"; Click ".btn-warning"].

(** The world when polling starts. *)
Definition submitted_world (a b d : string) (w : world) : world :=
  add_events (events_before_check a b d ++ events_of_submit d)
             (session_world SEARCH_PAGE false w).

(** The search page has its three fields and its button. *)
Definition form_ok (w : world) : Prop :=
  form w "#From" = true /\ form w "#To" = true /\
  form w "#When" = true /\ form w ".btn-warning" = true.

(** The message of line 76. *)
Definition wait_longer_msg : string :=
  "Can't get results text. You'll need to wait longer.".

(** What one probe answers. *)
Definition probe_value (w : world) : option bool :=
  match ready_probe (search_results (pages w (ndoc w))) with
  | ok b => Some b
  | fail _ => None
  end.

(** What one probe does: it reads the next document; when the container or
    its text is missing it renders error.png, logs, and answers [None]. *)
Definition probe_world (w : world) : world :=
  match ready_probe (search_results (pages w (ndoc w))) with
  | ok _ => add_event GetDocument (next_doc w)
  | fail _ =>
      add_event (LogDebug wait_longer_msg)
        (add_event (Render "error.png")
           (add_event GetDocument (next_doc w)))
  end.

(** The exception [wait_for] raises. *)
Definition timed_out : exn := WaitTimeoutError "wait_for timed out".

(** Lines 92-102: poll, then read the results. *)
Definition await_results (fuel : nat) (timeout : Z) : M (list element) :=
  try_except
    (wait_for fuel results_are_ready 500 (1000 * timeout) ;; ret tt)
    (fun e =>
       match e with
       | WaitTimeoutError _ =>
           debug "Request timed out. See error.png for a screenshot." ;;
           render "error.png" ;;
           raise (WaitTimeoutError "")
       | _ => raise e
       end) ;;
  doc <- document ;;
  ret (search_results doc).

(** Probes enough for a wait of [timeout] seconds at two probes a second:
    one at the start, one after each half-second until the time is up, and
    the one that finds it is. *)
Definition enough_fuel (timeout : Z) : nat := S (Z.to_nat (2 * timeout + 1)).

(** The probes still to come when [elapsed] of the window has gone by. *)
Definition probes_left (timeout elapsed : Z) : nat :=
  S (Z.to_nat ((timeout - elapsed) / 500 + 1)).

(** The world after the handler of [parse_result] has saved its two
    artifacts. *)
Definition failure_world (file : string) (f : fault) (w : world) : world :=
  add_event (FileWrite "error.htm" (pages w (ndoc w)))
    (add_event GetDocument
       (next_doc
          (add_event (Render "error.png")
             (add_event (LogDebug (parse_error_msg file f)) w)))).

(** ** Frames *)

(** [keeps R m]: whenever [m] finishes, by returning or by raising, the
    world it leaves is related by [R] to the world it started in. *)
Definition keeps (R : world -> world -> Prop) {A} (m : M A) : Prop :=
  forall w,
    match m w with
    | Returns _ w' => R w w'
    | Raises _ w' => R w w'
    | Unfinished => True
    end.

(** The frame of everything after the session is opened: the module
    global, the day, the form, the page stream and the count of open
    sessions stay as they are; the document counter and the trace only
    grow; no session is opened; and the debugger is not entered while
    [DEBUG] is off. *)
Definition frame (w w' : world) : Prop :=
  DEBUG w' = DEBUG w /\ today w' = today w /\ form w' = form w /\
  pages w' = pages w /\ sessions w' = sessions w /\
  (ndoc w <= ndoc w')%nat /\
  exists evs, trace w' = trace w ++ evs /\ ~ In SessionNew evs /\
              (DEBUG w = false -> ~ In SetTrace evs).

(** ** Fragments *)

(** No byte of the string is whitespace. *)
Fixpoint no_space (s : string) : bool :=
  match s with
  | EmptyString => true
  | String c s' => negb (PyStr.isspace c) && no_space s'
  end.

Definition is_nil {A} (l : list A) : bool :=
  match l with [] => true | _ :: _ => false end.

(** The nodes a path selects from the first node of [nodes]. *)
Definition from_first (path : list step) (nodes : list element)
  : list element :=
  match nodes with
  | n :: _ => xpath path n
  | [] => []
  end.

(** The node sets behind the nine text fields, in the order of the fields
    of [Connection] with the price left out. *)
Definition text_lookups (result : element) : list (list element) :=
  let departure := xpath departure_path result in
  let duration := xpath duration_path result in
  let arrival := xpath arrival_path result in
  [from_first date_path departure; from_first time_path departure;
   from_first stop_path departure;
   from_first [nth "div" 1] duration; from_first [nth "div" 2] duration;
   from_first date_path arrival; from_first time_path arrival;
   from_first stop_path arrival;
   xpath company_path result].

(** Every node set that [parse_fields] takes the first element of. *)
Definition lookups (result : element) : list (list element) :=
  [xpath departure_path result; xpath duration_path result;
   xpath arrival_path result; xpath price_path result] ++
  text_lookups result.

(** A sub-field is missing: one of the lookups selects nothing. *)
Definition missing_subfield (result : element) : bool :=
  existsb is_nil (lookups result).

(** The price node is there, but it has no text, or no token, or its first
    token is not a number once commas are periods. *)
Definition unparsable_price (result : element) : bool :=
  match xpath price_path result with
  | [] => false
  | n :: _ =>
      match text n with
      | None => true
      | Some s =>
          match PyStr.split s with
          | [] => true
          | tok :: _ =>
              match format_price tok with
              | fail _ => true
              | ok _ => false
              end
          end
      end
  end.

(** Malformed: a sub-field is missing, or the price cannot be parsed. *)
Definition malformed (result : element) : bool :=
  missing_subfield result || unparsable_price result.

(** The [.text] of the first node of a node set. *)
Definition head_text (nodes : list element) : option string :=
  match nodes with
  | n :: _ => text n
  | [] => None
  end.

(** The nine fields that are read from [.text], in order. *)
Definition text_fields (c : Connection) : list (option string) :=
  [departure_date c; departure_time c; departure_stop c; trip_duration c;
   number_of_stops c; arrival_date c; arrival_time c; arrival_stop c;
   company c].

(** The price of a parsed fragment: the formatted number of its first
    token. *)
Definition price_of (result : element) : option string :=
  match xpath price_path result with
  | n :: _ =>
      match text n with
      | Some s =>
          match PyStr.split s with
          | tok :: _ =>
              match format_price tok with
              | ok p => Some p
              | fail _ => None
              end
          | [] => None
          end
      | None => None
      end
  | [] => None
  end.

(** The first results container is absent, or it has no text to read. *)
Definition unreadable (doc : element) : Prop :=
  search_results doc = [] \/
  exists r rest, search_results doc = r :: rest /\ text r = None.

(** What the loop appends for a fragment: its Connection, or [None] when it
    does not parse (which the loop only survives under [DEBUG]). *)
Definition parsed_as (r : element) (c : option Connection) : Prop :=
  match parse_fields r with
  | ok x => c = Some x
  | fail _ => c = None
  end.

(** ** Replay *)

(** Two worlds are alike when they agree on [DEBUG], on the day, on the
    form and on the documents still to come, their clocks differing by a
    fixed offset [delta]; traces, document counters and session counts may
    differ. *)
Definition alike (delta : Z) (w1 w2 : world) : Prop :=
  DEBUG w1 = DEBUG w2 /\ today w1 = today w2 /\
  (forall s, form w1 s = form w2 s) /\
  (forall k, pages w1 (ndoc w1 + k)%nat = pages w2 (ndoc w2 + k)%nat) /\
  clock w2 = clock w1 + delta.

(** Same value or same exception, in worlds that are alike again. *)
Definition same_result {A} (delta : Z) (r1 r2 : result A) : Prop :=
  match r1, r2 with
  | Returns a w1, Returns b w2 => a = b /\ alike delta w1 w2
  | Raises e1 w1, Raises e2 w2 => e1 = e2 /\ alike delta w1 w2
  | Unfinished, Unfinished => True
  | _, _ => False
  end.

(** Run in worlds that are alike, the two computations end the same way. *)
Definition agree {A} (delta : Z) (m1 m2 : M A) : Prop :=
  forall w1 w2, alike delta w1 w2 -> same_result delta (m1 w1) (m2 w2).

(** Two outcomes with the same value or the same exception. *)
Definition same_outcome {A} (r1 r2 : result A) : Prop :=
  match r1, r2 with
  | Returns a _, Returns b _ => a = b
  | Raises e1 _, Raises e2 _ => e1 = e2
  | Unfinished, Unfinished => True
  | _, _ => False
  end.

(** ** Fixtures: pages of the search site *)

Module Fixture.

Definition span (t : string) : element := Element "span" [] (Some t) [].
Definition div (cs : list element) : element := Element "div" [] None cs.
Definition leaf (t : string) : element := Element "div" [] (Some t) [].
Definition strong (t : option string) : element := Element "strong" [] t [].

(** A stop: the date and time spans, then the name of the stop. *)
Definition stop (date : element) (time name : string) : element :=
  div [div [date; span "-"; span time]; div [span name]].

(** One search result, with the given departure-date span and price text. *)
Definition fragment_with (date : element) (price_text : option string)
  : element :=
  Element "div" ["search-result"] (Some "Berlin - Hamburg")
    [div [div [div [stop date "08:00" "Berlin ZOB";
                    div [leaf "3:30 Std."; leaf "0 Umstiege"];
                    stop (span "Sa, 6.6.") "11:30" "Hamburg ZOB"];
               div [div [div [div [span "Anbieter"; span "FlixBus"]]];
                    div [div [span "ab";
                              Element "span" [] None [strong price_text]]]]]]].

Definition fragment (price_text : string) : element :=
  fragment_with (span "Sa, 6.6.") (Some price_text).

Definition page (body : list element) : element :=
  Element "html" [] None [Element "body" [] None body].

(** The page while the site still loads, and without any container. *)
Definition page_loading : element :=
  page [Element "div" ["search-result"] (Some "Lade Busverbindungen ...") []].
Definition page_blank : element := page [].

Definition june_1 : date := {| year := 2015; month := 6; day := 1 |}.

(** The file the module is loaded from when it is run from a checkout. *)
Definition main_py : string := "src/fernbus/main.py".

(** A site that shows [first] at the first call of [document()] and [later]
    from then on, on the first of June 2015, nothing done yet. *)
Definition site (first later : element) : world :=
  {| DEBUG := false; today := june_1; form := fun _ => true;
     pages := fun n => match n with O => first | S _ => later end;
     ndoc := 0; clock := 0; sessions := 0; trace := [] |}.

(** The same site on the same day, seen by a later call: other clock, other
    counters, a trace already there. *)
Definition later_site (doc : element) : world :=
  {| DEBUG := false; today := june_1; form := fun _ => true;
     pages := fun _ => doc;
     ndoc := 7; clock := 90000; sessions := 3;
     trace := [SessionNew; GetDocument] |}.

Definition two_results : element :=
  page [fragment "19,99 EUR"; fragment "7,5 EUR"].

End Fixture.

(** * The rest of the code: [utils.py] and what the later properties need *)

(** ** [natural_sort_key] (utils.py, lines 14-38) *)

Module Utils.

(** [re.split(INTEGER_RE, s)] for the pattern [([0-9]+)]: the text between
    the maximal runs of digits and, the pattern having a group, the runs
    themselves, in turn.  [cur] is the piece being read and [in_run] tells
    whether it is a run of digits. *)
Fixpoint split_runs (cur : string) (in_run : bool) (s : string)
  : list string :=
  match s with
  | EmptyString => if in_run then [cur; ""%string] else [cur]
  | String c s' =>
      if PyStr.is_digit c then
        if in_run then split_runs (cur ++ String c "") true s'
        else cur :: split_runs (String c "") true s'
      else
        if in_run then cur :: split_runs (String c "") false s'
        else split_runs (cur ++ String c "") false s'
  end.

Definition re_split (s : string) : list string := split_runs "" false s.

(** [text.isdigit()] on a byte string: not empty, and digits only. *)
Definition isdigit (text : string) : bool :=
  negb (PyStr.is_empty text) && PyStr.all_digits text.

(** An item of a key: a piece of text, or the number of a run of digits. *)
Inductive key_item : Type :=
| KStr (s : string)
| KInt (n : Z).

(** Line 37: [int(text) if text.isdigit() else text]. *)
Definition key_of_piece (text : string) : key_item :=
  if isdigit text then KInt (PyStr.Z_of_digits text) else KStr text.

Definition natural_sort_key (s : string) : list key_item :=
  map key_of_piece (re_split s).

(** Python 2 compares a number with a number by value, a string with a
    string byte by byte, and puts every number before every string. *)
Definition item_compare (a b : key_item) : comparison :=
  match a, b with
  | KInt n, KInt m => Z.compare n m
  | KStr s, KStr t => String.compare s t
  | KInt _, KStr _ => Lt
  | KStr _, KInt _ => Gt
  end.

(** Lists compare item by item; a proper prefix comes first. *)
Fixpoint key_compare (k1 k2 : list key_item) : comparison :=
  match k1, k2 with
  | [], [] => Eq
  | [], _ :: _ => Lt
  | _ :: _, [] => Gt
  | a :: k1', b :: k2' =>
      match item_compare a b with
      | Eq => key_compare k1' k2'
      | c => c
      end
  end.

(** [sorted(items, key=natural_sort_key)] as a stable insertion sort: an
    item goes before the first one whose key is not smaller than its own. *)
Fixpoint insert_by_key (x : string) (l : list string) : list string :=
  match l with
  | [] => [x]
  | y :: l' =>
      match key_compare (natural_sort_key x) (natural_sort_key y) with
      | Gt => y :: insert_by_key x l'
      | _ => x :: y :: l'
      end
  end.

Fixpoint sorted_by_key (items : list string) : list string :=
  match items with
  | [] => []
  | x :: rest => insert_by_key x (sorted_by_key rest)
  end.

(** No byte of the string is a digit. *)
Fixpoint no_digit (s : string) : bool :=
  match s with
  | EmptyString => true
  | String c s' => negb (PyStr.is_digit c) && no_digit s'
  end.

(** The string does not start with a digit. *)
Definition no_digit_head (s : string) : bool :=
  match s with
  | EmptyString => true
  | String c _ => negb (PyStr.is_digit c)
  end.

(** The shape of a key: text and numbers in turn, text first and last.
    [key_shape b k]: [k] is such a key from a number on ([b = true]) or
    from a text on ([b = false]). *)
Inductive key_shape : bool -> list key_item -> Prop :=
| shape_last t : no_digit t = true -> key_shape false [KStr t]
| shape_text t k :
    no_digit t = true -> key_shape true k -> key_shape false (KStr t :: k)
| shape_number n k :
    0 <= n -> key_shape false k -> key_shape true (KInt n :: k).

(** Both items are numbers, or both are texts. *)
Definition same_kind (a b : key_item) : Prop :=
  match a, b with
  | KInt _, KInt _ => True
  | KStr _, KStr _ => True
  | _, _ => False
  end.

End Utils.

(** ** Calendar dates (main.py, lines 85-86) *)

(** A date that [datetime.date] can hold: years 1 to 9999, months 1 to 12,
    days 1 to 31. *)
Definition valid_date (d : date) : bool :=
  ((1 <=? year d) && (year d <=? 9999) &&
   (1 <=? month d) && (month d <=? 12) &&
   (1 <=? day d) && (day d <=? 31))%Z.

(** The order of the calendar: by year, then month, then day. *)
Definition date_compare (d1 d2 : date) : comparison :=
  match Z.compare (year d1) (year d2) with
  | Eq =>
      match Z.compare (month d1) (month d2) with
      | Eq => Z.compare (day d1) (day d2)
      | c => c
      end
  | c => c
  end.

(** The [width] last decimal digits of [n], the most significant first. *)
Fixpoint fixed_width (width : nat) (n : Z) : string :=
  match width with
  | O => ""%string
  | S w =>
      String (PyStr.digit_char (n / 10 ^ Z.of_nat w))
             (fixed_width w (n mod 10 ^ Z.of_nat w))
  end.

(** ** The table and the events of a run *)

(** The row of the table for a connection whose two stops have texts: the
    departure time, the price, the first twenty characters of the
    departure stop, the arrival time, the first twenty characters of the
    arrival stop and the company. *)
Definition row_for (connection : option Connection) (r : row) : Prop :=
  exists c from to,
    connection = Some c /\
    departure_stop c = Some from /\ arrival_stop c = Some to /\
    r = [departure_time c; Some (price c); Some (PyStr.slice_to 20 from);
         arrival_time c; Some (PyStr.slice_to 20 to); company c].

(** The exception of slicing [None] (lines 161 and 162). *)
Definition slice_of_none : exn :=
  TypeError "'NoneType' object has no attribute '__getitem__'".

(** [only P w w']: from [w] to [w'] the trace has grown by events that all
    satisfy [P]. *)
Definition only (P : event -> Prop) (w w' : world) : Prop :=
  exists evs, trace w' = trace w ++ evs /\ Forall P evs.



(** The events that do nothing to the page: reading the document, the
    snapshot and the dump at their fixed paths, the log and the debugger. *)
Definition passive (e : event) : bool :=
  match e with
  | GetDocument | LogDebug _ | SetTrace => true
  | Render path => String.eqb path "error.png"
  | FileWrite path _ => String.eqb path "error.htm"
  | _ => false
  end.

(** The events of polling: reading the document, the snapshot, the log. *)
Definition observing (e : event) : bool :=
  match e with
  | GetDocument | LogDebug _ => true
  | Render path => String.eqb path "error.png"
  | _ => false
  end.

(** A run has ended in the world [w'], by returning or by raising. *)
Definition ends_in {A} (r : result A) (w' : world) : Prop :=
  (exists a, r = Returns a w') \/ (exists e, r = Raises e w').

(** The probe of [results_are_ready] finds the results loaded in [doc]. *)
Definition ready (doc : element) : Prop :=
  ready_probe (search_results doc) = ok true.

(** The events of a call up to the click, in their order. *)
Definition events_until_click (a b d : string) : list event :=
  [SessionNew; SetAttribute "auto_load_images" false; Visit SEARCH_PAGE;
   LogDebug "browser session created."] ++
  events_before_check a b d ++ events_of_submit d.

(** The no-break space U+00A0, as its two bytes. *)
Definition nbsp : string :=
  String (ascii_of_N 194) (String (ascii_of_N 160) "").

(** A token of ASCII bytes, none of them white space, be it for a [str]
    or for a [unicode] object. *)
Fixpoint plain (s : string) : bool :=
  match s with
  | EmptyString => true
  | String c s' =>
      PyStr.is_ascii_byte c && negb (PyStr.uni_isspace (N_of_ascii c))
      && plain s'
  end.

(** The code points of an ASCII string. *)
Fixpoint codes (s : string) : list N :=
  match s with
  | EmptyString => []
  | String c s' => N_of_ascii c :: codes s'
  end.

Module Cases.

(** A search result whose departure stop has a span without text. *)
Definition fragment_without_stop_text : element :=
  Element "div" ["search-result"] (Some "Berlin - Hamburg")
    [Fixture.div
       [Fixture.div
          [Fixture.div
             [Fixture.div
                [Fixture.div [Fixture.span "Sa, 6.6."; Fixture.span "-";
                              Fixture.span "08:00"];
                 Fixture.div [Element "span" [] None []]];
              Fixture.div [Fixture.leaf "3:30 Std."; Fixture.leaf "0 Umstiege"];
              Fixture.stop (Fixture.span "Sa, 6.6.") "11:30" "Hamburg ZOB"];
           Fixture.div
             [Fixture.div
                [Fixture.div
                   [Fixture.div [Fixture.span "Anbieter";
                                 Fixture.span "FlixBus"]]];
              Fixture.div
                [Fixture.div
                   [Fixture.span "ab";
                    Element "span" [] None
                      [Fixture.strong (Some "19,99 EUR"%string)]]]]]]].

(** A site that shows the documents of [docs] one after the other, a new
    one at each call of [document()], and [last] from then on. *)
Definition stream (docs : list element) (last : element) : world :=
  {| DEBUG := false; today := Fixture.june_1; form := fun _ => true;
     pages := fun n => List.nth n docs last;
     ndoc := 0; clock := 0; sessions := 0; trace := [] |}.

Definition cli (debug : bool) (date : string) : cli_args :=
  {| arg_debug := debug; arg_timeout := 10; arg_origin := "Berlin";
     arg_destination := "Hamburg"; arg_date := date |}.

End Cases.

(** * Properties *)

(** ** Rounding *)

Module Rounding.
Import PyFloat.

Lemma round_half_even_near a b :
  0 < b -> - b <= 2 * (round_half_even a b * b - a) <= b.
Proof.
  intros Hb. unfold round_half_even.
  pose proof (Z.div_mod a b ltac:(lia)) as Hdm.
  pose proof (Z.mod_pos_bound a b Hb) as Hr.
  destruct (Z.ltb_spec (2 * (a mod b)) b); [nia|].
  destruct (Z.ltb_spec b (2 * (a mod b))); [nia|].
  destruct (Z.even (a / b)); nia.
Qed.

Lemma round_half_even_nonneg a b : 0 <= a -> 0 < b -> 0 <= round_half_even a b.
Proof.
  intros Ha Hb. unfold round_half_even.
  assert (0 <= a / b) by (apply Z.div_pos; lia).
  destruct (_ <? _); [lia|]. destruct (_ <? _); [lia|].
  destruct (Z.even _); lia.
Qed.

(** [ilog2] does not overshoot: [2 ^ ilog2 a b <= a / b]. *)
Lemma ilog2_lower a b : 0 < a -> 0 < b -> pow2_le (ilog2 a b) a b = true.
Proof.
  intros Ha Hb. unfold ilog2.
  destruct (pow2_le (Z.log2 a - Z.log2 b) a b) eqn:Hl; [exact Hl|].
  pose proof (Z.log2_spec a Ha) as (Ha1 & Ha2).
  pose proof (Z.log2_spec b Hb) as (Hb1 & Hb2).
  pose proof (Z.log2_nonneg a) as Hla. pose proof (Z.log2_nonneg b) as Hlb.
  unfold pow2_le. destruct (Z.leb_spec 0 (Z.log2 a - Z.log2 b - 1)).
  - apply Z.leb_le.
    assert (H2 : 2 ^ Z.succ (Z.log2 b) * 2 ^ (Z.log2 a - Z.log2 b - 1)
                 = 2 ^ Z.log2 a).
    { rewrite <- Z.pow_add_r by lia. f_equal. lia. }
    assert (0 < 2 ^ (Z.log2 a - Z.log2 b - 1))
      by (apply Z.pow_pos_nonneg; lia).
    nia.
  - apply Z.leb_le.
    assert (H2 : 2 ^ Z.log2 a * 2 ^ (- (Z.log2 a - Z.log2 b - 1))
                 = 2 ^ Z.succ (Z.log2 b)).
    { rewrite <- Z.pow_add_r by lia. f_equal. lia. }
    assert (0 < 2 ^ (- (Z.log2 a - Z.log2 b - 1)))
      by (apply Z.pow_pos_nonneg; lia).
    nia.
Qed.

(** A quotient below [2^n] has its logarithm below [n]. *)
Lemma ilog2_below a b n :
  0 < a -> 0 < b -> 0 <= n -> a < b * 2 ^ n -> ilog2 a b < n.
Proof.
  intros Ha Hb Hn Hlt. pose proof (ilog2_lower a b Ha Hb) as H.
  unfold pow2_le in H. destruct (Z.leb_spec 0 (ilog2 a b)); [|lia].
  apply Z.leb_le in H.
  destruct (Z.lt_ge_cases (ilog2 a b) n) as [|Hge]; [assumption|].
  assert (2 ^ n <= 2 ^ ilog2 a b) by (apply Z.pow_le_mono_r; lia).
  nia.
Qed.

(** Below [2^1023] nothing overflows. *)
Lemma round_binary64_finite neg a b :
  0 < a -> 0 < b -> a < b * 2 ^ 1023 ->
  round_binary64 neg a b =
  Finite neg (scaled_round a b (Z.max (ilog2 a b - 52) (-1074)))
             (Z.max (ilog2 a b - 52) (-1074)).
Proof.
  intros Ha Hb Hlt. unfold round_binary64.
  pose proof (ilog2_below a b 1023 Ha Hb ltac:(lia) Hlt).
  destruct (Z.ltb_spec 971 (Z.max (ilog2 a b - 52) (-1074))); [lia|].
  destruct (Z.eqb_spec (Z.max (ilog2 a b - 52) (-1074)) 971); [lia|].
  reflexivity.
Qed.

(** Below [2^46] the hundredth nearest to the double nearest to [a / b] is
    less than one hundredth away from [a / b] itself. *)
Lemma cents_near neg a b :
  0 < a -> 0 < b -> a < b * 2 ^ 46 ->
  exists m e,
    round_binary64 neg a b = Finite neg m e /\ 0 <= m /\
    Z.abs (cents m e * b - 100 * a) < b.
Proof.
  intros Ha Hb Hlt.
  assert (Hbig : a < b * 2 ^ 1023).
  { assert (2 ^ 46 <= 2 ^ 1023) by (apply Z.pow_le_mono_r; lia). nia. }
  rewrite (round_binary64_finite neg a b Ha Hb Hbig).
  eexists. eexists. split; [reflexivity|].
  pose proof (ilog2_below a b 46 Ha Hb ltac:(lia) Hlt) as He.
  set (e := Z.max (ilog2 a b - 52) (-1074)).
  assert (Hrange : -1074 <= e <= -7) by (unfold e; lia).
  unfold cents, scaled_round.
  destruct (Z.leb_spec 0 e); [lia|].
  assert (Hk : 2 ^ 7 <= 2 ^ (- e)) by (apply Z.pow_le_mono_r; lia).
  change (2 ^ 7) with 128 in Hk.
  pose proof (round_half_even_near (a * 2 ^ (- e)) b Hb) as Hm.
  set (m := round_half_even (a * 2 ^ (- e)) b) in *.
  pose proof (round_half_even_near (m * 100) (2 ^ (- e)) ltac:(lia)) as Hc.
  set (c := round_half_even (m * 100) (2 ^ (- e))) in *.
  split.
  - unfold m. apply round_half_even_nonneg; nia.
  - assert (H2 : Z.abs (c * b - 100 * a) * (2 * 2 ^ (- e))
                 < b * (2 * 2 ^ (- e))); [|nia].
    assert (Hsplit : 2 * 2 ^ (- e) * (c * b - 100 * a)
                     = b * (2 * (c * 2 ^ (- e) - m * 100))
                       + 100 * (2 * (m * b - a * 2 ^ (- e)))) by ring.
    nia.
Qed.

(** A number of hundredths below [2^46] goes through the float and back
    unchanged: the double nearest to [a / b] has [a * c] as its nearest
    hundredth when [b * c = 100]. *)
Lemma cents_of_round_binary64 neg a b c :
  0 < a -> 0 < b -> b * c = 100 -> a < b * 2 ^ 46 ->
  exists m e,
    round_binary64 neg a b = Finite neg m e /\ cents m e = a * c.
Proof.
  intros Ha Hb Hc Hlt.
  destruct (cents_near neg a b Ha Hb Hlt) as (m & e & Hr & _ & Hn).
  exists m, e. split; [exact Hr|]. nia.
Qed.

End Rounding.

(** ** Digit strings *)

Module Digits.
Import PyStr.

Lemma is_digit_range c :
  is_digit c = true -> 0 <= digit_val c < 10.
Proof.
  unfold is_digit, digit_val. intros H.
  apply andb_true_iff in H as (H1 & H2).
  apply N.leb_le in H1, H2. lia.
Qed.

Lemma digit_char_val c : is_digit c = true -> digit_char (digit_val c) = c.
Proof.
  intros H. pose proof (is_digit_range c H) as Hr.
  unfold digit_char, digit_val in *.
  replace (Z.to_N (Z.of_N (N_of_ascii c) - 48 + 48)) with (N_of_ascii c) by lia.
  apply ascii_N_embedding.
Qed.

Lemma digit_char_is_digit v : 0 <= v < 10 -> is_digit (digit_char v) = true.
Proof.
  intros H.
  assert (Hv : v = 0 \/ v = 1 \/ v = 2 \/ v = 3 \/ v = 4 \/ v = 5 \/ v = 6 \/
               v = 7 \/ v = 8 \/ v = 9) by lia.
  repeat (destruct Hv as [-> | Hv]; [reflexivity|]). now subst.
Qed.

Lemma is_digit_not_space c : is_digit c = true -> isspace c = false.
Proof.
  unfold is_digit, isspace. intros H.
  apply andb_true_iff in H as (H1 & H2). apply N.leb_le in H1, H2.
  apply orb_false_iff. split.
  - apply andb_false_iff. right. apply N.leb_gt. lia.
  - apply N.eqb_neq. lia.
Qed.

Lemma split_from_no_space s : forall cur,
  no_space s = true -> is_empty (cur ++ s) = false ->
  split_from cur s = [(cur ++ s)%string].
Proof.
  induction s as [|c s IH]; intros cur Hs Hne.
  - simpl. assert (Hc : (cur ++ "")%string = cur)
      by (clear; induction cur as [|x cur IH]; simpl; congruence).
    rewrite Hc in *. now rewrite Hne.
  - cbn [no_space] in Hs. apply andb_true_iff in Hs as (Hc & Hs).
    apply negb_true_iff in Hc. cbn [split_from]. rewrite Hc.
    assert (Happ : ((cur ++ String c "") ++ s)%string
                   = (cur ++ String c s)%string)
      by (clear; induction cur as [|x cur IH]; simpl; congruence).
    rewrite IH; [now rewrite Happ | exact Hs | now rewrite Happ].
Qed.

(** An ASCII text is a [str]: [split] is [str.split]. *)
Lemma split_ascii s : is_ascii s = true -> split s = split_from "" s.
Proof. intros H. unfold split. now rewrite H. Qed.

Lemma split_no_space s :
  is_ascii s = true -> no_space s = true -> is_empty s = false ->
  split s = [s].
Proof.
  intros Ha Hs Hne. rewrite (split_ascii s Ha).
  now apply split_from_no_space.
Qed.

Lemma is_ascii_app a b :
  is_ascii (a ++ b) = is_ascii a && is_ascii b.
Proof.
  induction a as [|c a IH]; [reflexivity|].
  cbn [String.append is_ascii]. now rewrite IH, andb_assoc.
Qed.

Lemma is_digit_ascii c : is_digit c = true -> is_ascii_byte c = true.
Proof.
  unfold is_digit, is_ascii_byte. intros H.
  apply andb_true_iff in H as (_ & H). apply N.leb_le in H.
  apply N.ltb_lt. lia.
Qed.

Lemma all_digits_ascii s : all_digits s = true -> is_ascii s = true.
Proof.
  induction s as [|c s IH]; [reflexivity|]. cbn [all_digits is_ascii].
  intros H. apply andb_true_iff in H as (Hc & Hs).
  now rewrite (is_digit_ascii c Hc), IH.
Qed.

Lemma all_digits_no_space s : all_digits s = true -> no_space s = true.
Proof.
  induction s as [|c s IH]; [reflexivity|]. cbn [all_digits no_space].
  intros H. apply andb_true_iff in H as (Hc & Hs).
  now rewrite (is_digit_not_space c Hc), IH.
Qed.

Lemma no_space_app a b :
  no_space a = true -> no_space b = true -> no_space (a ++ b) = true.
Proof.
  induction a as [|c a IH]; [auto|]. cbn [no_space String.append].
  intros H Hb. apply andb_true_iff in H as (Hc & Ha).
  now rewrite Hc, IH.
Qed.

(** Replacing commas leaves digits alone. *)
Lemma sub_char_digits s :
  all_digits s = true -> sub_char "," "." s = s.
Proof.
  induction s as [|c s IH]; [reflexivity|]. cbn [all_digits sub_char].
  intros H. apply andb_true_iff in H as (Hc & Hs). rewrite (IH Hs).
  destruct (Ascii.eqb_spec c ","); [subst; discriminate | reflexivity].
Qed.

Lemma sub_char_app a b :
  sub_char "," "." (a ++ b) = (sub_char "," "." a ++ sub_char "," "." b)%string.
Proof. induction a as [|c a IH]; simpl; [reflexivity | now rewrite IH]. Qed.

Lemma span_digits_app ds rest :
  all_digits ds = true ->
  match rest with
  | EmptyString => true
  | String c _ => negb (is_digit c)
  end = true ->
  span_digits (ds ++ rest) = (ds, rest).
Proof.
  intros Hds Hrest. induction ds as [|c ds IH].
  - simpl. destruct rest as [|c rest]; [reflexivity|].
    cbn [span_digits]. apply negb_true_iff in Hrest. now rewrite Hrest.
  - cbn [all_digits] in Hds. apply andb_true_iff in Hds as (Hc & Hds).
    cbn [String.append span_digits]. now rewrite Hc, (IH Hds).
Qed.

Lemma digits_from_app a : forall acc b,
  digits_from acc (a ++ b) = digits_from (digits_from acc a) b.
Proof. induction a as [|c a IH]; intros acc b; simpl; [reflexivity | apply IH]. Qed.

Lemma digits_from_shift s : forall acc,
  digits_from acc s = acc * 10 ^ Z.of_nat (String.length s) + digits_from 0 s.
Proof.
  induction s as [|c s IH]; intros acc.
  - simpl. lia.
  - cbn [digits_from String.length]. rewrite IH, (IH (10 * 0 + digit_val c)).
    rewrite Nat2Z.inj_succ, Z.pow_succ_r by lia. ring.
Qed.

Lemma Z_of_digits_app a b :
  Z_of_digits (a ++ b) =
  Z_of_digits a * 10 ^ Z.of_nat (String.length b) + Z_of_digits b.
Proof.
  unfold Z_of_digits. rewrite digits_from_app. apply digits_from_shift.
Qed.

Lemma Z_of_digits_bounds s :
  all_digits s = true ->
  0 <= Z_of_digits s < 10 ^ Z.of_nat (String.length s).
Proof.
  unfold Z_of_digits. induction s as [|c s IH]; intros H.
  - simpl. lia.
  - cbn [all_digits] in H. apply andb_true_iff in H as (Hc & Hs).
    pose proof (is_digit_range c Hc). specialize (IH Hs).
    cbn [digits_from String.length]. rewrite digits_from_shift.
    rewrite Nat2Z.inj_succ, Z.pow_succ_r by lia. nia.
Qed.

(** The decimal numeral of a number is made of digits. *)
Lemma string_of_uint_digits d :
  all_digits (NilEmpty.string_of_uint d) = true.
Proof. induction d; simpl; auto. Qed.

Lemma string_of_Z_digits n : all_digits (string_of_Z n) = true.
Proof.
  unfold string_of_Z, NilZero.string_of_uint.
  destruct (N.to_uint (Z.to_N n)); try reflexivity;
    apply (string_of_uint_digits (_ _)).
Qed.

End Digits.

(** ** [float()] and the format on comma-decimal strings *)

Module Price.
Import PyStr PyFloat Rounding Digits.

Lemma digit_cases c :
  is_digit c = true ->
  In c ["0"; "1"; "2"; "3"; "4"; "5"; "6"; "7"; "8"; "9"]%char.
Proof.
  intros H. rewrite <- (digit_char_val c H).
  pose proof (is_digit_range c H) as Hr.
  assert (Hv : digit_val c = 0 \/ digit_val c = 1 \/ digit_val c = 2 \/
               digit_val c = 3 \/ digit_val c = 4 \/ digit_val c = 5 \/
               digit_val c = 6 \/ digit_val c = 7 \/ digit_val c = 8 \/
               digit_val c = 9) by lia.
  repeat (destruct Hv as [-> | Hv]; [simpl; tauto|]). rewrite Hv. simpl. tauto.
Qed.

(** A string that starts with a digit has no sign and is no keyword. *)
Lemma of_string_head_digit c s :
  is_digit c = true ->
  parse_sign (String c s) = (false, String c s) /\
  (String.eqb (lowercase (String c s)) "inf" ||
   String.eqb (lowercase (String c s)) "infinity") = false /\
  String.eqb (lowercase (String c s)) "nan" = false.
Proof.
  intros H. apply digit_cases in H. cbn [In] in H.
  repeat (destruct H as [<- | H]; [repeat split|]). contradiction.
Qed.

Lemma append_empty s : (s ++ "")%string = s.
Proof. induction s as [|c s IH]; simpl; congruence. Qed.

(** [float("<ip>.<fp>")] is the double nearest to the decimal. *)
Lemma of_string_decimal ip fp :
  all_digits ip = true -> all_digits fp = true -> is_empty ip = false ->
  of_string (ip ++ "." ++ fp) =
  Some (of_decimal false (Z_of_digits (ip ++ fp))
          (0 - Z.of_nat (String.length fp))).
Proof.
  intros Hip Hfp Hne.
  assert (Hspan : span_digits (ip ++ "." ++ fp) = (ip, ("." ++ fp)%string))
    by (apply span_digits_app; [exact Hip | reflexivity]).
  assert (Hspan2 : span_digits fp = (fp, ""%string)).
  { rewrite <- (append_empty fp) at 1. now apply span_digits_app. }
  destruct ip as [|c ip]; [discriminate|].
  cbn [all_digits] in Hip. apply andb_true_iff in Hip as (Hc & Hip).
  unfold of_string.
  destruct (of_string_head_digit c (ip ++ "." ++ fp) Hc) as (Hs & Hk1 & Hk2).
  cbn [String.append] in *. rewrite Hs, Hk1, Hk2, Hspan.
  cbn [String.append]. rewrite Hspan2. reflexivity.
Qed.

Lemma string_of_Z_nonempty n : is_empty (string_of_Z n) = false.
Proof.
  unfold string_of_Z, NilZero.string_of_uint.
  destruct (N.to_uint (Z.to_N n)); reflexivity.
Qed.

Lemma cents_nonneg m e : 0 <= m -> 0 <= cents m e.
Proof.
  intros Hm. unfold cents. destruct (Z.leb_spec 0 e).
  - assert (0 < 2 ^ e) by (apply Z.pow_pos_nonneg; lia). nia.
  - apply round_half_even_nonneg; [lia | apply Z.pow_pos_nonneg; lia].
Qed.

Lemma scaled_round_nonneg a b e : 0 <= a -> 0 < b -> 0 <= scaled_round a b e.
Proof.
  intros Ha Hb. unfold scaled_round. destruct (Z.leb_spec 0 e).
  - apply round_half_even_nonneg; [lia|].
    assert (0 < 2 ^ e) by (apply Z.pow_pos_nonneg; lia). nia.
  - apply round_half_even_nonneg; [|lia].
    assert (0 < 2 ^ (- e)) by (apply Z.pow_pos_nonneg; lia). nia.
Qed.

(** The shape of a formatted amount: digits, a period, two digits. *)
Lemma format_cents_shape k :
  0 <= k ->
  exists whole d1 d2,
    format_cents k = (whole ++ "." ++ String d1 (String d2 ""))%string /\
    all_digits whole = true /\ is_empty whole = false /\
    is_digit d1 = true /\ is_digit d2 = true.
Proof.
  intros Hk. unfold format_cents, two_digits.
  exists (string_of_Z (k / 100)), (digit_char (k mod 100 / 10)),
         (digit_char ((k mod 100) mod 10)).
  pose proof (Z.mod_pos_bound k 100 ltac:(lia)) as Hm.
  pose proof (Z.mod_pos_bound (k mod 100) 10 ltac:(lia)) as Hm2.
  assert (0 <= k mod 100 / 10 < 10).
  { split; [apply Z.div_pos; lia | apply Z.div_lt_upper_bound; lia]. }
  repeat split; auto using string_of_Z_digits, string_of_Z_nonempty,
    digit_char_is_digit.
Qed.

(** Below [2^1023] the float of a decimal is finite and not negative. *)
Lemma of_decimal_finite mant j :
  0 <= mant -> mant < 10 ^ Z.of_nat j * 2 ^ 1023 ->
  exists m e, of_decimal false mant (0 - Z.of_nat j) = Finite false m e /\
              0 <= m.
Proof.
  intros Hm Hlt. unfold of_decimal.
  destruct (Z.eqb_spec mant 0); [exists 0, 0; split; [reflexivity | lia]|].
  assert (Hp : 0 < 10 ^ Z.of_nat j) by (apply Z.pow_pos_nonneg; lia).
  destruct (Z.leb_spec 0 (0 - Z.of_nat j)).
  - assert (Hj : Z.of_nat j = 0) by lia. rewrite Hj in *.
    change (10 ^ 0) with 1 in *. change (0 - 0) with 0.
    change (10 ^ 0) with 1.
    rewrite round_binary64_finite by lia.
    eexists. eexists. split; [reflexivity|].
    apply scaled_round_nonneg; lia.
  - replace (- (0 - Z.of_nat j)) with (Z.of_nat j) by lia.
    rewrite round_binary64_finite by lia.
    eexists. eexists. split; [reflexivity|].
    apply scaled_round_nonneg; lia.
Qed.

(** Below [2^46] the formatted amount is less than a hundredth away from
    the decimal [mant / 10^j]. *)
Lemma format_2f_near mant j :
  0 <= mant -> mant < 10 ^ Z.of_nat j * 2 ^ 46 ->
  exists k,
    0 <= k /\
    format_2f (of_decimal false mant (0 - Z.of_nat j)) = format_cents k /\
    Z.abs (k * 10 ^ Z.of_nat j - 100 * mant) < 10 ^ Z.of_nat j.
Proof.
  intros Hm Hlt. unfold of_decimal.
  assert (Hp : 0 < 10 ^ Z.of_nat j) by (apply Z.pow_pos_nonneg; lia).
  destruct (Z.eqb_spec mant 0) as [->|Hnz].
  - exists 0. repeat split; [lia | lia].
  - destruct (Z.leb_spec 0 (0 - Z.of_nat j)).
    + assert (Hj : Z.of_nat j = 0) by lia. rewrite Hj in *.
      change (0 - 0) with 0. change (10 ^ 0) with 1 in *.
      destruct (cents_near false (mant * 1) 1) as (m & e & Hr & Hm0 & Hn);
        try lia.
      rewrite Hr. exists (cents m e).
      split; [now apply cents_nonneg|]. split; [reflexivity | lia].
    + replace (- (0 - Z.of_nat j)) with (Z.of_nat j) by lia.
      destruct (cents_near false mant (10 ^ Z.of_nat j))
        as (m & e & Hr & Hm0 & Hn); try lia.
      rewrite Hr. exists (cents m e).
      split; [now apply cents_nonneg|]. split; [reflexivity | exact Hn].
Qed.

(** With at most two decimals and less than [2^46] before the comma, the
    hundredths come back exactly. *)
Lemma format_2f_exact mant j :
  0 <= mant -> (j <= 2)%nat -> mant < 10 ^ Z.of_nat j * 2 ^ 46 ->
  format_2f (of_decimal false mant (0 - Z.of_nat j)) =
  format_cents (mant * 10 ^ (2 - Z.of_nat j)).
Proof.
  intros Hm Hj Hlt. unfold of_decimal.
  destruct (Z.eqb_spec mant 0) as [->|Hnz]; [reflexivity|].
  destruct (Z.leb_spec 0 (0 - Z.of_nat j)).
  - assert (j = 0%nat) as -> by lia.
    change (0 - Z.of_nat 0) with 0. change (2 - Z.of_nat 0) with 2.
    change (10 ^ Z.of_nat 0) with 1 in Hlt.
    change (10 ^ 0) with 1. change (10 ^ 2) with 100.
    destruct (cents_of_round_binary64 false (mant * 1) 1 100)
      as (m & e & Hr & Hc); try lia.
    rewrite Hr. cbn [format_2f String.append]. rewrite Hc. f_equal. lia.
  - replace (- (0 - Z.of_nat j)) with (Z.of_nat j) by lia.
    assert (Hcases : j = 1%nat \/ j = 2%nat) by lia.
    destruct Hcases as [-> | ->].
    + change (10 ^ Z.of_nat 1) with 10 in *.
      change (10 ^ (2 - Z.of_nat 1)) with 10.
      destruct (cents_of_round_binary64 false mant 10 10)
        as (m & e & Hr & Hc); try lia.
      rewrite Hr. cbn [format_2f String.append]. now rewrite Hc.
    + change (10 ^ Z.of_nat 2) with 100 in *.
      change (10 ^ (2 - Z.of_nat 2)) with 1.
      destruct (cents_of_round_binary64 false mant 100 1)
        as (m & e & Hr & Hc); try lia.
      rewrite Hr. cbn [format_2f String.append]. now rewrite Hc.
Qed.

(** Two digits of hundredths, from a fraction of at most two digits. *)
Lemma two_digits_of_fraction fp :
  all_digits fp = true -> (String.length fp <= 2)%nat ->
  two_digits (Z_of_digits fp * 10 ^ (2 - Z.of_nat (String.length fp))) =
  (fp ++ zeros (2 - String.length fp))%string.
Proof.
  intros Hd Hl.
  destruct fp as [|d1 [|d2 [|d3 fp]]]; cbn [String.length] in Hl; try lia.
  - reflexivity.
  - cbn [all_digits] in Hd. apply andb_true_iff in Hd as (H1 & _).
    pose proof (is_digit_range d1 H1).
    unfold Z_of_digits. cbn [digits_from String.length].
    change (2 - Z.of_nat 1) with 1. change (10 ^ 1) with 10.
    unfold two_digits.
    replace ((10 * 0 + digit_val d1) * 10) with (digit_val d1 * 10) by lia.
    rewrite Z.div_mul, Z.mod_mul by lia.
    now rewrite (digit_char_val d1 H1).
  - cbn [all_digits] in Hd. apply andb_true_iff in Hd as (H1 & Hd).
    apply andb_true_iff in Hd as (H2 & _).
    pose proof (is_digit_range d1 H1). pose proof (is_digit_range d2 H2).
    unfold Z_of_digits. cbn [digits_from String.length].
    change (2 - Z.of_nat 2) with 0. change (10 ^ 0) with 1.
    unfold two_digits.
    replace ((10 * (10 * 0 + digit_val d1) + digit_val d2) * 1)
      with (digit_val d2 + digit_val d1 * 10) by lia.
    rewrite Z.div_add, Z.mod_add by lia.
    rewrite Z.div_small, Z.mod_small by lia.
    cbn [Z.add]. now rewrite (digit_char_val d1 H1), (digit_char_val d2 H2).
Qed.

End Price.

(** ** Running the monad *)

Lemma bind_returns {A B} (m : M A) (k : A -> M B) w a w' :
  m w = Returns a w' -> bind m k w = k a w'.
Proof. intros H. unfold bind. now rewrite H. Qed.

Lemma bind_raises {A B} (m : M A) (k : A -> M B) w e w' :
  m w = Raises e w' -> bind m k w = Raises e w'.
Proof. intros H. unfold bind. now rewrite H. Qed.

(** A bind that returns went through a returning first half. *)
Lemma bind_returns_inv {A B} (m : M A) (k : A -> M B) w b w' :
  bind m k w = Returns b w' ->
  exists a w1, m w = Returns a w1 /\ k a w1 = Returns b w'.
Proof.
  unfold bind. destruct (m w) as [a w1|e w1|]; intros H; try discriminate.
  now exists a, w1.
Qed.

(** ** Frames: what a computation leaves alone *)

Section Frames.

Variable R : world -> world -> Prop.
Hypothesis R_refl : forall w, R w w.
Hypothesis R_trans : forall w1 w2 w3, R w1 w2 -> R w2 w3 -> R w1 w3.

Lemma keeps_ret {A} (a : A) : keeps R (ret a).
Proof. intros w. apply R_refl. Qed.

Lemma keeps_raise {A} (e : exn) : keeps R (@raise A e).
Proof. intros w. apply R_refl. Qed.

Lemma keeps_bind {A B} (m : M A) (k : A -> M B) :
  keeps R m -> (forall a, keeps R (k a)) -> keeps R (bind m k).
Proof.
  intros Hm Hk w. unfold bind. specialize (Hm w).
  destruct (m w) as [a w1|e w1|]; auto.
  specialize (Hk a w1). destruct (k a w1); eauto.
Qed.

Lemma keeps_try_except {A} (m : M A) (h : exn -> M A) :
  keeps R m -> (forall e, keeps R (h e)) -> keeps R (try_except m h).
Proof.
  intros Hm Hh w. unfold try_except. specialize (Hm w).
  destruct (m w) as [a w1|e w1|]; auto.
  specialize (Hh e w1). destruct (h e w1); eauto.
Qed.

Lemma keeps_lift {A} (x : attempt A) : keeps R (lift x).
Proof. destruct x; [apply keeps_ret | apply keeps_raise]. Qed.

Lemma keeps_wait_for_loop fuel (c : M (option bool)) i t s :
  keeps R c -> keeps R time -> keeps R (sleep i) ->
  keeps R (wait_for_loop fuel c i t s).
Proof.
  intros Hc Ht Hs. induction fuel as [|fuel IH]; simpl.
  - intros w. exact I.
  - apply keeps_bind; [exact Hc|]. intros res.
    destruct (truthy res); [apply keeps_ret|].
    apply keeps_bind; [exact Ht|]. intros now.
    destruct (t <? now - s); [apply keeps_raise|].
    apply keeps_bind; [exact Hs|]. intros _. exact IH.
Qed.

End Frames.

Lemma frame_refl w : frame w w.
Proof.
  unfold frame. repeat split; auto.
  exists []. rewrite app_nil_r. repeat split; auto.
Qed.

Lemma frame_trans w1 w2 w3 : frame w1 w2 -> frame w2 w3 -> frame w1 w3.
Proof.
  unfold frame.
  intros (D1 & T1 & F1 & P1 & S1 & N1 & evs1 & E1 & A1 & B1)
         (D2 & T2 & F2 & P2 & S2 & N2 & evs2 & E2 & A2 & B2).
  repeat split; try congruence; try lia.
  exists (evs1 ++ evs2). rewrite E2, E1, app_assoc. split; [reflexivity|].
  split.
  - intros H. apply in_app_or in H. tauto.
  - intros Hd H. apply in_app_or in H. destruct H as [H|H].
    + now apply B1.
    + apply B2; congruence.
Qed.

Abbreviation framed := (keeps frame).

Lemma framed_emit e : e <> SessionNew -> e <> SetTrace -> framed (emit e).
Proof.
  intros H1 H2 w. simpl. unfold frame. simpl. repeat split; auto.
  exists [e]. repeat split; auto; simpl; intuition congruence.
Qed.

Lemma framed_document : framed document.
Proof.
  intros w. simpl. unfold frame. simpl. repeat split; auto.
  exists [GetDocument]. repeat split; auto; simpl; intuition congruence.
Qed.

Lemma framed_at_css sel : framed (at_css sel).
Proof.
  intros w. simpl. unfold frame. simpl. repeat split; auto.
  exists [AtCss sel]. repeat split; auto; simpl; intuition congruence.
Qed.

Lemma framed_time : framed time.
Proof. intros w. apply frame_refl. Qed.

Lemma framed_sleep ms : framed (sleep ms).
Proof.
  intros w. simpl. unfold frame. simpl. repeat split; auto.
  exists []. rewrite app_nil_r. repeat split; auto.
Qed.

Lemma framed_current_iso_date : framed current_iso_date.
Proof. intros w. apply frame_refl. Qed.

Create HintDb framed.
#[local] Hint Resolve frame_refl frame_trans : framed.
#[local] Hint Resolve framed_document framed_at_css framed_time framed_sleep
  framed_current_iso_date : framed.

(** One step through a computation built from binds of the primitives. *)
Ltac framed_step :=
  first
    [ apply (keeps_bind frame frame_trans); [| intros ?]
    | apply (keeps_ret frame frame_refl)
    | apply (keeps_raise frame frame_refl)
    | apply (keeps_lift frame frame_refl)
    | apply framed_emit; discriminate
    | solve [auto with framed] ].

Lemma framed_node_set n v : framed (node_set n v).
Proof. destruct n; simpl; framed_step. Qed.

Lemma framed_node_click n : framed (node_click n).
Proof. destruct n; simpl; framed_step. Qed.

#[local] Hint Resolve framed_node_set framed_node_click : framed.

Lemma framed_results_are_ready : framed results_are_ready.
Proof.
  unfold results_are_ready, render, debug. framed_step; [framed_step|].
  destruct (ready_probe _); repeat framed_step.
Qed.

Lemma framed_wait_for fuel i t : framed (wait_for fuel results_are_ready i t).
Proof.
  unfold wait_for. framed_step; [framed_step|].
  apply (keeps_wait_for_loop frame frame_refl frame_trans);
    auto using framed_results_are_ready with framed.
Qed.

Lemma framed_get_results fuel a b d t : framed (get_results fuel a b d t).
Proof.
  unfold get_results, debug, render.
  repeat (framed_step; [framed_step|]).
  framed_step.
  { destruct (String.leb _ _); framed_step. }
  repeat (framed_step; [framed_step|]).
  framed_step.
  { apply (keeps_try_except frame frame_trans).
    - framed_step; [apply framed_wait_for | framed_step].
    - intros e. destruct e; repeat framed_step. }
  repeat framed_step.
Qed.

Lemma framed_parse_result file r : framed (parse_result file r).
Proof.
  unfold parse_result. destruct (parse_fields r) as [c|f]; [framed_step|].
  intros w. unfold bind, debug, render, emit, document, get_DEBUG, raise, ret.
  simpl. destruct (DEBUG w) eqn:D; unfold frame; simpl;
    rewrite <- !app_assoc; simpl; (repeat split; auto; try lia);
    eexists; (split; [reflexivity|]); simpl;
    (split; [| intros D']); intuition congruence.
Qed.

Lemma framed_parse_results file rs acc : framed (parse_results file rs acc).
Proof.
  revert acc. induction rs as [|r rs IH]; intros acc; simpl.
  - framed_step.
  - framed_step; [apply framed_parse_result | apply IH].
Qed.

(** ** Opening the session *)

Lemma create_browser_session_run url li w :
  create_browser_session url li w = Returns tt (session_world url li w).
Proof. reflexivity. Qed.

Lemma find_bus_connections_unfold file fuel a b d t w :
  find_bus_connections file fuel a b d t w =
  bind (get_results fuel a b d t) (fun results => parse_results file results [])
       (session_world SEARCH_PAGE false w).
Proof. reflexivity. Qed.

Lemma framed_after_session file fuel a b d t :
  framed (bind (get_results fuel a b d t)
               (fun results => parse_results file results [])).
Proof.
  framed_step; [apply framed_get_results | apply framed_parse_results].
Qed.

(** ** The ready predicate *)

Lemma results_are_ready_run w :
  results_are_ready w = Returns (probe_value w) (probe_world w).
Proof.
  unfold results_are_ready, probe_value, probe_world, bind, document.
  destruct (ready_probe _); reflexivity.
Qed.

Lemma probe_world_clock w : clock (probe_world w) = clock w.
Proof. unfold probe_world. destruct (ready_probe _); reflexivity. Qed.

Lemma probe_world_ndoc w : ndoc (probe_world w) = S (ndoc w).
Proof. unfold probe_world. destruct (ready_probe _); reflexivity. Qed.

Lemma probe_world_pages w : pages (probe_world w) = pages w.
Proof. unfold probe_world. destruct (ready_probe _); reflexivity. Qed.

Lemma probe_value_truthy w :
  truthy (probe_value w) = true <->
  ready_probe (search_results (pages w (ndoc w))) = ok true.
Proof.
  unfold probe_value. destruct (ready_probe _) as [[|]|f]; simpl;
    split; intros H; congruence.
Qed.

(** ** The polling loop *)

Lemma wait_for_unfold fuel (c : M (option bool)) i t w :
  wait_for fuel c i t w = wait_for_loop fuel c i t (clock w) w.
Proof. reflexivity. Qed.

Lemma wait_for_loop_step fuel timeout start w :
  wait_for_loop (S fuel) results_are_ready 500 timeout start w =
  if truthy (probe_value w) then Returns (probe_value w) (probe_world w)
  else if timeout <? clock w - start then Raises timed_out (probe_world w)
  else wait_for_loop fuel results_are_ready 500 timeout start
         (advance 500 (probe_world w)).
Proof.
  cbn [wait_for_loop]. unfold bind at 1. rewrite results_are_ready_run.
  destruct (truthy (probe_value w)); [reflexivity|].
  unfold bind at 1. unfold time. rewrite probe_world_clock.
  destruct (timeout <? clock w - start); reflexivity.
Qed.

(** With fuel for every probe that can still fall inside the window, the
    loop ends: one of those probes saw a ready page, or the wait timed
    out. *)
Lemma wait_for_loop_ends fuel : forall timeout start w,
  (probes_left timeout (clock w - start) <= fuel)%nat ->
  (exists n w',
      wait_for_loop fuel results_are_ready 500 timeout start w
        = Returns (Some true) w' /\
      (ndoc w <= n < ndoc w + probes_left timeout (clock w - start))%nat /\
      ready_probe (search_results (pages w n)) = ok true) \/
  (exists w',
      wait_for_loop fuel results_are_ready 500 timeout start w
        = Raises timed_out w').
Proof.
  unfold probes_left.
  induction fuel as [|fuel IH]; intros timeout start w Hfuel; [lia|].
  rewrite wait_for_loop_step.
  destruct (truthy (probe_value w)) eqn:Ht.
  - left. exists (ndoc w), (probe_world w).
    apply probe_value_truthy in Ht as Hr.
    unfold probe_value in *. rewrite Hr in *. simpl.
    repeat split; auto; lia.
  - destruct (timeout <? clock w - start) eqn:Hlt.
    + right. eexists. reflexivity.
    + apply Z.ltb_ge in Hlt.
      assert (Hdiv : (timeout - (clock w + 500 - start)) / 500
                     = (timeout - (clock w - start)) / 500 - 1).
      { replace (timeout - (clock w + 500 - start))
          with (timeout - (clock w - start) + (-1) * 500) by lia.
        rewrite Z.div_add by lia. lia. }
      assert (Hpos : 0 <= (timeout - (clock w - start)) / 500)
        by (apply Z.div_pos; lia).
      destruct (IH timeout start (advance 500 (probe_world w)))
        as [(n & w' & Hr & Hn & Hp) | (w' & Hr)].
      * simpl. rewrite probe_world_clock, Hdiv. lia.
      * left. exists n, w'. simpl in Hn.
        rewrite probe_world_ndoc, probe_world_clock, Hdiv in Hn.
        simpl in Hp. rewrite probe_world_pages in Hp.
        repeat split; auto; lia.
      * right. exists w'. exact Hr.
Qed.

Lemma wait_for_ends fuel timeout w :
  (enough_fuel timeout <= fuel)%nat ->
  (exists n w',
      wait_for fuel results_are_ready 500 (1000 * timeout) w
        = Returns (Some true) w' /\
      (ndoc w <= n < ndoc w + enough_fuel timeout)%nat /\
      ready_probe (search_results (pages w n)) = ok true) \/
  (exists w',
      wait_for fuel results_are_ready 500 (1000 * timeout) w
        = Raises timed_out w').
Proof.
  intros Hfuel. rewrite wait_for_unfold.
  assert (Hleft : probes_left (1000 * timeout) (clock w - clock w)
                  = enough_fuel timeout).
  { unfold probes_left, enough_fuel.
    replace (1000 * timeout - (clock w - clock w))
      with (0 + (2 * timeout) * 500) by lia.
    rewrite Z.div_add by lia. reflexivity. }
  rewrite <- Hleft in *. now apply wait_for_loop_ends.
Qed.

(** ** The stages of [get_results] *)

Lemma add_events_trace evs : forall w,
  trace (add_events evs w) = trace w ++ evs.
Proof.
  induction evs as [|e evs IH]; intros w; simpl.
  - now rewrite app_nil_r.
  - unfold add_events in IH. rewrite IH. simpl. now rewrite <- app_assoc.
Qed.

Lemma add_events_frame evs : forall w,
  DEBUG (add_events evs w) = DEBUG w /\ today (add_events evs w) = today w /\
  form (add_events evs w) = form w /\ pages (add_events evs w) = pages w /\
  ndoc (add_events evs w) = ndoc w /\ clock (add_events evs w) = clock w /\
  sessions (add_events evs w) = sessions w.
Proof.
  induction evs as [|e evs IH]; intros w; simpl; [tauto|].
  unfold add_events in IH. destruct (IH (add_event e w)) as (?&?&?&?&?&?&?).
  simpl in *. tauto.
Qed.

(** [get_results], path by path. *)
Lemma get_results_cases fuel a b d t w :
  get_results fuel a b d t w =
  if negb (form w "#From") then
    Raises (no_attribute "set")
      (add_events [LogDebug (trying_msg a b d); AtCss "#From"] w)
  else if negb (form w "#To") then
    Raises (no_attribute "set")
      (add_events [LogDebug (trying_msg a b d); AtCss "#From";
                   FieldSet "#From" a; AtCss "#To"] w)
  else if negb (String.leb (isoformat (today w)) d) then
    Raises (AssertionError past_msg) (add_events (events_before_check a b d) w)
  else if negb (form w "#When") then
    Raises (no_attribute "set") (add_events (events_before_check a b d) w)
  else if negb (form w ".btn-warning") then
    Raises (no_attribute "click")
      (add_events (events_before_check a b d ++
                   [FieldSet "#When" d; AtCss ".btn-warning"]) w)
  else
    await_results fuel t
      (add_events (events_before_check a b d ++ events_of_submit d) w).
Proof.
  unfold get_results, bind at 1 2 3 4 5 6 7 8 9 10 11.
  unfold debug, emit, at_css, current_iso_date. cbn [form add_event].
  destruct (form w "#From"); [|reflexivity]. cbn [negb node_set emit form add_event].
  destruct (form w "#To"); [|reflexivity]. cbn [negb node_set emit form add_event today].
  destruct (String.leb (isoformat (today w)) d); [|reflexivity].
  cbn [negb ret]. 
  destruct (form w "#When"); [|reflexivity]. cbn [negb node_set emit form add_event].
  destruct (form w ".btn-warning"); reflexivity.
Qed.

Lemma await_results_cases fuel t w :
  await_results fuel t w =
  match wait_for fuel results_are_ready 500 (1000 * t) w with
  | Returns _ w1 =>
      Returns (search_results (pages w1 (ndoc w1)))
              (add_event GetDocument (next_doc w1))
  | Raises (WaitTimeoutError _) w1 =>
      Raises (WaitTimeoutError "")
        (add_events
           [LogDebug "Request timed out. See error.png for a screenshot.";
            Render "error.png"] w1)
  | Raises e w1 => Raises e w1
  | Unfinished => Unfinished
  end.
Proof.
  unfold await_results, try_except, bind.
  destruct (wait_for fuel results_are_ready 500 (1000 * t) w)
    as [v w1|e w1|]; try reflexivity.
  destruct e; reflexivity.
Qed.

(** ** The date check (C1) *)

Lemma ltb_not_leb (s1 s2 : string) :
  String.ltb s1 s2 = true -> String.leb s2 s1 = false.
Proof.
  unfold String.ltb, String.leb. rewrite (String.compare_antisym s1 s2).
  destruct (String.compare s2 s1); simpl; congruence.
Qed.

(** C1, as stated, fails: on the first of June 2015 a search for the second
    of May raises the assertion only after the browser session is open and
    the origin and destination fields are set. *)
Lemma past_date_touches_browser :
  String.ltb "2015-05-02" (isoformat (today (Fixture.site Fixture.page_blank Fixture.page_blank))) = true /\
  exists w',
    find_bus_connections Fixture.main_py 1 "Berlin" "Hamburg" "2015-05-02" 10
      (Fixture.site Fixture.page_blank Fixture.page_blank)
    = Raises (AssertionError past_msg) w' /\
    sessions w' = 1%nat /\
    In SessionNew (trace w') /\ In (FieldSet "#From" "Berlin") (trace w').
Proof.
  split; [vm_compute; reflexivity|]. eexists.
  split; [vm_compute; reflexivity|].
  cbn [sessions trace]. split; [reflexivity|]. split; cbn [In]; auto 20.
Qed.

(** C1, amended: for every date before today's ISO date (on a page whose
    origin and destination fields are found) the call fails with the
    assertion error of the date check, after the session is opened, the
    page visited and the origin and destination fields set, and before the
    date field is set, the search submitted or any document read. *)
Theorem past_date_fails_at_date_check file fuel a b d t w :
  form w "#From" = true -> form w "#To" = true ->
  String.ltb d (isoformat (today w)) = true ->
  exists w',
    find_bus_connections file fuel a b d t w
      = Raises (AssertionError past_msg) w' /\
    sessions w' = S (sessions w) /\
    ndoc w' = ndoc w /\
    trace w' = trace w ++
      [SessionNew; SetAttribute "auto_load_images" false; Visit SEARCH_PAGE;
       LogDebug "browser session created."] ++ events_before_check a b d.
Proof.
  intros Hfrom Hto Hlt. apply ltb_not_leb in Hlt.
  rewrite find_bus_connections_unfold.
  eexists. split.
  - apply bind_raises. rewrite get_results_cases. cbn [session_world form today add_event open_session].
    rewrite Hfrom, Hto, Hlt. reflexivity.
  - destruct (add_events_frame (events_before_check a b d)
                (session_world SEARCH_PAGE false w)) as (_&_&_&_&Hn&_&Hs).
    rewrite Hs, Hn, add_events_trace. simpl. rewrite <- !app_assoc.
    repeat split.
Qed.

Lemma past_date_fails_at_date_check_witness :
  exists w',
    find_bus_connections Fixture.main_py 1 "Berlin" "Hamburg" "2015-05-02" 10
      (Fixture.site Fixture.page_blank Fixture.page_blank)
    = Raises (AssertionError past_msg) w' /\
    sessions w' = 1%nat /\ ndoc w' = 0%nat /\
    trace w' = [] ++
      [SessionNew; SetAttribute "auto_load_images" false; Visit SEARCH_PAGE;
       LogDebug "browser session created."] ++
      events_before_check "Berlin" "Hamburg" "2015-05-02".
Proof.
  apply (past_date_fails_at_date_check Fixture.main_py 1 "Berlin" "Hamburg"
      "2015-05-02" 10
           (Fixture.site Fixture.page_blank Fixture.page_blank));
    vm_compute; reflexivity.
Defined.

(** ** After the form is submitted *)

Lemma submitted_world_frame a b d w :
  DEBUG (submitted_world a b d w) = DEBUG w /\
  today (submitted_world a b d w) = today w /\
  form (submitted_world a b d w) = form w /\
  pages (submitted_world a b d w) = pages w /\
  ndoc (submitted_world a b d w) = ndoc w /\
  clock (submitted_world a b d w) = clock w /\
  sessions (submitted_world a b d w) = S (sessions w).
Proof.
  unfold submitted_world.
  destruct (add_events_frame (events_before_check a b d ++ events_of_submit d)
              (session_world SEARCH_PAGE false w)) as (?&?&?&?&?&?&?).
  simpl in *. tauto.
Qed.

Lemma find_bus_connections_submitted file fuel a b d t w :
  form_ok w -> String.leb (isoformat (today w)) d = true ->
  find_bus_connections file fuel a b d t w =
  bind (await_results fuel t) (fun results => parse_results file results [])
       (submitted_world a b d w).
Proof.
  intros (H1 & H2 & H3 & H4) Hd. rewrite find_bus_connections_unfold.
  unfold bind at 1. rewrite get_results_cases.
  cbn [session_world form today add_event open_session].
  rewrite H1, H2, H3, H4, Hd. reflexivity.
Qed.

Lemma parse_result_finishes file r w : parse_result file r w <> Unfinished.
Proof.
  unfold parse_result. destruct (parse_fields r); [discriminate|].
  unfold bind, debug, render, emit, document, get_DEBUG. cbn [DEBUG add_event next_doc].
  destruct (DEBUG w); discriminate.
Qed.

Lemma parse_results_finishes file rs : forall acc w,
  parse_results file rs acc w <> Unfinished.
Proof.
  induction rs as [|r rs IH]; intros acc w; simpl; [discriminate|].
  unfold bind. pose proof (parse_result_finishes file r w) as H.
  destruct (parse_result file r w); [apply IH | discriminate | congruence].
Qed.

Lemma find_bus_connections_finishes file fuel a b d t w :
  (enough_fuel t <= fuel)%nat ->
  find_bus_connections file fuel a b d t w <> Unfinished.
Proof.
  intros Hfuel. rewrite find_bus_connections_unfold. unfold bind at 1.
  rewrite get_results_cases.
  repeat match goal with
         | |- context [if negb ?c then _ else _] =>
             destruct c; cbn [negb]; [|discriminate]
         end.
  rewrite await_results_cases.
  destruct (wait_for_ends fuel t
              (add_events (events_before_check a b d ++ events_of_submit d)
                          (session_world SEARCH_PAGE false w)) Hfuel)
    as [(n & w' & Hr & _) | (w' & Hr)]; rewrite Hr.
  - apply parse_results_finishes.
  - discriminate.
Qed.

(** Whatever the outcome, the world after the call is the world after the
    session was opened, extended within the frame. *)
Lemma find_bus_connections_frame file fuel a b d t w :
  match find_bus_connections file fuel a b d t w with
  | Returns _ w' => frame (session_world SEARCH_PAGE false w) w'
  | Raises _ w' => frame (session_world SEARCH_PAGE false w) w'
  | Unfinished => True
  end.
Proof.
  rewrite find_bus_connections_unfold. apply framed_after_session.
Qed.

(** ** The session is never released (C4) *)

(** C4, as stated, fails: after a successful call the session opened for it
    is still open. *)
Lemma session_open_after_success :
  exists conns w',
    find_bus_connections Fixture.main_py 1 "Berlin" "Hamburg" "2015-06-06" 10
      (Fixture.site (Fixture.page [Fixture.fragment "19,99 EUR"])
                    (Fixture.page [Fixture.fragment "19,99 EUR"]))
    = Returns conns w' /\
    List.length conns = 1%nat /\
    sessions (Fixture.site (Fixture.page [Fixture.fragment "19,99 EUR"])
                           (Fixture.page [Fixture.fragment "19,99 EUR"]))
      = 0%nat /\
    sessions w' = 1%nat.
Proof.
  eexists. eexists. split; [vm_compute; reflexivity|].
  repeat split.
Qed.

(** C4, amended: on every exit path of a call, whether it returns or raises,
    the session it opened is still open: the pipeline calls nothing that
    releases it. *)
Theorem session_left_open file fuel a b d t w :
  (enough_fuel t <= fuel)%nat ->
  exists w',
    ((exists conns,
         find_bus_connections file fuel a b d t w = Returns conns w') \/
     (exists e, find_bus_connections file fuel a b d t w = Raises e w')) /\
    sessions w' = S (sessions w).
Proof.
  intros Hfuel.
  pose proof (find_bus_connections_finishes file fuel a b d t w Hfuel) as Hfin.
  pose proof (find_bus_connections_frame file fuel a b d t w) as Hfr.
  destruct (find_bus_connections file fuel a b d t w) as [v w'|e w'|];
    [| |congruence]; exists w';
    destruct Hfr as (_&_&_&_&Hs&_); (split; [eauto|]); rewrite Hs;
    reflexivity.
Qed.

Lemma session_left_open_witness :
  exists w',
    ((exists conns,
        find_bus_connections Fixture.main_py 22 "Berlin" "Hamburg"
            "2015-06-06" 10
          (Fixture.site Fixture.page_loading
             (Fixture.page [Fixture.fragment "19,99 EUR"]))
        = Returns conns w') \/
     (exists e,
        find_bus_connections Fixture.main_py 22 "Berlin" "Hamburg"
            "2015-06-06" 10
          (Fixture.site Fixture.page_loading
             (Fixture.page [Fixture.fragment "19,99 EUR"]))
        = Raises e w')) /\
    sessions w' = 1%nat.
Proof.
  apply (session_left_open Fixture.main_py 22 "Berlin" "Hamburg" "2015-06-06" 10
           (Fixture.site Fixture.page_loading
              (Fixture.page [Fixture.fragment "19,99 EUR"]))).
  vm_compute. lia.
Defined.

(** ** Timeout (C5) *)

(** C5: when none of the probes that fall inside the wait finds the
    results ready, the call raises the timeout error, which is not the
    parsing error, and the last thing it did before raising was to render
    the snapshot error.png. *)
Theorem timeout_when_never_ready file fuel a b d t w :
  form_ok w -> String.leb (isoformat (today w)) d = true ->
  (enough_fuel t <= fuel)%nat ->
  (forall n, (ndoc w <= n < ndoc w + enough_fuel t)%nat ->
             ready_probe (search_results (pages w n)) <> ok true) ->
  exists w' evs,
    find_bus_connections file fuel a b d t w
      = Raises (WaitTimeoutError "") w' /\
    trace w' = trace w ++ evs ++ [Render "error.png"] /\
    forall msg, WaitTimeoutError "" <> BusliniensucheParsingError msg.
Proof.
  intros Hform Hdate Hfuel Hnever.
  rewrite (find_bus_connections_submitted file fuel a b d t w Hform Hdate).
  pose proof (submitted_world_frame a b d w) as (_&_&_&Hp&Hn&_).
  assert (Hw : exists w1,
            wait_for fuel results_are_ready 500 (1000 * t)
              (submitted_world a b d w) = Raises timed_out w1).
  { destruct (wait_for_ends fuel t (submitted_world a b d w) Hfuel)
      as [(n & w1 & _ & Hrange & Hr) | H]; [|exact H].
    rewrite Hp in Hr. rewrite Hn in Hrange. now apply Hnever in Hr. }
  destruct Hw as (w1 & Hw).
  pose proof (framed_wait_for fuel 500 (1000 * t) (submitted_world a b d w))
    as Hfr.
  rewrite Hw in Hfr. destruct Hfr as (_&_&_&_&_&_& evs1 & Ht1 & _).
  exists (add_events
            [LogDebug "Request timed out. See error.png for a screenshot.";
             Render "error.png"] w1).
  exists ([SessionNew; SetAttribute "auto_load_images" false;
           Visit SEARCH_PAGE; LogDebug "browser session created."] ++
          (events_before_check a b d ++ events_of_submit d) ++ evs1 ++
          [LogDebug "Request timed out. See error.png for a screenshot."]).
  split; [|split].
  - apply bind_raises. rewrite await_results_cases, Hw. reflexivity.
  - rewrite add_events_trace, Ht1. unfold submitted_world.
    rewrite add_events_trace. cbn [session_world trace add_event open_session].
    repeat rewrite <- app_assoc. reflexivity.
  - discriminate.
Qed.

Lemma timeout_when_never_ready_witness :
  exists w' evs,
    find_bus_connections Fixture.main_py 4 "Berlin" "Hamburg" "2015-06-06" 1
      (Fixture.site Fixture.page_blank Fixture.page_loading)
    = Raises (WaitTimeoutError "") w' /\
    trace w' = trace (Fixture.site Fixture.page_blank Fixture.page_loading)
               ++ evs ++ [Render "error.png"] /\
    forall msg, WaitTimeoutError "" <> BusliniensucheParsingError msg.
Proof.
  apply (timeout_when_never_ready Fixture.main_py 4 "Berlin" "Hamburg"
      "2015-06-06" 1
           (Fixture.site Fixture.page_blank Fixture.page_loading)).
  - repeat split.
  - vm_compute; reflexivity.
  - vm_compute. lia.
  - intros [|n] _; vm_compute; discriminate.
Defined.

(** ** The ready predicate (C6, C9) *)

Lemma prefix_app (p s : string) :
  prefix p s = true <-> exists post, s = (p ++ post)%string.
Proof.
  revert s. induction p as [|a p IH]; intros s; simpl.
  - split; [intros _; now exists s | intros _; now destruct s].
  - destruct s as [|b s]; simpl.
    + split; [discriminate | intros (post & H); discriminate].
    + destruct (ascii_dec a b) as [->|Hne].
      * rewrite IH. split; intros (post & H); exists post; congruence.
      * split; [discriminate | intros (post & H); congruence].
Qed.

(** [search] finds exactly the occurrences of the pattern. *)
Lemma search_spec (pat s : string) :
  PyStr.search pat s = true <->
  exists pre post, s = (pre ++ pat ++ post)%string.
Proof.
  induction s as [|c s IH].
  - cbn [PyStr.search]. rewrite orb_false_r, prefix_app. split.
    + intros (post & H). now exists ""%string, post.
    + intros (pre & post & H). destruct pre as [|x pre]; [|discriminate].
      now exists post.
  - cbn [PyStr.search]. rewrite orb_true_iff, prefix_app, IH. split.
    + intros [(post & H) | (pre & post & H)].
      * now exists ""%string, post.
      * exists (String c pre), post. simpl. now rewrite H.
    + intros (pre & post & H). destruct pre as [|x pre].
      * left. now exists post.
      * right. exists pre, post. simpl in H. congruence.
Qed.

Lemma unreadable_probe doc :
  unreadable doc <-> exists f, ready_probe (search_results doc) = fail f.
Proof.
  unfold unreadable, ready_probe.
  destruct (search_results doc) as [|r rest]; simpl.
  - split; [eauto | auto].
  - destruct (text r) as [t|] eqn:Ht.
    + split.
      * intros [H | (r' & rest' & H & Hn)]; [discriminate|].
        injection H as <- <-. congruence.
      * intros (f & H). discriminate.
    + split; [eauto | intros _; right; eauto].
Qed.

(** C6: a probe never raises; it answers [True] exactly when the first
    results container is there, its text can be read and the text does not
    contain the loading message; when the container is absent or its text
    cannot be read the answer is [None], which counts as not ready. *)
Theorem ready_iff_container_loaded w :
  exists v w',
    results_are_ready w = Returns v w' /\
    (v = Some true <->
     exists r rest t,
       search_results (pages w (ndoc w)) = r :: rest /\ text r = Some t /\
       ~ (exists pre post, t = (pre ++ DELAY_MSG ++ post)%string)) /\
    (unreadable (pages w (ndoc w)) -> v = None /\ truthy v = false).
Proof.
  exists (probe_value w), (probe_world w).
  split; [apply results_are_ready_run|]. unfold probe_value, unreadable.
  unfold ready_probe.
  destruct (search_results (pages w (ndoc w))) as [|r rest];
    cbn [first_at attempt_bind].
  - split; [|auto]. split; [discriminate|].
    intros (r & rest & t & H & _). discriminate.
  - destruct (text r) as [t|] eqn:Ht.
    + pose proof (search_spec DELAY_MSG t) as Hs. split.
      * split.
        -- intros H. exists r, rest, t. repeat split; auto.
           injection H as H. apply negb_true_iff in H.
           rewrite <- Hs. congruence.
        -- intros (r' & rest' & t' & H & Ht' & Hn). injection H as <- <-.
           assert (t' = t) as -> by congruence.
           rewrite <- Hs in Hn.
           destruct (PyStr.search DELAY_MSG t); [now contradict Hn | reflexivity].
      * intros [H | (r' & rest' & H & Hn)]; [discriminate|].
        injection H as <- <-. congruence.
    + split; [|auto]. split; [discriminate|].
      intros (r' & rest' & t' & H & Ht' & _). injection H as <- <-.
      congruence.
Qed.

Lemma ready_iff_container_loaded_witness :
  exists v w',
    results_are_ready (Fixture.site Fixture.page_loading Fixture.page_blank)
      = Returns v w' /\
    v = Some false.
Proof.
  destruct (ready_iff_container_loaded
              (Fixture.site Fixture.page_loading Fixture.page_blank))
    as (v & w' & Hrun & Hiff & _).
  exists v, w'. split; [exact Hrun|].
  vm_compute in Hrun. injection Hrun as <- _. reflexivity.
Defined.

Lemma probe_world_unreadable w :
  unreadable (pages w (ndoc w)) ->
  probe_value w = None /\
  trace (probe_world w) =
    trace w ++ [GetDocument; Render "error.png"; LogDebug wait_longer_msg].
Proof.
  intros H. apply unreadable_probe in H as (f & H).
  unfold probe_value, probe_world. rewrite H. split; [reflexivity|].
  simpl. now rewrite <- !app_assoc.
Qed.

(** A call that returns got past the form and the date check. *)
Lemma find_bus_connections_returns_inv file fuel a b d t w conns w' :
  find_bus_connections file fuel a b d t w = Returns conns w' ->
  exists results w1,
    await_results fuel t (submitted_world a b d w) = Returns results w1 /\
    parse_results file results [] w1 = Returns conns w'.
Proof.
  intros Hrun. rewrite find_bus_connections_unfold in Hrun.
  apply bind_returns_inv in Hrun as (results & w1 & Hget & Hparse).
  exists results, w1. split; [|exact Hparse].
  rewrite get_results_cases in Hget.
  repeat match type of Hget with
         | context [if negb ?c then _ else _] =>
             destruct c; cbn [negb] in Hget; [|discriminate]
         end.
  exact Hget.
Qed.

Lemma loop_trace fuel t s w v w2 :
  wait_for_loop fuel results_are_ready 500 t s w = Returns v w2 ->
  exists evs, trace w2 = trace w ++ evs.
Proof.
  intros H.
  pose proof (keeps_wait_for_loop frame frame_refl frame_trans fuel
                results_are_ready 500 t s
                framed_results_are_ready framed_time (framed_sleep 500) w)
    as Hloop.
  rewrite H in Hloop.
  destruct Hloop as (_&_&_&_&_&_& evs2 & Ht2 & _). eauto.
Qed.

Lemma parse_results_trace file rs acc w conns w' :
  parse_results file rs acc w = Returns conns w' ->
  exists evs, trace w' = trace w ++ evs.
Proof.
  intros H. pose proof (framed_parse_results file rs acc w) as Hpr.
  rewrite H in Hpr. destruct Hpr as (_&_&_&_&_&_& evs3 & Ht3 & _). eauto.
Qed.

Lemma first_probe_unreadable fuel t w v w2 :
  unreadable (pages w (ndoc w)) ->
  wait_for fuel results_are_ready 500 t w = Returns v w2 ->
  exists evs,
    trace w2 = trace w ++
      [GetDocument; Render "error.png"; LogDebug wait_longer_msg] ++ evs.
Proof.
  intros Hun Hwait. rewrite wait_for_unfold in Hwait.
  destruct (probe_world_unreadable w Hun) as (Hv & Htr).
  destruct fuel as [|fuel]; [discriminate|].
  rewrite wait_for_loop_step, Hv in Hwait. cbn [truthy] in Hwait.
  destruct (t <? clock w - clock w); [discriminate|].
  apply loop_trace in Hwait as (evs & He).
  exists evs. rewrite He. cbn [trace advance]. rewrite Htr.
  now rewrite <- app_assoc.
Qed.

(** C9: a probe that finds no container, or no text in it, renders the page
    to error.png; so a call whose first probe came too early has written
    the snapshot even when it goes on to return its connections. *)
Theorem snapshot_written_while_polling file fuel a b d t w :
  unreadable (pages w (ndoc w)) ->
  (exists w',
      results_are_ready w = Returns None w' /\
      trace w' = trace w ++
        [GetDocument; Render "error.png"; LogDebug wait_longer_msg]) /\
  (forall conns w',
      find_bus_connections file fuel a b d t w = Returns conns w' ->
      exists evs, trace w' = trace w ++ evs /\ In (Render "error.png") evs).
Proof.
  intros Hun. split.
  - exists (probe_world w). rewrite results_are_ready_run.
    destruct (probe_world_unreadable w Hun) as (-> & Ht). auto.
  - intros conns w' Hrun.
    apply find_bus_connections_returns_inv in Hrun
      as (results & w1 & Hget & Hparse).
    destruct (submitted_world_frame a b d w) as (_&_&_&Hp&Hn&_).
    assert (HunW : unreadable (pages (submitted_world a b d w)
                                     (ndoc (submitted_world a b d w))))
      by now rewrite Hp, Hn.
    rewrite await_results_cases in Hget.
    destruct (wait_for fuel results_are_ready 500 (1000 * t)
                (submitted_world a b d w)) as [v w2|e w2|] eqn:Hwait;
      [| destruct e; discriminate | discriminate].
    injection Hget as _ Hw1.
    apply (first_probe_unreadable _ _ _ _ _ HunW) in Hwait as (evs2 & Ht2).
    apply parse_results_trace in Hparse as (evs3 & Ht3).
    unfold submitted_world in Ht2. rewrite add_events_trace in Ht2.
    cbn [session_world trace add_event open_session] in Ht2.
    rewrite <- Hw1 in Ht3. cbn [trace add_event next_doc] in Ht3.
    eexists. split.
    + rewrite Ht3, Ht2. repeat rewrite <- app_assoc. reflexivity.
    + rewrite !in_app_iff. cbn [In]. tauto.
Qed.

Lemma snapshot_written_while_polling_witness :
  exists conns w',
    find_bus_connections Fixture.main_py 22 "Berlin" "Hamburg" "2015-06-06" 10
      (Fixture.site Fixture.page_blank
         (Fixture.page [Fixture.fragment "19,99 EUR"]))
    = Returns conns w' /\
    exists evs, trace w' = [] ++ evs /\ In (Render "error.png") evs.
Proof.
  destruct (snapshot_written_while_polling Fixture.main_py 22
              "Berlin" "Hamburg" "2015-06-06"
              10 (Fixture.site Fixture.page_blank
                    (Fixture.page [Fixture.fragment "19,99 EUR"])))
    as [_ H].
  - left. vm_compute. reflexivity.
  - eexists. eexists. split; [vm_compute; reflexivity|].
    eapply H. vm_compute. reflexivity.
Defined.

(** ** Well-formed and malformed fragments *)

(** [parse_fields] fails exactly on the malformed fragments; on the others
    it fills the text fields with the texts of the nodes found and the
    price with the formatted number. *)
Lemma parse_fields_spec r :
  match parse_fields r with
  | ok c =>
      malformed r = false /\
      text_fields c = map head_text (text_lookups r) /\
      price_of r = Some (price c)
  | fail _ => malformed r = true
  end.
Proof.
  unfold parse_fields, malformed, missing_subfield, unparsable_price,
    price_of, lookups, text_lookups, price_token, text_at.
  destruct (xpath departure_path r) as [|dep ?]; [reflexivity|].
  cbn [first_at attempt_bind from_first].
  destruct (xpath date_path dep) as [|? ?];
    [now destruct (xpath duration_path r), (xpath arrival_path r),
         (xpath price_path r)|].
  cbn [first_at attempt_bind from_first].
  destruct (xpath time_path dep) as [|? ?];
    [now destruct (xpath duration_path r), (xpath arrival_path r),
         (xpath price_path r)|].
  cbn [first_at attempt_bind from_first].
  destruct (xpath stop_path dep) as [|? ?];
    [now destruct (xpath duration_path r), (xpath arrival_path r),
         (xpath price_path r)|].
  cbn [first_at attempt_bind from_first].
  destruct (xpath duration_path r) as [|dur ?]; [reflexivity|].
  cbn [first_at attempt_bind from_first].
  destruct (xpath [nth "div" 1] dur) as [|? ?];
    [now destruct (xpath arrival_path r), (xpath price_path r)|].
  cbn [first_at attempt_bind from_first].
  destruct (xpath [nth "div" 2] dur) as [|? ?];
    [now destruct (xpath arrival_path r), (xpath price_path r)|].
  cbn [first_at attempt_bind from_first].
  destruct (xpath arrival_path r) as [|arr ?]; [reflexivity|].
  cbn [first_at attempt_bind from_first].
  destruct (xpath date_path arr) as [|? ?];
    [now destruct (xpath price_path r)|].
  cbn [first_at attempt_bind from_first].
  destruct (xpath time_path arr) as [|? ?];
    [now destruct (xpath price_path r)|].
  cbn [first_at attempt_bind from_first].
  destruct (xpath stop_path arr) as [|? ?];
    [now destruct (xpath price_path r)|].
  cbn [first_at attempt_bind from_first].
  destruct (xpath price_path r) as [|pr ?]; [reflexivity|].
  cbn [first_at attempt_bind from_first].
  destruct (text pr) as [s|];
    [|cbn [existsb is_nil app orb]; now rewrite orb_true_r].
  destruct (PyStr.split s) as [|tok ?];
    [cbn [first_at attempt_bind]; now rewrite orb_true_r|].
  cbn [first_at attempt_bind].
  destruct (format_price tok) as [p|f];
    [|cbn [attempt_bind]; now rewrite orb_true_r].
  cbn [attempt_bind].
  destruct (xpath company_path r) as [|? ?]; [reflexivity|].
  cbn [first_at attempt_bind]. repeat split.
Qed.

(** A price that [format_price] builds is a formatted number and the
    suffix. *)
Lemma format_price_ok tok p :
  format_price tok = ok p ->
  exists x, p = (PyFloat.format_2f x ++ euro)%string.
Proof.
  unfold format_price.
  destruct (if PyStr.is_ascii (PyStr.sub_char "," "." tok)
            then ok (PyStr.sub_char "," "." tok)
            else encode_decimal 0
                   (PyStr.decode_utf8 (PyStr.sub_char "," "." tok)))
    as [literal|f]; cbn [attempt_bind]; [|discriminate].
  destruct (PyFloat.of_string literal) as [x|]; [|discriminate].
  intros H. injection H as <-. now exists x.
Qed.

Lemma malformed_fails r :
  malformed r = true <-> exists f, parse_fields r = fail f.
Proof.
  pose proof (parse_fields_spec r) as H.
  destruct (parse_fields r) as [c|f].
  - destruct H as (H & _). split; [congruence | intros (f & Hf); discriminate].
  - split; eauto.
Qed.

(** ** [parse_result] and the loop over the results *)

Lemma parse_result_ok file r c w :
  parse_fields r = ok c -> parse_result file r w = Returns (Some c) w.
Proof. intros H. unfold parse_result. now rewrite H. Qed.

Lemma parse_result_fail file r f w :
  parse_fields r = fail f ->
  parse_result file r w =
  if DEBUG w then Returns None (add_event SetTrace (failure_world file f w))
  else Raises (BusliniensucheParsingError (parse_error_msg file f))
              (failure_world file f w).
Proof.
  intros H. unfold parse_result. rewrite H.
  unfold bind, debug, render, emit, document, get_DEBUG.
  cbn [DEBUG add_event next_doc pages ndoc].
  destruct (DEBUG w); reflexivity.
Qed.

Lemma parse_results_good file good : forall cs rest acc w,
  Forall2 (fun r c => parse_fields r = ok c) good cs ->
  parse_results file (good ++ rest) acc w =
  parse_results file rest (acc ++ map Some cs) w.
Proof.
  induction good as [|r good IH]; intros cs rest acc w H; inversion H; subst.
  - simpl. now rewrite app_nil_r.
  - cbn [app parse_results map]. unfold bind at 1.
    rewrite (parse_result_ok file r y w) by assumption.
    rewrite (IH l' rest) by assumption. now rewrite <- app_assoc.
Qed.

(** A list with a malformed fragment, cut at the first one. *)
Lemma first_malformed results :
  existsb malformed results = true ->
  exists good cs bad rest f,
    results = good ++ bad :: rest /\
    Forall2 (fun r c => parse_fields r = ok c) good cs /\
    parse_fields bad = fail f.
Proof.
  induction results as [|r results IH]; [discriminate|].
  cbn [existsb]. intros H.
  pose proof (parse_fields_spec r) as Hr.
  destruct (parse_fields r) as [c|f] eqn:Hp.
  - destruct Hr as (Hm & _). rewrite Hm in H. cbn [orb] in H.
    destruct (IH H) as (good & cs & bad & rest & f & -> & Hg & Hb).
    exists (r :: good), (c :: cs), bad, rest, f. repeat split; auto.
  - exists [], [], r, results, f. repeat split; auto.
Qed.

Lemma string_app_assoc (a b c : string) :
  ((a ++ b) ++ c = a ++ (b ++ c))%string.
Proof. induction a as [|x a IH]; simpl; [reflexivity | now rewrite IH]. Qed.

(** The exception line of the fault is in the message of the parsing
    error. *)
Lemma parse_error_msg_carries file f :
  exists pre,
    parse_error_msg file f = (pre ++ exn_line (fault_exn f) ++ newline)%string.
Proof.
  exists ("Can't parse results. See error.png/htm for details." ++ newline ++
          "Traceback (most recent call last):" ++ newline ++
          "  File " ++ dquote ++ file ++ dquote ++ ", line " ++
          PyStr.string_of_Z (fault_line f) ++ ", in parse_result" ++
          newline ++ "    " ++ source_line (fault_line f) ++
          newline)%string.
  unfold parse_error_msg, format_exc.
  repeat rewrite string_app_assoc. reflexivity.
Qed.

(** ** A malformed fragment aborts the call (C2) *)

(** The parsing loop stops at the first malformed fragment. *)
Lemma first_malformed_aborts file fuel a b d t w results w1 :
  DEBUG w = false ->
  get_results fuel a b d t (session_world SEARCH_PAGE false w)
    = Returns results w1 ->
  existsb malformed results = true ->
  exists f w',
    find_bus_connections file fuel a b d t w
      = Raises (BusliniensucheParsingError (parse_error_msg file f)) w' /\
    exists good cs bad rest,
      results = good ++ bad :: rest /\
      Forall2 (fun r c => parse_fields r = ok c) good cs /\
      parse_fields bad = fail f.
Proof.
  intros Hdebug Hget Hbad.
  destruct (first_malformed results Hbad)
    as (good & cs & bad & rest & f & -> & Hgood & Hfail).
  pose proof (framed_get_results fuel a b d t
                (session_world SEARCH_PAGE false w)) as Hfr.
  rewrite Hget in Hfr. destruct Hfr as (Hd & _).
  cbn [session_world DEBUG add_event open_session] in Hd.
  exists f, (failure_world file f w1). split.
  - rewrite find_bus_connections_unfold, (bind_returns _ _ _ _ _ Hget).
    rewrite (parse_results_good file good cs (bad :: rest) [] w1 Hgood).
    cbn [parse_results]. apply bind_raises.
    rewrite (parse_result_fail file bad f w1 Hfail), Hd, Hdebug. reflexivity.
  - exists good, cs, bad, rest. auto.
Qed.

(** C2: when the results fetched hold a malformed fragment (a missing
    sub-field or an unparsable price), the call raises the parsing error,
    whose message carries the exception of the first such fragment; no list
    of connections is returned, whatever the other fragments are. *)
Theorem malformed_fragment_aborts file fuel a b d t w results w1 :
  DEBUG w = false ->
  get_results fuel a b d t (session_world SEARCH_PAGE false w)
    = Returns results w1 ->
  existsb malformed results = true ->
  exists f w',
    find_bus_connections file fuel a b d t w
      = Raises (BusliniensucheParsingError (parse_error_msg file f)) w' /\
    (exists good cs bad rest,
        results = good ++ bad :: rest /\
        Forall2 (fun r c => parse_fields r = ok c) good cs /\
        parse_fields bad = fail f) /\
    (exists pre,
        parse_error_msg file f
        = (pre ++ exn_line (fault_exn f) ++ newline)%string).
Proof.
  intros Hdebug Hget Hbad.
  destruct (first_malformed_aborts file fuel a b d t w results w1
              Hdebug Hget Hbad) as (f & w' & Hrun & Hcut).
  exists f, w'. split; [exact Hrun|]. split; [exact Hcut|].
  apply parse_error_msg_carries.
Qed.

Lemma malformed_fragment_aborts_witness :
  exists f w',
    find_bus_connections Fixture.main_py 1 "Berlin" "Hamburg" "2015-06-06" 10
      (Fixture.site
         (Fixture.page [Fixture.fragment "19,99 EUR"])
         (Fixture.page [Fixture.fragment "19,99 EUR";
                        Fixture.fragment_with (Fixture.span "Sa, 6.6.") None;
                        Fixture.fragment "5,00 EUR"]))
      = Raises (BusliniensucheParsingError
                  (parse_error_msg Fixture.main_py f)) w' /\
    (exists good cs bad rest,
        [Fixture.fragment "19,99 EUR";
         Fixture.fragment_with (Fixture.span "Sa, 6.6.") None;
         Fixture.fragment "5,00 EUR"] = good ++ bad :: rest /\
        Forall2 (fun r c => parse_fields r = ok c) good cs /\
        parse_fields bad = fail f) /\
    (exists pre,
        parse_error_msg Fixture.main_py f
        = (pre ++ exn_line (fault_exn f) ++ newline)%string).
Proof.
  eapply (malformed_fragment_aborts Fixture.main_py 1 "Berlin" "Hamburg"
      "2015-06-06" 10
            (Fixture.site
               (Fixture.page [Fixture.fragment "19,99 EUR"])
               (Fixture.page [Fixture.fragment "19,99 EUR";
                              Fixture.fragment_with (Fixture.span "Sa, 6.6.")
                                None;
                              Fixture.fragment "5,00 EUR"]))).
  - reflexivity.
  - vm_compute. reflexivity.
  - vm_compute. reflexivity.
Defined.

(** ** All or nothing, but for empty texts (C7) *)

(** C7, as stated, fails: a fragment whose departure-date span has no text
    parses to a Connection whose [departure_date] is [None]. *)
Lemma connection_with_empty_field :
  exists c w',
    parse_result Fixture.main_py
      (Fixture.fragment_with (Element "span" [] None []) (Some "19,99 EUR"))
      (Fixture.site Fixture.page_blank Fixture.page_blank)
    = Returns (Some c) w' /\
    departure_date c = None.
Proof.
  eexists. eexists. split; [vm_compute; reflexivity | reflexivity].
Qed.

(** C7, amended: [parse_result] is all-or-nothing about the nodes, not
    about their texts.  On a malformed fragment (a sub-node missing, or the
    price unreadable) it yields no Connection: it raises the parsing error,
    or under [DEBUG] returns [None].  On any other fragment it returns a
    Connection whose price is populated and whose nine text fields are the
    [.text] of the nodes found, [None] where a node has no text. *)
Theorem parse_result_all_or_nothing file r w :
  (malformed r = true /\
   exists f,
     parse_fields r = fail f /\
     parse_result file r w =
       if DEBUG w
       then Returns None (add_event SetTrace (failure_world file f w))
       else Raises (BusliniensucheParsingError (parse_error_msg file f))
                   (failure_world file f w)) \/
  (malformed r = false /\
   exists c,
     parse_result file r w = Returns (Some c) w /\
     text_fields c = map head_text (text_lookups r) /\
     exists amount,
       price c = (amount ++ euro)%string /\ amount <> ""%string).
Proof.
  pose proof (parse_fields_spec r) as H.
  destruct (parse_fields r) as [c|f] eqn:Hp.
  - right. destruct H as (Hm & Ht & Hprice). split; [exact Hm|].
    exists c. split; [now apply parse_result_ok|]. split; [exact Ht|].
    unfold price_of in Hprice.
    destruct (xpath price_path r) as [|n ?]; [discriminate|].
    destruct (text n) as [s|]; [|discriminate].
    destruct (PyStr.split s) as [|tok ?]; [discriminate|].
    destruct (format_price tok) as [p|] eqn:Hfmt; [|discriminate].
    injection Hprice as <-.
    apply format_price_ok in Hfmt as (x & ->).
    exists (PyFloat.format_2f x).
    split; [reflexivity|].
    destruct x as [neg m e|neg|]; cbn [PyFloat.format_2f];
      [| destruct neg; discriminate | discriminate].
    unfold PyFloat.format_cents.
    destruct neg; cbn [String.append]; [discriminate|].
    destruct (PyStr.string_of_Z _); discriminate.
  - left. split; [exact H|]. exists f. split; [reflexivity|].
    now apply parse_result_fail.
Qed.

(** ** The command line never reaches the debugger (C10) *)

(** The assignment of line 179 binds a local name. *)
Lemma assign_DEBUG_is_local v local w :
  assign_DEBUG v local w = Returns (Some v) w.
Proof. reflexivity. Qed.

Lemma run_cli_unfold file fuel args w :
  run_cli file fuel args w =
  bind (find_bus_connections file fuel (arg_origin args) (arg_destination args)
          (arg_date args) (arg_timeout args))
       (fun connections =>
          bind (lift (results2table connections))
               (fun table => emit (Stdout table))) w.
Proof. unfold run_cli. destruct (arg_debug args); reflexivity. Qed.

Lemma framed_print_table connections :
  framed (bind (lift (results2table connections))
               (fun table => emit (Stdout table))).
Proof. repeat framed_step. Qed.

(** With [DEBUG] off, a world within the frame of an opened session has
    [DEBUG] off and no debugger event since the start. *)
Lemma frame_session_clean w w' :
  DEBUG w = false ->
  frame (session_world SEARCH_PAGE false w) w' ->
  DEBUG w' = false /\
  exists evs, trace w' = trace w ++ evs /\ ~ In SetTrace evs.
Proof.
  intros Hd (HD & _ & _ & _ & _ & _ & evs & Ht & _ & Hclean).
  cbn [session_world DEBUG trace add_event open_session] in *.
  split; [congruence|].
  exists ([SessionNew; SetAttribute "auto_load_images" false;
           Visit SEARCH_PAGE; LogDebug "browser session created."] ++ evs).
  split.
  - rewrite Ht. repeat rewrite <- app_assoc. reflexivity.
  - rewrite in_app_iff. cbn [In]. specialize (Hclean Hd).
    intuition discriminate.
Qed.

Lemma run_cli_clean file fuel args w w' :
  DEBUG w = false ->
  (exists v, run_cli file fuel args w = Returns v w') \/
  (exists e, run_cli file fuel args w = Raises e w') ->
  DEBUG w' = false /\
  exists evs, trace w' = trace w ++ evs /\ ~ In SetTrace evs.
Proof.
  intros Hd Hrun. apply frame_session_clean; [exact Hd|].
  rewrite run_cli_unfold in Hrun. unfold bind at 1 3 in Hrun.
  pose proof (find_bus_connections_frame file fuel (arg_origin args)
                (arg_destination args) (arg_date args) (arg_timeout args) w)
    as Hfr.
  destruct (find_bus_connections file _ _ _ _ _ w) as [conns w1|e w1|].
  - pose proof (framed_print_table conns w1) as Htail.
    destruct Hrun as [(v & Hrun) | (e & Hrun)]; rewrite Hrun in Htail;
      eapply frame_trans; eauto.
  - destruct Hrun as [(v & Hrun) | (e' & Hrun)]; [discriminate|].
    injection Hrun as _ <-. exact Hfr.
  - destruct Hrun as [(v & Hrun) | (e & Hrun)]; discriminate.
Qed.

(** C10: run as a script, with or without [--debug], the program never
    enters the debugger and leaves the module global [DEBUG] at [False];
    and a malformed fragment among the results makes it raise the parsing
    error. *)
Theorem debugger_unreachable_from_cli file fuel args w :
  (forall w',
      (exists v, main file fuel args w = Returns v w') \/
      (exists e, main file fuel args w = Raises e w') ->
      DEBUG w' = false /\
      exists evs, trace w' = trace w ++ evs /\ ~ In SetTrace evs) /\
  (forall results w1,
      get_results fuel (arg_origin args) (arg_destination args)
        (arg_date args) (arg_timeout args)
        (session_world SEARCH_PAGE false (set_DEBUG false w))
        = Returns results w1 ->
      existsb malformed results = true ->
      exists f w',
        main file fuel args w
          = Raises (BusliniensucheParsingError (parse_error_msg file f)) w').
Proof.
  split.
  - intros w' Hrun.
    apply (run_cli_clean file fuel args (set_DEBUG false w) w');
      [reflexivity | exact Hrun].
  - intros results w1 Hget Hbad.
    destruct (first_malformed_aborts file fuel (arg_origin args)
                (arg_destination args) (arg_date args) (arg_timeout args)
                (set_DEBUG false w) results w1 eq_refl Hget Hbad)
      as (f & w' & Hrun & _).
    exists f, w'. unfold main, bind at 1. rewrite run_cli_unfold.
    now apply bind_raises.
Qed.

Lemma debugger_unreachable_from_cli_witness :
  exists f w',
    main Fixture.main_py 1
      {| arg_debug := true; arg_timeout := 10; arg_origin := "Berlin";
         arg_destination := "Hamburg"; arg_date := "2015-06-06" |}
      (Fixture.site
         (Fixture.page [Fixture.fragment "19,99 EUR"])
         (Fixture.page [Fixture.fragment "zwanzig EUR"]))
    = Raises (BusliniensucheParsingError
                (parse_error_msg Fixture.main_py f)) w' /\
    DEBUG w' = false /\
    exists evs, trace w' = [] ++ evs /\ ~ In SetTrace evs.
Proof.
  destruct (debugger_unreachable_from_cli Fixture.main_py 1
              {| arg_debug := true; arg_timeout := 10;
                 arg_origin := "Berlin"; arg_destination := "Hamburg";
                 arg_date := "2015-06-06" |}
              (Fixture.site
                 (Fixture.page [Fixture.fragment "19,99 EUR"])
                 (Fixture.page [Fixture.fragment "zwanzig EUR"])))
    as [Hclean Hraise].
  destruct (Hraise [Fixture.fragment "zwanzig EUR"]
              (add_event GetDocument
                 (next_doc
                    (add_event GetDocument
                       (next_doc
                          (submitted_world "Berlin" "Hamburg" "2015-06-06"
                             (Fixture.site
                                (Fixture.page [Fixture.fragment "19,99 EUR"])
                                (Fixture.page
                                   [Fixture.fragment "zwanzig EUR"]))))))))
    as (f & w' & Hrun).
  - vm_compute. reflexivity.
  - vm_compute. reflexivity.
  - exists f, w'. split; [exact Hrun|]. apply Hclean. right. eauto.
Defined.

(** ** Replay (C8)

    Every step of the pipeline takes worlds that are alike to the same
    value or exception, in worlds that are alike again. *)

Section Replay.

Variable delta : Z.

Lemma agree_ret {A} (a : A) : agree delta (ret a) (ret a).
Proof. intros w1 w2 H. simpl. auto. Qed.

Lemma agree_raise {A} (e : exn) : agree delta (@raise A e) (raise e).
Proof. intros w1 w2 H. simpl. auto. Qed.

Lemma agree_bind {A B} (m1 m2 : M A) (k1 k2 : A -> M B) :
  agree delta m1 m2 -> (forall a, agree delta (k1 a) (k2 a)) ->
  agree delta (bind m1 k1) (bind m2 k2).
Proof.
  intros Hm Hk w1 w2 H. unfold bind. specialize (Hm w1 w2 H).
  destruct (m1 w1) as [a w1'|e w1'|], (m2 w2) as [b w2'|e' w2'|];
    simpl in Hm; try contradiction; auto.
  destruct Hm as (<- & H'). now apply Hk.
Qed.

Lemma agree_try_except {A} (m1 m2 : M A) (h1 h2 : exn -> M A) :
  agree delta m1 m2 -> (forall e, agree delta (h1 e) (h2 e)) ->
  agree delta (try_except m1 h1) (try_except m2 h2).
Proof.
  intros Hm Hh w1 w2 H. unfold try_except. specialize (Hm w1 w2 H).
  destruct (m1 w1) as [a w1'|e w1'|], (m2 w2) as [b w2'|e' w2'|];
    simpl in Hm; try contradiction; auto.
  destruct Hm as (<- & H'). now apply Hh.
Qed.

Lemma agree_emit e : agree delta (emit e) (emit e).
Proof. intros w1 w2 H. simpl. auto. Qed.

Lemma agree_sleep ms : agree delta (sleep ms) (sleep ms).
Proof.
  intros w1 w2 (H1 & H2 & H3 & H4 & H5). simpl. split; [reflexivity|].
  unfold alike. simpl. repeat split; auto. lia.
Qed.

Lemma agree_get_DEBUG : agree delta get_DEBUG get_DEBUG.
Proof. intros w1 w2 H. simpl. split; [apply H | exact H]. Qed.

Lemma agree_current_iso_date : agree delta current_iso_date current_iso_date.
Proof.
  intros w1 w2 H. simpl. split; [|exact H].
  destruct H as (_ & -> & _). reflexivity.
Qed.

Lemma agree_at_css sel : agree delta (at_css sel) (at_css sel).
Proof.
  intros w1 w2 H. simpl. split; [|exact H].
  destruct H as (_ & _ & -> & _). reflexivity.
Qed.

Lemma agree_document : agree delta document document.
Proof.
  intros w1 w2 (H1 & H2 & H3 & H4 & H5). simpl. split.
  - specialize (H4 O). now rewrite !Nat.add_0_r in H4.
  - unfold alike. simpl. repeat split; auto.
    intros k. specialize (H4 (S k)). now rewrite !Nat.add_succ_r in H4.
Qed.

Lemma agree_lift {A} (x : attempt A) : agree delta (lift x) (lift x).
Proof. destruct x; [apply agree_ret | apply agree_raise]. Qed.

Lemma agree_session url li :
  agree delta (create_browser_session url li) (create_browser_session url li).
Proof. intros w1 w2 H. simpl. auto. Qed.

(** The two loops measure the time since their own start. *)
Lemma agree_wait_for_loop fuel (c : M (option bool)) i t s :
  agree delta c c ->
  agree delta (wait_for_loop fuel c i t s)
              (wait_for_loop fuel c i t (s + delta)).
Proof.
  intros Hc. induction fuel as [|fuel IH]; cbn [wait_for_loop].
  - intros w1 w2 _. exact I.
  - apply agree_bind; [exact Hc|]. intros res.
    destruct (truthy res); [apply agree_ret|].
    intros w1 w2 H. unfold bind at 1 3, time.
    assert (Hclock : clock w2 - (s + delta) = clock w1 - s)
      by (destruct H as (_&_&_&_&->); lia).
    rewrite Hclock. destruct (t <? clock w1 - s).
    + now apply agree_raise.
    + revert w1 w2 H Hclock. intros w1 w2 H _.
      apply (agree_bind _ _ _ _ (agree_sleep i) (fun _ => IH)). exact H.
Qed.

Lemma agree_wait_for fuel (c : M (option bool)) i t :
  agree delta c c -> agree delta (wait_for fuel c i t) (wait_for fuel c i t).
Proof.
  intros Hc w1 w2 H. rewrite !wait_for_unfold.
  replace (clock w2) with (clock w1 + delta) at 1
    by (destruct H as (_&_&_&_&->); reflexivity).
  now apply agree_wait_for_loop.
Qed.

End Replay.

Create HintDb replay.
#[local] Hint Resolve agree_ret agree_raise agree_emit agree_sleep
  agree_get_DEBUG agree_current_iso_date agree_at_css agree_document
  agree_lift agree_session : replay.

Ltac replay_step :=
  cbv beta;
  lazymatch goal with
  | |- agree _ (wait_for _ _ _ _) _ => apply agree_wait_for
  | |- agree _ (bind _ _) _ => apply agree_bind; [| intros ?]
  | |- agree _ (try_except _ _) _ => apply agree_try_except; [| intros ?]
  | |- _ => solve [auto with replay]
  end.

Lemma agree_node_set delta n v : agree delta (node_set n v) (node_set n v).
Proof. destruct n; simpl; replay_step. Qed.

Lemma agree_node_click delta n : agree delta (node_click n) (node_click n).
Proof. destruct n; simpl; replay_step. Qed.

#[local] Hint Resolve agree_node_set agree_node_click : replay.

Lemma agree_results_are_ready delta :
  agree delta results_are_ready results_are_ready.
Proof.
  unfold results_are_ready, render, debug. replay_step; [replay_step|].
  destruct (ready_probe _); repeat replay_step.
Qed.

Lemma agree_get_results delta fuel a b d t :
  agree delta (get_results fuel a b d t) (get_results fuel a b d t).
Proof.
  unfold get_results, debug, render.
  repeat (replay_step; [replay_step|]).
  replay_step.
  { destruct (String.leb _ _); replay_step. }
  repeat (replay_step; [replay_step|]).
  - apply agree_results_are_ready.
  - replay_step.
  - match goal with e : exn |- _ => destruct e end; repeat replay_step.
  - replay_step.
Qed.

Lemma agree_parse_result file delta r :
  agree delta (parse_result file r) (parse_result file r).
Proof.
  unfold parse_result, debug, render.
  destruct (parse_fields r); [replay_step|].
  repeat (replay_step; [replay_step|]).
  match goal with dbg : bool |- _ => destruct dbg end; repeat replay_step.
Qed.

Lemma agree_parse_results file delta rs : forall acc,
  agree delta (parse_results file rs acc) (parse_results file rs acc).
Proof.
  induction rs as [|r rs IH]; intros acc; simpl.
  - replay_step.
  - replay_step; [apply agree_parse_result | apply IH].
Qed.

Lemma agree_find_bus_connections file delta fuel a b d t :
  agree delta (find_bus_connections file fuel a b d t)
              (find_bus_connections file fuel a b d t).
Proof.
  unfold find_bus_connections.
  replay_step; [replay_step|]. replay_step.
  - apply agree_get_results.
  - apply agree_parse_results.
Qed.

Lemma parse_result_parsed_as file r w c w' :
  parse_result file r w = Returns c w' -> parsed_as r c.
Proof.
  unfold parsed_as. destruct (parse_fields r) as [x|f] eqn:Hp.
  - rewrite (parse_result_ok file r x w Hp). congruence.
  - rewrite (parse_result_fail file r f w Hp). destruct (DEBUG w); congruence.
Qed.

(** The list returned follows the fragments one for one, in their order. *)
Lemma parse_results_order file rs : forall acc w conns w',
  parse_results file rs acc w = Returns conns w' ->
  exists cs, conns = acc ++ cs /\ Forall2 parsed_as rs cs.
Proof.
  induction rs as [|r rs IH]; intros acc w conns w' H.
  - injection H as <- _. exists []. now rewrite app_nil_r.
  - cbn [parse_results] in H.
    apply bind_returns_inv in H as (c & w1 & Hc & Hrest).
    apply IH in Hrest as (cs & -> & Hcs).
    exists (c :: cs). rewrite <- app_assoc. split; [reflexivity|].
    constructor; [|exact Hcs]. now apply parse_result_parsed_as in Hc.
Qed.

(** The results are those of one of the documents of the page stream. *)
Lemma await_results_returns fuel t w results w1 :
  await_results fuel t w = Returns results w1 ->
  exists n, results = search_results (pages w n).
Proof.
  rewrite await_results_cases. intros H.
  pose proof (framed_wait_for fuel 500 (1000 * t) w) as Hfr.
  destruct (wait_for fuel results_are_ready 500 (1000 * t) w)
    as [v w2|e w2|]; [| destruct e; discriminate | discriminate].
  destruct Hfr as (_&_&_&Hp&_). injection H as <- _.
  exists (ndoc w2). now rewrite Hp.
Qed.

(** C8: over a page that does not change, two calls with the same
    arguments, on the same day, form and [DEBUG] setting, end alike: they
    return the same list or raise the same exception, whatever their
    clocks, counters and traces; and a list returned follows the result
    containers of the page one for one, in document order. *)
Theorem replay_gives_same_connections file doc fuel a b d t w1 w2 :
  (forall n, pages w1 n = doc) -> (forall n, pages w2 n = doc) ->
  DEBUG w1 = DEBUG w2 -> today w1 = today w2 ->
  (forall s, form w1 s = form w2 s) ->
  same_outcome (find_bus_connections file fuel a b d t w1)
               (find_bus_connections file fuel a b d t w2) /\
  (forall conns w',
      find_bus_connections file fuel a b d t w1 = Returns conns w' ->
      Forall2 parsed_as (search_results doc) conns).
Proof.
  intros Hp1 Hp2 Hd Ht Hf. split.
  - assert (Ha : alike (clock w2 - clock w1) w1 w2).
    { unfold alike. repeat split; auto; [|lia].
      intros k. now rewrite Hp1, Hp2. }
    pose proof (agree_find_bus_connections file _ fuel a b d t w1 w2 Ha) as H.
    unfold same_result in H. unfold same_outcome.
    destruct (find_bus_connections file fuel a b d t w1),
             (find_bus_connections file fuel a b d t w2); tauto.
  - intros conns w' Hrun.
    apply find_bus_connections_returns_inv in Hrun
      as (results & w1' & Hget & Hparse).
    apply await_results_returns in Hget as (n & ->).
    destruct (submitted_world_frame a b d w1) as (_&_&_&Hp&_).
    rewrite Hp, Hp1 in Hparse.
    apply parse_results_order in Hparse as (cs & -> & Hcs). exact Hcs.
Qed.

Lemma replay_gives_same_connections_witness :
  same_outcome
    (find_bus_connections Fixture.main_py 22 "Berlin" "Hamburg" "2015-06-06" 10
       (Fixture.site Fixture.two_results Fixture.two_results))
    (find_bus_connections Fixture.main_py 22 "Berlin" "Hamburg" "2015-06-06" 10
       (Fixture.later_site Fixture.two_results)) /\
  exists conns w',
    find_bus_connections Fixture.main_py 22 "Berlin" "Hamburg" "2015-06-06" 10
      (Fixture.site Fixture.two_results Fixture.two_results)
    = Returns conns w' /\
    List.length conns = 2%nat /\
    Forall2 parsed_as (search_results Fixture.two_results) conns.
Proof.
  destruct (replay_gives_same_connections Fixture.main_py Fixture.two_results 22
              "Berlin" "Hamburg" "2015-06-06" 10
              (Fixture.site Fixture.two_results Fixture.two_results)
              (Fixture.later_site Fixture.two_results))
    as [Hsame Horder].
  - intros [|n]; reflexivity.
  - intros n; reflexivity.
  - reflexivity.
  - reflexivity.
  - intros s; reflexivity.
  - split; [exact Hsame|].
    eexists. eexists. split; [vm_compute; reflexivity|].
    split; [reflexivity|]. eapply Horder. vm_compute. reflexivity.
Defined.

(** ** The price (C3) *)

Import PyStr PyFloat.

(** C3, as stated, fails: a comma-decimal price of 310 digits before the
    comma is beyond the range of a float and comes out as "inf €"; and
    from 2^46 on the hundredths no longer survive the float: the price text
    "70368744177664,01" comes out as "70368744177664.02 €". *)
Lemma huge_price_is_inf :
  all_digits ("1" ++ zeros 309) = true /\
  (exists c,
      parse_fields (Fixture.fragment ("1" ++ zeros 309 ++ ",5")) = ok c /\
      price c = "inf €"%string) /\
  (exists c,
      parse_fields (Fixture.fragment "70368744177664,01") = ok c /\
      price c = "70368744177664.02 €"%string).
Proof.
  split; [vm_compute; reflexivity|]. split.
  - eexists. split; [vm_compute; reflexivity | reflexivity].
  - eexists. split; [vm_compute; reflexivity | reflexivity].
Qed.

(** The price of a fragment whose price text is [ip,fp]. *)
Lemma price_of_comma_decimal r n rest ip fp :
  xpath price_path r = n :: rest ->
  text n = Some (ip ++ "," ++ fp)%string ->
  all_digits ip = true -> all_digits fp = true -> is_empty ip = false ->
  price_of r =
  Some (format_2f (of_decimal false (Z_of_digits (ip ++ fp))
                     (0 - Z.of_nat (String.length fp))) ++ euro)%string.
Proof.
  intros Hx Ht Hip Hfp Hne. unfold price_of. rewrite Hx, Ht.
  rewrite Digits.split_no_space.
  - unfold format_price.
    rewrite Digits.sub_char_app. cbn [sub_char String.append].
    rewrite (Digits.sub_char_digits ip Hip).
    change (if Ascii.eqb "," "," then "."%char else ","%char) with "."%char.
    rewrite (Digits.sub_char_digits fp Hfp).
    assert (Ha : is_ascii (ip ++ String "." fp) = true).
    { rewrite Digits.is_ascii_app. cbn [is_ascii].
      rewrite (Digits.all_digits_ascii ip Hip).
      now rewrite (Digits.all_digits_ascii fp Hfp). }
    rewrite Ha. cbn [attempt_bind].
    change (String "." fp) with ("." ++ fp)%string.
    rewrite (Price.of_string_decimal ip fp Hip Hfp Hne). reflexivity.
  - rewrite Digits.is_ascii_app. cbn [String.append is_ascii].
    rewrite (Digits.all_digits_ascii ip Hip).
    now rewrite (Digits.all_digits_ascii fp Hfp).
  - apply Digits.no_space_app; [now apply Digits.all_digits_no_space|].
    cbn [String.append no_space]. now rewrite Digits.all_digits_no_space.
  - destruct ip; [discriminate | reflexivity].
Qed.

(** C3, amended: for a fragment that parses and whose price text is a
    comma-decimal number [ip,fp], the price is a numeral with exactly two
    digits after a period, followed by " €", as long as the integer part
    is below 2^1023; when the integer part is below 2^46 that numeral is
    less than one hundredth away from the number; and when moreover the
    fraction has at most two digits, the price is the integer part
    (without leading zeros), a period, and the fraction padded with zeros
    to two digits, followed by " €". *)
Theorem comma_decimal_price r c n rest ip fp :
  parse_fields r = ok c ->
  xpath price_path r = n :: rest ->
  text n = Some (ip ++ "," ++ fp)%string ->
  all_digits ip = true -> all_digits fp = true -> is_empty ip = false ->
  (Z_of_digits ip < 2 ^ 1023 ->
   exists whole d1 d2,
     price c = (whole ++ "." ++ String d1 (String d2 euro))%string /\
     all_digits whole = true /\ is_empty whole = false /\
     is_digit d1 = true /\ is_digit d2 = true) /\
  (Z_of_digits ip < 2 ^ 46 ->
   exists k,
     0 <= k /\ price c = (format_cents k ++ euro)%string /\
     Z.abs (k * 10 ^ Z.of_nat (String.length fp)
            - 100 * Z_of_digits (ip ++ fp))
     < 10 ^ Z.of_nat (String.length fp)) /\
  ((String.length fp <= 2)%nat -> Z_of_digits ip < 2 ^ 46 ->
   price c = (string_of_Z (Z_of_digits ip) ++ "." ++ fp ++
              zeros (2 - String.length fp) ++ euro)%string).
Proof.
  intros Hparse Hx Ht Hip Hfp Hne.
  pose proof (parse_fields_spec r) as Hspec. rewrite Hparse in Hspec.
  destruct Hspec as (_ & _ & Hprice).
  rewrite (price_of_comma_decimal r n rest ip fp Hx Ht Hip Hfp Hne) in Hprice.
  injection Hprice as Hprice.
  change (- Z.of_nat (String.length fp))
    with (0 - Z.of_nat (String.length fp)) in Hprice.
  pose proof (Digits.Z_of_digits_bounds ip Hip) as Hbi.
  pose proof (Digits.Z_of_digits_bounds fp Hfp) as Hbf.
  assert (Hpow : 0 < 10 ^ Z.of_nat (String.length fp))
    by (apply Z.pow_pos_nonneg; lia).
  rewrite Digits.Z_of_digits_app in *.
  split; [|split].
  - intros Hlt.
    destruct (Price.of_decimal_finite
                (Z_of_digits ip * 10 ^ Z.of_nat (String.length fp)
                 + Z_of_digits fp) (String.length fp))
      as (m & e & Hr & Hm); [nia | nia |].
    rewrite Hr in Hprice. cbn [format_2f String.append] in Hprice.
    destruct (Price.format_cents_shape (cents m e)
                (Price.cents_nonneg m e Hm))
      as (whole & d1 & d2 & Hshape & Hw & Hwe & Hd1 & Hd2).
    exists whole, d1, d2. repeat split; auto.
    rewrite <- Hprice, Hshape. rewrite !string_app_assoc. reflexivity.
  - intros Hlt.
    destruct (Price.format_2f_near
                (Z_of_digits ip * 10 ^ Z.of_nat (String.length fp)
                 + Z_of_digits fp) (String.length fp))
      as (k & Hk & Hfmt & Hnear); [nia | nia |].
    exists k. rewrite <- Hprice, Hfmt. auto.
  - intros Hlen Hlt.
    rewrite Price.format_2f_exact in Hprice; [| nia | exact Hlen | nia].
    rewrite <- Hprice. unfold format_cents.
    assert (H100 : 10 ^ Z.of_nat (String.length fp)
                   * 10 ^ (2 - Z.of_nat (String.length fp)) = 100).
    { rewrite <- Z.pow_add_r by lia.
      replace (Z.of_nat (String.length fp) + (2 - Z.of_nat (String.length fp)))
        with 2 by lia. reflexivity. }
    assert (Hp2 : 0 < 10 ^ (2 - Z.of_nat (String.length fp)))
      by (apply Z.pow_pos_nonneg; lia).
    replace ((Z_of_digits ip * 10 ^ Z.of_nat (String.length fp)
              + Z_of_digits fp) * 10 ^ (2 - Z.of_nat (String.length fp)))
      with (Z_of_digits fp * 10 ^ (2 - Z.of_nat (String.length fp))
            + Z_of_digits ip * 100) by nia.
    assert (Hsmall : 0 <= Z_of_digits fp
                          * 10 ^ (2 - Z.of_nat (String.length fp)) < 100)
      by nia.
    rewrite Z.div_add, Z.mod_add by lia.
    rewrite Z.div_small, Z.mod_small by exact Hsmall.
    cbn [Z.add]. rewrite (Price.two_digits_of_fraction fp Hfp Hlen).
    rewrite !string_app_assoc. reflexivity.
Qed.

Lemma comma_decimal_price_witness :
  exists c,
    parse_fields (Fixture.fragment "12,5") = ok c /\
    (exists whole d1 d2,
        price c = (whole ++ "." ++ String d1 (String d2 euro))%string /\
        all_digits whole = true /\ is_empty whole = false /\
        is_digit d1 = true /\ is_digit d2 = true) /\
    price c = "12.50 €"%string.
Proof.
  eexists. split; [vm_compute; reflexivity|].
  destruct (comma_decimal_price (Fixture.fragment "12,5") _
              (Fixture.strong (Some "12,5"%string)) [] "12" "5"
              eq_refl eq_refl eq_refl eq_refl eq_refl eq_refl)
    as (Hshape & _ & Hexact).
  split.
  - apply Hshape. vm_compute. reflexivity.
  - apply Hexact; [cbn; lia | vm_compute; reflexivity].
Defined.

(** * Further properties *)

(** ** [natural_sort_key] *)

Module UtilsFacts.
Import Utils PyStr.

Lemma app_one cur c s :
  ((cur ++ String c "") ++ s = cur ++ String c s)%string.
Proof. induction cur as [|x cur IH]; simpl; congruence. Qed.

Lemma split_runs_nonempty s : forall cur in_run,
  split_runs cur in_run s <> [].
Proof.
  induction s as [|c s IH]; intros cur in_run; cbn [split_runs].
  - destruct in_run; discriminate.
  - destruct (is_digit c), in_run; try apply IH; discriminate.
Qed.

Lemma concat_cons x l :
  l <> [] -> String.concat "" (x :: l) = (x ++ String.concat "" l)%string.
Proof. destruct l; [congruence | reflexivity]. Qed.

(** The pieces put together again are the string. *)
Lemma split_runs_concat s : forall cur in_run,
  String.concat "" (split_runs cur in_run s) = (cur ++ s)%string.
Proof.
  induction s as [|c s IH]; intros cur in_run.
  - destruct in_run; simpl; now rewrite ?Price.append_empty.
  - cbn [split_runs].
    destruct (is_digit c), in_run; rewrite ?IH; try apply app_one;
      rewrite concat_cons by apply split_runs_nonempty;
      now rewrite IH.
Qed.

(** Text without digits is read into the piece at hand. *)
Lemma split_runs_text p : forall cur s,
  no_digit p = true ->
  split_runs cur false (p ++ s) = split_runs (cur ++ p) false s.
Proof.
  induction p as [|c p IH]; intros cur s H.
  - simpl. now rewrite Price.append_empty.
  - cbn [no_digit] in H. apply andb_true_iff in H as (Hc & Hp).
    apply negb_true_iff in Hc. cbn [String.append split_runs]. rewrite Hc.
    rewrite IH by exact Hp. now rewrite app_one.
Qed.

(** So are digits into the run at hand. *)
Lemma split_runs_digits n : forall cur s,
  all_digits n = true ->
  split_runs cur true (n ++ s) = split_runs (cur ++ n) true s.
Proof.
  induction n as [|c n IH]; intros cur s H.
  - simpl. now rewrite Price.append_empty.
  - cbn [all_digits] in H. apply andb_true_iff in H as (Hc & Hn).
    cbn [String.append split_runs]. rewrite Hc.
    rewrite IH by exact Hn. now rewrite app_one.
Qed.

(** A run of digits between a text and what follows it. *)
Lemma re_split_run p n q :
  no_digit p = true -> isdigit n = true -> no_digit_head q = true ->
  re_split (p ++ n ++ q) = p :: n :: re_split q.
Proof.
  intros Hp Hn Hq. unfold isdigit in Hn.
  apply andb_true_iff in Hn as (Hne & Hn).
  destruct n as [|c n]; [discriminate|].
  cbn [all_digits] in Hn. apply andb_true_iff in Hn as (Hc & Hn).
  unfold re_split. rewrite split_runs_text by exact Hp.
  cbn [String.append split_runs]. rewrite Hc.
  rewrite split_runs_digits by exact Hn. cbn [String.append].
  destruct q as [|d q]; [reflexivity|].
  cbn [no_digit_head] in Hq. apply negb_true_iff in Hq.
  cbn [split_runs]. now rewrite Hq.
Qed.

Lemma no_digit_not_isdigit p : no_digit p = true -> isdigit p = false.
Proof.
  unfold isdigit. destruct p as [|c p]; [reflexivity|].
  cbn [no_digit all_digits is_empty negb andb]. intros H.
  apply andb_true_iff in H as (Hc & _). apply negb_true_iff in Hc.
  now rewrite Hc.
Qed.


Lemma all_digits_app a b :
  all_digits a = true -> all_digits b = true -> all_digits (a ++ b) = true.
Proof.
  induction a as [|c a IH]; [auto|]. cbn [all_digits String.append].
  intros H Hb. apply andb_true_iff in H as (Hc & Ha). now rewrite Hc, IH.
Qed.

Lemma no_digit_app a b :
  no_digit a = true -> no_digit b = true -> no_digit (a ++ b) = true.
Proof.
  induction a as [|c a IH]; [auto|]. cbn [no_digit String.append].
  intros H Hb. apply andb_true_iff in H as (Hc & Ha). now rewrite Hc, IH.
Qed.

Lemma isdigit_snoc cur c :
  isdigit cur = true -> is_digit c = true ->
  isdigit (cur ++ String c "") = true.
Proof.
  unfold isdigit. intros H Hc. apply andb_true_iff in H as (Hne & Hd).
  rewrite all_digits_app; [| exact Hd | simpl; now rewrite Hc].
  destruct cur; [discriminate | reflexivity].
Qed.

Lemma isdigit_value n : isdigit n = true -> 0 <= Z_of_digits n.
Proof.
  unfold isdigit. intros H. apply andb_true_iff in H as (_ & H).
  apply (Digits.Z_of_digits_bounds n H).
Qed.

(** Whatever the piece at hand, the key to come has the shape of a key. *)
Lemma split_runs_shape s : forall (cur : string) (in_run : bool),
  (if in_run then isdigit cur else no_digit cur) = true ->
  key_shape in_run (map key_of_piece (split_runs cur in_run s)).
Proof.
  induction s as [|c s IH]; intros cur in_run Hcur.
  - destruct in_run; cbn [split_runs map]; unfold key_of_piece.
    + rewrite Hcur. constructor; [now apply isdigit_value|].
      now constructor.
    + rewrite (no_digit_not_isdigit cur Hcur). now constructor.
  - cbn [split_runs]. destruct (is_digit c) eqn:Hc, in_run.
    + apply IH. now apply isdigit_snoc.
    + cbn [map]. unfold key_of_piece at 1.
      rewrite (no_digit_not_isdigit cur Hcur). constructor; [exact Hcur|].
      apply IH. unfold isdigit. simpl. now rewrite Hc.
    + cbn [map]. unfold key_of_piece at 1. rewrite Hcur.
      constructor; [now apply isdigit_value|].
      apply IH. simpl. now rewrite Hc.
    + apply IH. apply no_digit_app; [exact Hcur|]. simpl. now rewrite Hc.
Qed.

Lemma key_shape_length b k :
  key_shape b k -> Nat.odd (List.length k) = negb b.
Proof.
  induction 1 as [t Ht | t k Ht Hk IH | n k Hn Hk IH]; cbn [List.length].
  - reflexivity.
  - rewrite Nat.odd_succ, <- Nat.negb_odd, IH. reflexivity.
  - rewrite Nat.odd_succ, <- Nat.negb_odd, IH. reflexivity.
Qed.

(** At a given position, keys of the same phase hold items of the same
    kind. *)
Lemma key_shape_same_kind b k1 : forall k2 i x y,
  key_shape b k1 -> key_shape b k2 ->
  nth_error k1 i = Some x -> nth_error k2 i = Some y -> same_kind x y.
Proof.
  intros k2 i x y H1. revert k2 i x y.
  induction H1 as [t Ht | t k Ht Hk IH | n k Hn Hk IH];
    intros k2 i x y H2 Hx Hy; inversion H2; subst;
    destruct i as [|i]; cbn [nth_error] in Hx, Hy;
    try (injection Hx as <-; injection Hy as <-; exact I);
    try (destruct i; discriminate);
    try (eapply IH; eassumption).
Qed.

Lemma compare_refl s : String.compare s s = Eq.
Proof.
  pose proof (String.compare_antisym s s) as H.
  destruct (String.compare s s); [reflexivity | discriminate | discriminate].
Qed.

(** X1: a run of digits between a text without digits and a rest that
    does not start with a digit contributes the text and the number of the
    run, and the key goes on with the key of the rest. *)
Theorem natural_sort_key_run p n q :
  no_digit p = true -> isdigit n = true -> no_digit_head q = true ->
  natural_sort_key (p ++ n ++ q) =
  KStr p :: KInt (Z_of_digits n) :: natural_sort_key q.
Proof.
  intros Hp Hn Hq. unfold natural_sort_key.
  rewrite (re_split_run p n q Hp Hn Hq). cbn [map]. unfold key_of_piece at 1 2.
  now rewrite (no_digit_not_isdigit p Hp), Hn.
Qed.

Lemma natural_sort_key_run_witness :
  natural_sort_key "a10b" = [KStr "a"; KInt 10; KStr "b"].
Proof.
  apply (natural_sort_key_run "a" "10" "b"); reflexivity.
Defined.

(** X2: every key is made of texts and numbers in turn, with a text
    (possibly empty, never holding a digit) first and last and numbers that
    are not negative; so its length is odd. *)
Theorem natural_sort_key_shape s :
  key_shape false (natural_sort_key s) /\
  Nat.odd (List.length (natural_sort_key s)) = true.
Proof.
  assert (H : key_shape false (natural_sort_key s))
    by (apply split_runs_shape; reflexivity).
  split; [exact H | apply (key_shape_length false _ H)].
Qed.

(** X3: [re.split] loses nothing: the pieces joined again are the
    string. *)
Theorem re_split_concat s : String.concat "" (re_split s) = s.
Proof. unfold re_split. apply split_runs_concat. Qed.

(** X4: keys compare in natural order: two strings with the same text
    before their first number compare by these numbers, and by what
    follows when the numbers are equal. *)
Theorem natural_sort_key_order p n m q q' :
  no_digit p = true -> isdigit n = true -> isdigit m = true ->
  no_digit_head q = true -> no_digit_head q' = true ->
  key_compare (natural_sort_key (p ++ n ++ q))
              (natural_sort_key (p ++ m ++ q')) =
  match Z.compare (Z_of_digits n) (Z_of_digits m) with
  | Eq => key_compare (natural_sort_key q) (natural_sort_key q')
  | c => c
  end.
Proof.
  intros Hp Hn Hm Hq Hq'. unfold natural_sort_key.
  rewrite (re_split_run p n q Hp Hn Hq), (re_split_run p m q' Hp Hm Hq').
  cbn [map]. unfold key_of_piece at 1 2 4 5.
  rewrite (no_digit_not_isdigit p Hp), Hn, Hm.
  cbn [key_compare item_compare]. now rewrite compare_refl.
Qed.

Lemma natural_sort_key_order_witness :
  key_compare (natural_sort_key "a2") (natural_sort_key "a10") = Lt /\
  String.compare "a2" "a10" = Gt.
Proof.
  split; [|reflexivity].
  exact (natural_sort_key_order "a" "2" "10" "" ""
           eq_refl eq_refl eq_refl eq_refl eq_refl).
Defined.

(** X5: a key does not tell runs of digits of the same value apart:
    leading zeros are lost. *)
Theorem natural_sort_key_leading_zeros p n m q :
  no_digit p = true -> isdigit n = true -> isdigit m = true ->
  no_digit_head q = true -> Z_of_digits n = Z_of_digits m ->
  natural_sort_key (p ++ n ++ q) = natural_sort_key (p ++ m ++ q).
Proof.
  intros Hp Hn Hm Hq Hv. unfold natural_sort_key.
  rewrite (re_split_run p n q Hp Hn Hq), (re_split_run p m q Hp Hm Hq).
  cbn [map]. unfold key_of_piece at 1 2 4 5.
  now rewrite (no_digit_not_isdigit p Hp), Hn, Hm, Hv.
Qed.

Lemma natural_sort_key_leading_zeros_witness :
  natural_sort_key "a007b" = natural_sort_key "a7b".
Proof.
  apply (natural_sort_key_leading_zeros "a" "007" "7" "b"); reflexivity.
Defined.

(** X6: at every position two keys hold items of the same kind, so the
    comparison of two keys never compares a number with a text. *)
Theorem natural_sort_key_same_kind s t i x y :
  nth_error (natural_sort_key s) i = Some x ->
  nth_error (natural_sort_key t) i = Some y ->
  same_kind x y.
Proof.
  apply (key_shape_same_kind false);
    apply split_runs_shape; reflexivity.
Qed.

Lemma natural_sort_key_same_kind_witness :
  same_kind (KInt 10) (KInt 7).
Proof.
  apply (natural_sort_key_same_kind "a10" "x7y" 1); reflexivity.
Defined.


(** With a common text in front, two keys compare as their numbers do. *)
Lemma key_compare_prefixed p n m :
  no_digit p = true -> isdigit n = true -> isdigit m = true ->
  key_compare (natural_sort_key (p ++ n)) (natural_sort_key (p ++ m)) =
  Z.compare (Z_of_digits n) (Z_of_digits m).
Proof.
  intros Hp Hn Hm.
  rewrite <- (Price.append_empty n) at 1.
  rewrite <- (Price.append_empty m) at 1.
  unfold natural_sort_key.
  rewrite (re_split_run p n "" Hp Hn eq_refl),
          (re_split_run p m "" Hp Hm eq_refl).
  cbn [map]. unfold key_of_piece at 1 2 4 5.
  rewrite (no_digit_not_isdigit p Hp), Hn, Hm.
  cbn [key_compare item_compare]. rewrite compare_refl.
  destruct (Z_of_digits n ?= Z_of_digits m); reflexivity.
Qed.

Lemma insert_by_key_numeric p n : forall l,
  no_digit p = true -> isdigit n = true ->
  Forall (fun m => isdigit m = true) l ->
  StronglySorted (fun a b => Z_of_digits a <= Z_of_digits b) l ->
  exists l',
    insert_by_key (p ++ n) (map (String.append p) l)
      = map (String.append p) l' /\
    Permutation (n :: l) l' /\
    Forall (fun m => isdigit m = true) l' /\
    StronglySorted (fun a b => Z_of_digits a <= Z_of_digits b) l'.
Proof.
  intros l Hp Hn. induction l as [|m l IH]; intros Hl Hs.
  - exists [n]. repeat split; auto. repeat constructor.
  - inversion Hl as [|? ? Hm Hl']; subst.
    inversion Hs as [|? ? Hs' Hle]; subst.
    cbn [map insert_by_key]. rewrite (key_compare_prefixed p n m Hp Hn Hm).
    destruct (Z.compare_spec (Z_of_digits n) (Z_of_digits m)) as [He|Hlt|Hgt].
    + exists (n :: m :: l). repeat split; auto.
      constructor; [exact Hs|]. constructor; [lia|].
      eapply Forall_impl; [|exact Hle]. intros a Ha. simpl in Ha. lia.
    + exists (n :: m :: l). repeat split; auto.
      constructor; [exact Hs|]. constructor; [lia|].
      eapply Forall_impl; [|exact Hle]. intros a Ha. simpl in Ha. lia.
    + destruct (IH Hl' Hs') as (l' & Hins & Hperm & Hd & Hsorted).
      exists (m :: l'). rewrite Hins. repeat split; auto.
      * rewrite perm_swap. now constructor.
      * constructor; [exact Hsorted|].
        eapply Permutation_Forall; [exact Hperm|].
        constructor; [lia | exact Hle].
Qed.

(** X7: sorting strings that share a text and end in a number by their
    keys puts them in the order of their numbers, and loses none. *)
Theorem sorted_by_key_numeric p ns :
  no_digit p = true -> Forall (fun n => isdigit n = true) ns ->
  exists ns',
    sorted_by_key (map (String.append p) ns) = map (String.append p) ns' /\
    Permutation ns ns' /\
    StronglySorted (fun a b => Z_of_digits a <= Z_of_digits b) ns'.
Proof.
  intros Hp Hns.
  assert (H : exists ns',
             sorted_by_key (map (String.append p) ns)
               = map (String.append p) ns' /\
             Permutation ns ns' /\
             Forall (fun m => isdigit m = true) ns' /\
             StronglySorted (fun a b => Z_of_digits a <= Z_of_digits b) ns').
  { induction Hns as [|n ns Hn Hns IH].
    - exists []. repeat split; auto; constructor.
    - destruct IH as (l & Hsort & Hperm & Hd & Hs).
      destruct (insert_by_key_numeric p n l Hp Hn Hd Hs)
        as (l' & Hins & Hperm' & Hd' & Hs').
      exists l'. cbn [map sorted_by_key]. rewrite Hsort, Hins.
      repeat split; auto.
      transitivity (n :: l); [now constructor | exact Hperm']. }
  destruct H as (ns' & H1 & H2 & _ & H3). eauto.
Qed.

Lemma sorted_by_key_numeric_witness :
  exists ns',
    sorted_by_key ["a1"; "a2"; "a10"; "a24"; "a12"; "a100"]%string
      = map (String.append "a") ns' /\
    Permutation ["1"; "2"; "10"; "24"; "12"; "100"]%string ns' /\
    StronglySorted (fun a b => Z_of_digits a <= Z_of_digits b) ns'.
Proof.
  apply (sorted_by_key_numeric "a" ["1"; "2"; "10"; "24"; "12"; "100"]%string).
  - reflexivity.
  - repeat constructor.
Defined.

End UtilsFacts.

(** ** The date check compares calendar dates *)

Module DateFacts.
Import PyStr.

(** Zero padding agrees with the arithmetic digits, checked on the whole
    range. *)
Lemma zero_pad_fixed_width_upto (width : nat) (bound : nat) :
  forallb (fun k => String.eqb (zero_pad width (Z.of_nat k))
                               (fixed_width width (Z.of_nat k)))
          (seq 0 bound) = true ->
  forall n, 0 <= n < Z.of_nat bound ->
            zero_pad width n = fixed_width width n.
Proof.
  intros H n Hn. rewrite forallb_forall in H.
  specialize (H (Z.to_nat n)). rewrite Z2Nat.id in H by lia.
  apply String.eqb_eq, H, in_seq. lia.
Qed.

Lemma zero_pad_4 n : 0 <= n < 10000 -> zero_pad 4 n = fixed_width 4 n.
Proof.
  intros H. apply (zero_pad_fixed_width_upto 4 (100 * 100));
    [vm_compute; reflexivity | lia].
Qed.

Lemma zero_pad_2 n : 0 <= n < 100 -> zero_pad 2 n = fixed_width 2 n.
Proof.
  apply (zero_pad_fixed_width_upto 2 100). vm_compute. reflexivity.
Qed.

Lemma digit_char_compare x y :
  0 <= x < 10 -> 0 <= y < 10 ->
  Ascii.compare (digit_char x) (digit_char y) = Z.compare x y.
Proof.
  intros Hx Hy.
  assert (Hxs : x = 0 \/ x = 1 \/ x = 2 \/ x = 3 \/ x = 4 \/ x = 5 \/ x = 6 \/
                x = 7 \/ x = 8 \/ x = 9) by lia.
  assert (Hys : y = 0 \/ y = 1 \/ y = 2 \/ y = 3 \/ y = 4 \/ y = 5 \/ y = 6 \/
                y = 7 \/ y = 8 \/ y = 9) by lia.
  repeat (destruct Hxs as [-> | Hxs]);
    repeat (destruct Hys as [-> | Hys]); subst; reflexivity.
Qed.

(** Numerals of the same width compare as their numbers. *)
Lemma fixed_width_compare width : forall a b,
  0 <= a < 10 ^ Z.of_nat width -> 0 <= b < 10 ^ Z.of_nat width ->
  String.compare (fixed_width width a) (fixed_width width b) = Z.compare a b.
Proof.
  induction width as [|w IH]; intros a b Ha Hb.
  - change (10 ^ Z.of_nat 0) with 1 in *.
    assert (a = 0) as -> by lia. assert (b = 0) as -> by lia. reflexivity.
  - rewrite Nat2Z.inj_succ, Z.pow_succ_r in Ha, Hb by lia.
    assert (Hp : 0 < 10 ^ Z.of_nat w) by (apply Z.pow_pos_nonneg; lia).
    pose proof (Z.div_mod a (10 ^ Z.of_nat w) ltac:(lia)) as Hda.
    pose proof (Z.div_mod b (10 ^ Z.of_nat w) ltac:(lia)) as Hdb.
    pose proof (Z.mod_pos_bound a (10 ^ Z.of_nat w) Hp) as Hma.
    pose proof (Z.mod_pos_bound b (10 ^ Z.of_nat w) Hp) as Hmb.
    assert (Hqa : 0 <= a / 10 ^ Z.of_nat w < 10).
    { split; [apply Z.div_pos; lia | apply Z.div_lt_upper_bound; lia]. }
    assert (Hqb : 0 <= b / 10 ^ Z.of_nat w < 10).
    { split; [apply Z.div_pos; lia | apply Z.div_lt_upper_bound; lia]. }
    cbn [fixed_width String.compare].
    rewrite (digit_char_compare _ _ Hqa Hqb), (IH _ _ Hma Hmb).
    destruct (Z.compare_spec (a / 10 ^ Z.of_nat w) (b / 10 ^ Z.of_nat w))
      as [He|Hlt|Hgt].
    + destruct (Z.compare_spec (a mod 10 ^ Z.of_nat w)
                               (b mod 10 ^ Z.of_nat w));
        symmetry; [apply Z.compare_eq_iff | apply Z.compare_lt_iff
                  | apply Z.compare_gt_iff]; nia.
    + symmetry. apply Z.compare_lt_iff. nia.
    + symmetry. apply Z.compare_gt_iff. nia.
Qed.

Lemma fixed_width_length width : forall n,
  String.length (fixed_width width n) = width.
Proof. induction width as [|w IH]; intros n; simpl; [reflexivity | now rewrite IH]. Qed.

(** Strings that start with parts of the same length compare by these
    parts first. *)
Lemma compare_app s1 : forall s2 t1 t2,
  String.length s1 = String.length s2 ->
  String.compare (s1 ++ t1) (s2 ++ t2) =
  match String.compare s1 s2 with
  | Eq => String.compare t1 t2
  | c => c
  end.
Proof.
  induction s1 as [|c1 s1 IH]; intros [|c2 s2] t1 t2 Hlen;
    try discriminate; [reflexivity|].
  cbn [String.append String.compare].
  destruct (Ascii.compare c1 c2); [|reflexivity|reflexivity].
  apply IH. now injection Hlen.
Qed.

(** The ISO form of valid dates is ordered as the calendar is. *)
Lemma isoformat_compare d1 d2 :
  valid_date d1 = true -> valid_date d2 = true ->
  String.compare (isoformat d1) (isoformat d2) = date_compare d1 d2.
Proof.
  unfold valid_date. intros H1 H2.
  repeat (apply andb_true_iff in H1 as (H1 & ?)).
  repeat (apply andb_true_iff in H2 as (H2 & ?)).
  repeat match goal with H : (_ <=? _) = true |- _ => apply Z.leb_le in H end.
  unfold isoformat, date_compare.
  rewrite !zero_pad_4, !zero_pad_2 by lia.
  rewrite compare_app by now rewrite !fixed_width_length.
  rewrite (fixed_width_compare 4) by (change (10 ^ Z.of_nat 4) with 10000; lia).
  destruct (year d1 ?= year d2); try reflexivity.
  cbn [String.append String.compare]. change (Ascii.compare "-" "-") with Eq.
  cbv iota.
  rewrite compare_app by now rewrite !fixed_width_length.
  rewrite (fixed_width_compare 2) by (change (10 ^ Z.of_nat 2) with 100; lia).
  destruct (month d1 ?= month d2); try reflexivity.
  cbn [String.append String.compare]. change (Ascii.compare "-" "-") with Eq.
  cbv iota.
  apply (fixed_width_compare 2); change (10 ^ Z.of_nat 2) with 100; lia.
Qed.


End DateFacts.

(** ** What a call raises *)

Module Pipeline.

(** The loop of [wait_for] raises nothing but its timeout. *)
Lemma wait_for_loop_raises fuel : forall timeout start w e w',
  wait_for_loop fuel results_are_ready 500 timeout start w = Raises e w' ->
  e = timed_out.
Proof.
  induction fuel as [|fuel IH]; intros timeout start w e w' H;
    [discriminate|].
  rewrite wait_for_loop_step in H.
  destruct (truthy (probe_value w)); [discriminate|].
  destruct (timeout <? clock w - start).
  - now injection H as <- _.
  - eapply IH; eassumption.
Qed.

Lemma await_results_raises fuel t w e w' :
  await_results fuel t w = Raises e w' -> e = WaitTimeoutError "".
Proof.
  rewrite await_results_cases, wait_for_unfold. intros H.
  destruct (wait_for_loop fuel results_are_ready 500 (1000 * t) (clock w) w)
    as [v w1|e1 w1|] eqn:Hloop; try discriminate.
  apply wait_for_loop_raises in Hloop. subst e1. unfold timed_out in H.
  now injection H as <- _.
Qed.

(** The parsing loop raises nothing but the parsing error, and only with
    [DEBUG] off. *)
Lemma parse_results_raises file rs : forall acc w e w',
  parse_results file rs acc w = Raises e w' ->
  DEBUG w = false /\
  exists f, e = BusliniensucheParsingError (parse_error_msg file f).
Proof.
  induction rs as [|r rs IH]; intros acc w e w' H; [discriminate|].
  cbn [parse_results] in H. unfold bind at 1 in H.
  pose proof (framed_parse_result file r w) as Hfr.
  destruct (parse_fields r) as [c|f] eqn:Hp.
  - rewrite (parse_result_ok file r c w Hp) in H. eapply IH; eassumption.
  - rewrite (parse_result_fail file r f w Hp) in H, Hfr.
    destruct (DEBUG w) eqn:Hd.
    + destruct Hfr as (Hd' & _). apply IH in H as (H & _). congruence.
    + injection H as <- _. eauto.
Qed.

(** Every exception of [find_bus_connections], with its cause. *)
Lemma find_bus_connections_raises_cases file fuel a b d t w e w' :
  find_bus_connections file fuel a b d t w = Raises e w' ->
  (e = no_attribute "set" /\
   (form w "#From" = false \/ form w "#To" = false \/
    form w "#When" = false)) \/
  (e = no_attribute "click" /\ form w ".btn-warning" = false) \/
  (e = AssertionError past_msg /\
   String.leb (isoformat (today w)) d = false) \/
  e = WaitTimeoutError "" \/
  (DEBUG w = false /\
   exists f, e = BusliniensucheParsingError (parse_error_msg file f)).
Proof.
  rewrite find_bus_connections_unfold. unfold bind at 1.
  rewrite get_results_cases.
  cbn [session_world form today add_event open_session].
  destruct (form w "#From") eqn:H1; cbn [negb];
    [|intros H; injection H as <- _; auto].
  destruct (form w "#To") eqn:H2; cbn [negb];
    [|intros H; injection H as <- _; auto].
  destruct (String.leb (isoformat (today w)) d) eqn:H3; cbn [negb];
    [|intros H; injection H as <- _; auto 6].
  destruct (form w "#When") eqn:H4; cbn [negb];
    [|intros H; injection H as <- _; auto 6].
  destruct (form w ".btn-warning") eqn:H5; cbn [negb];
    [|intros H; injection H as <- _; auto 6].
  fold (submitted_world a b d w).
  destruct (await_results fuel t (submitted_world a b d w))
    as [rs w1|e1 w1|] eqn:Hawait; [| |discriminate].
  - intros H. apply parse_results_raises in H as (Hd & Hf).
    pose proof (framed_get_results fuel a b d t
                  (session_world SEARCH_PAGE false w)) as Hfr.
    rewrite get_results_cases in Hfr.
    cbn [session_world form today add_event open_session] in Hfr.
    rewrite H1, H2, H3, H4, H5 in Hfr. cbn [negb] in Hfr.
    fold (submitted_world a b d w) in Hfr. rewrite Hawait in Hfr.
    destruct Hfr as (HD & _).
    cbn [session_world DEBUG add_event open_session] in HD.
    right. right. right. right. split; [congruence | exact Hf].
  - intros H. injection H as <- _.
    apply await_results_raises in Hawait. auto 6.
Qed.

(** X8: the string comparison of the date check is the comparison of the
    calendar: for a date given in ISO form, the call fails at the date
    check exactly when the date lies before today. *)
Theorem date_check_is_chronological file fuel a b d t w :
  form w "#From" = true -> form w "#To" = true ->
  valid_date (today w) = true -> valid_date d = true ->
  ((exists w',
       find_bus_connections file fuel a b (isoformat d) t w
         = Raises (AssertionError past_msg) w') <->
   date_compare d (today w) = Lt).
Proof.
  intros Hfrom Hto Htoday Hd.
  assert (Hleb : String.leb (isoformat (today w)) (isoformat d)
                 = match date_compare d (today w) with
                   | Lt => false
                   | _ => true
                   end).
  { unfold String.leb.
    rewrite (String.compare_antisym (isoformat (today w)) (isoformat d)).
    rewrite (DateFacts.isoformat_compare d (today w) Hd Htoday).
    destruct (date_compare d (today w)); reflexivity. }
  split.
  - intros (w' & H).
    apply find_bus_connections_raises_cases in H
      as [(H & _) | [(H & _) | [(_ & H) | [H | (_ & f & H)]]]];
      try discriminate.
    rewrite Hleb in H. destruct (date_compare d (today w)); congruence.
  - intros Hlt. rewrite Hlt in Hleb.
    rewrite find_bus_connections_unfold. eexists. apply bind_raises.
    rewrite get_results_cases.
    cbn [session_world form today add_event open_session].
    rewrite Hfrom, Hto, Hleb. reflexivity.
Qed.

Lemma date_check_is_chronological_witness :
  (exists w',
      find_bus_connections Fixture.main_py 1 "Berlin" "Hamburg"
        (isoformat {| year := 2014; month := 12; day := 31 |}) 10
        (Fixture.site Fixture.page_blank Fixture.page_blank)
      = Raises (AssertionError past_msg) w') <->
  date_compare {| year := 2014; month := 12; day := 31 |}
               (today (Fixture.site Fixture.page_blank Fixture.page_blank))
  = Lt.
Proof.
  apply (date_check_is_chronological Fixture.main_py 1 "Berlin" "Hamburg"
           {| year := 2014; month := 12; day := 31 |} 10
           (Fixture.site Fixture.page_blank Fixture.page_blank));
    reflexivity.
Defined.

End Pipeline.

(** ** The table *)

Module Table.

Lemma table_row_ok connection r :
  table_row connection = ok r <-> row_for connection r.
Proof.
  unfold table_row, row_for, slice20. split.
  - destruct connection as [c|]; [|discriminate].
    destruct (departure_stop c) as [from|] eqn:Hf; [|discriminate].
    destruct (arrival_stop c) as [to|] eqn:Ht; [|discriminate].
    cbn [attempt_bind]. intros H. injection H as <-.
    exists c, from, to. auto.
  - intros (c & from & to & -> & Hf & Ht & ->). now rewrite Hf, Ht.
Qed.

Lemma results2table_ok connections : forall rows,
  results2table connections = ok rows <-> Forall2 row_for connections rows.
Proof.
  induction connections as [|c cs IH]; intros rows; cbn [results2table].
  - split; [intros H; injection H as <-; constructor
           | intros H; now inversion H].
  - split.
    + destruct (table_row c) as [r|f] eqn:Hr; [|discriminate].
      cbn [attempt_bind].
      destruct (results2table cs) as [rs|f] eqn:Hrs; [|discriminate].
      cbn [attempt_bind]. intros H. injection H as <-.
      constructor; [now apply table_row_ok | now apply IH].
    + intros H. inversion H as [|? r ? rs Hr Hrs]; subst.
      apply table_row_ok in Hr. apply IH in Hrs. now rewrite Hr, Hrs.
Qed.

Lemma substring_prefix n : forall s,
  exists rest, s = (substring 0 n s ++ rest)%string.
Proof.
  induction n as [|n IH]; intros s.
  - exists s. now destruct s.
  - destruct s as [|c s]; [now exists ""%string|].
    destruct (IH s) as (rest & H). exists rest. cbn [substring String.append].
    now rewrite <- H.
Qed.

Lemma substring_length n : forall s,
  String.length (substring 0 n s) = Nat.min n (String.length s).
Proof.
  induction n as [|n IH]; intros s.
  - now destruct s.
  - destruct s as [|c s]; [reflexivity|]. cbn [substring String.length Nat.min].
    now rewrite IH.
Qed.

Lemma decode_utf8_ascii c s :
  PyStr.is_ascii_byte c = true ->
  PyStr.decode_utf8 (String c s) = N_of_ascii c :: PyStr.decode_utf8 s.
Proof.
  unfold PyStr.is_ascii_byte. intros H. apply N.ltb_lt in H.
  assert (H192 : (N_of_ascii c <? 192)%N = true) by (apply N.ltb_lt; lia).
  cbn [PyStr.decode_utf8]. now rewrite H192.
Qed.

Lemma encode_char_ascii c :
  PyStr.is_ascii_byte c = true ->
  PyStr.encode_char (N_of_ascii c) = String c "".
Proof.
  unfold PyStr.is_ascii_byte, PyStr.encode_char. intros ->.
  now rewrite ascii_N_embedding.
Qed.

(** On an ASCII text the first [n] code points are the first [n] bytes. *)
Lemma ascii_chars n : forall s,
  PyStr.is_ascii s = true ->
  PyStr.encode_utf8 (firstn n (PyStr.decode_utf8 s)) = substring 0 n s.
Proof.
  induction n as [|n IH]; intros s Hs.
  - now destruct s.
  - destruct s as [|c s]; [reflexivity|].
    cbn [PyStr.is_ascii] in Hs. apply andb_true_iff in Hs as (Hc & Hs).
    rewrite (decode_utf8_ascii c s Hc).
    cbn [firstn PyStr.encode_utf8 substring].
    now rewrite (encode_char_ascii c Hc), (IH s Hs).
Qed.

(** X10: [results2table] builds a table exactly when every connection is
    there and has a text for both stops; the table then has one row for
    each connection, in their order, made of the departure time, the
    price, the departure stop, the arrival time, the arrival stop and the
    company.  A stop is cut to its first twenty characters, which on an
    ASCII text are its first twenty bytes. *)
Theorem results2table_rows connections rows :
  (results2table connections = ok rows <->
   Forall2 row_for connections rows) /\
  (forall s,
      PyStr.slice_to 20 s
      = PyStr.encode_utf8 (firstn 20 (PyStr.decode_utf8 s))) /\
  (forall s,
      PyStr.is_ascii s = true ->
      String.length (PyStr.slice_to 20 s) = Nat.min 20 (String.length s) /\
      exists rest, s = (PyStr.slice_to 20 s ++ rest)%string).
Proof.
  split; [apply results2table_ok|]. split.
  - intros s. unfold PyStr.slice_to.
    destruct (PyStr.is_ascii s) eqn:Hs; [|reflexivity].
    symmetry. now apply ascii_chars.
  - intros s Hs. unfold PyStr.slice_to. rewrite Hs.
    split; [apply substring_length | apply substring_prefix].
Qed.

(** The first connection without a stop text stops the table. *)
Lemma results2table_none_stop connections : forall c,
  Forall (fun x => x <> None) connections ->
  In (Some c) connections ->
  departure_stop c = None \/ arrival_stop c = None ->
  exists f, results2table connections = fail f /\ fault_exn f = slice_of_none.
Proof.
  induction connections as [|x cs IH]; intros c Hall Hin Hnone;
    [contradiction|].
  inversion Hall as [|? ? Hx Hcs]; subst. cbn [results2table].
  destruct x as [c0|]; [|congruence].
  unfold table_row, slice20.
  destruct (departure_stop c0) as [from|] eqn:Hf;
    [|eexists; split; reflexivity].
  destruct (arrival_stop c0) as [to|] eqn:Ht;
    [|eexists; split; reflexivity].
  cbn [attempt_bind].
  destruct Hin as [Heq | Hin].
  - injection Heq as ->. destruct Hnone; congruence.
  - destruct (IH c Hcs Hin Hnone) as (f & -> & Hexn).
    exists f. auto.
Qed.

(** With [DEBUG] off, a list that is returned holds a connection for each
    fragment, and nothing has happened while it was built. *)
Lemma parse_results_returns_debug_off file rs : forall acc w conns w',
  DEBUG w = false ->
  parse_results file rs acc w = Returns conns w' ->
  w' = w /\
  exists cs, conns = acc ++ map Some cs /\
             Forall2 (fun r c => parse_fields r = ok c) rs cs.
Proof.
  induction rs as [|r rs IH]; intros acc w conns w' Hd H.
  - injection H as <- <-. split; [reflexivity|]. exists [].
    now rewrite app_nil_r.
  - cbn [parse_results] in H. unfold bind at 1 in H.
    destruct (parse_fields r) as [c|f] eqn:Hp.
    + rewrite (parse_result_ok file r c w Hp) in H.
      destruct (IH _ _ _ _ Hd H) as (-> & cs & -> & Hcs).
      split; [reflexivity|]. exists (c :: cs).
      rewrite <- app_assoc. split; [reflexivity | now constructor].
    + rewrite (parse_result_fail file r f w Hp), Hd in H. discriminate.
Qed.

End Table.
(** ** The events of a call *)

Section Only.

Variable P : event -> Prop.

Lemma only_refl w : only P w w.
Proof. exists []. now rewrite app_nil_r. Qed.

Lemma only_trans w1 w2 w3 : only P w1 w2 -> only P w2 w3 -> only P w1 w3.
Proof.
  intros (e1 & H1 & F1) (e2 & H2 & F2). exists (e1 ++ e2).
  rewrite H2, H1, app_assoc. split; [reflexivity | now apply Forall_app].
Qed.

Lemma only_add_events evs w : Forall P evs -> only P w (add_events evs w).
Proof. intros H. exists evs. now rewrite add_events_trace. Qed.

Lemma only_emit e : P e -> keeps (only P) (emit e).
Proof.
  intros H w. exists [e]. split; [reflexivity | now constructor].
Qed.

Lemma only_document : P GetDocument -> keeps (only P) document.
Proof.
  intros H w. exists [GetDocument]. split; [reflexivity | now constructor].
Qed.

Lemma only_quiet {A} (m : M A) :
  (forall w, exists a, m w = Returns a w) -> keeps (only P) m.
Proof. intros H w. destruct (H w) as (a & ->). apply only_refl. Qed.

Lemma only_sleep ms : keeps (only P) (sleep ms).
Proof. intros w. exists []. simpl. now rewrite app_nil_r. Qed.

Hypothesis polling : forall e, observing e = true -> P e.

Lemma only_results_are_ready : keeps (only P) results_are_ready.
Proof.
  unfold results_are_ready, render, debug.
  apply (keeps_bind _ only_trans); [now apply only_document, polling|].
  intros doc. destruct (ready_probe _).
  - apply (keeps_ret _ only_refl).
  - apply (keeps_bind _ only_trans); [now apply only_emit, polling|].
    intros _.
    apply (keeps_bind _ only_trans); [now apply only_emit, polling|].
    intros _. apply (keeps_ret _ only_refl).
Qed.

Lemma only_await_results fuel t : keeps (only P) (await_results fuel t).
Proof.
  unfold await_results, wait_for, debug, render.
  apply (keeps_bind _ only_trans).
  - apply (keeps_try_except _ only_trans).
    + apply (keeps_bind _ only_trans).
      * apply (keeps_bind _ only_trans).
        -- apply only_quiet. intros w. now exists (clock w).
        -- intros start.
           apply (keeps_wait_for_loop _ only_refl only_trans).
           ++ apply only_results_are_ready.
           ++ apply only_quiet. intros w. now exists (clock w).
           ++ apply only_sleep.
      * intros _. apply (keeps_ret _ only_refl).
    + intros e. destruct e; try apply (keeps_raise _ only_refl).
      apply (keeps_bind _ only_trans); [now apply only_emit, polling|].
      intros _.
      apply (keeps_bind _ only_trans); [now apply only_emit, polling|].
      intros _. apply (keeps_raise _ only_refl).
  - intros _.
    apply (keeps_bind _ only_trans); [now apply only_document, polling|].
    intros doc. apply (keeps_ret _ only_refl).
Qed.

End Only.

Lemma observing_passive e : observing e = true -> passive e = true.
Proof. destruct e; simpl; congruence. Qed.

Lemma only_passive_parse_result file r :
  keeps (only (fun e => passive e = true)) (parse_result file r).
Proof.
  intros w. destruct (parse_fields r) as [c|f] eqn:Hp.
  - rewrite (parse_result_ok file r c w Hp). apply only_refl.
  - rewrite (parse_result_fail file r f w Hp).
    destruct (DEBUG w); unfold failure_world; eexists; cbn [trace add_event
      next_doc]; (split; [repeat rewrite <- app_assoc; reflexivity|]);
      repeat constructor.
Qed.

Lemma only_passive_parse_results file rs : forall acc,
  keeps (only (fun e => passive e = true)) (parse_results file rs acc).
Proof.
  induction rs as [|r rs IH]; intros acc; cbn [parse_results].
  - apply (keeps_ret _ (only_refl _)).
  - apply (keeps_bind _ (only_trans _));
      [apply only_passive_parse_result | intros c; apply IH].
Qed.

(** The world of a finished computation, if it has finished. *)
Lemma keeps_returns {A} R (m : M A) w a w' :
  keeps R m -> m w = Returns a w' -> R w w'.
Proof. intros H E. specialize (H w). now rewrite E in H. Qed.

Lemma keeps_raises_world {A} R (m : M A) w e w' :
  keeps R m -> m w = Raises e w' -> R w w'.
Proof. intros H E. specialize (H w). now rewrite E in H. Qed.
(** ** A whole run *)

Module Run.

Lemma probe_world_DEBUG w : DEBUG (probe_world w) = DEBUG w.
Proof. unfold probe_world. destruct (ready_probe _); reflexivity. Qed.

(** The loop returns right after the first probe that finds the results
    loaded, and has read one document for each probe. *)
Lemma wait_for_loop_returns fuel : forall timeout start w v w2,
  wait_for_loop fuel results_are_ready 500 timeout start w = Returns v w2 ->
  exists n,
    (ndoc w <= n)%nat /\ ndoc w2 = S n /\ ready (pages w n) /\
    (forall k, (ndoc w <= k < n)%nat -> ~ ready (pages w k)) /\
    pages w2 = pages w /\ DEBUG w2 = DEBUG w.
Proof.
  induction fuel as [|fuel IH]; intros timeout start w v w2 H;
    [discriminate|].
  rewrite wait_for_loop_step in H.
  destruct (truthy (probe_value w)) eqn:Ht.
  - injection H as _ <-. exists (ndoc w).
    apply probe_value_truthy in Ht.
    rewrite probe_world_ndoc, probe_world_pages, probe_world_DEBUG.
    repeat split; auto. intros k Hk. lia.
  - destruct (timeout <? clock w - start); [discriminate|].
    apply IH in H as (n & Hn & Hw2 & Hr & Hearlier & Hp & Hd).
    cbn [advance ndoc pages DEBUG] in *.
    rewrite probe_world_ndoc in *. rewrite probe_world_pages in *.
    rewrite probe_world_DEBUG in Hd.
    exists n. repeat split; auto; try lia.
    intros k Hk Hready.
    destruct (Nat.eq_dec k (ndoc w)) as [-> | Hne].
    + apply probe_value_truthy in Hready. congruence.
    + apply (Hearlier k); [lia | exact Hready].
Qed.

(** The results handed to the parser are those of the document read after
    the probe that found the page ready. *)
Lemma await_results_returns_at fuel t w results w1 :
  await_results fuel t w = Returns results w1 ->
  exists n,
    (ndoc w <= n)%nat /\ ready (pages w n) /\
    (forall k, (ndoc w <= k < n)%nat -> ~ ready (pages w k)) /\
    results = search_results (pages w (S n)) /\
    ndoc w1 = S (S n) /\ pages w1 = pages w /\ DEBUG w1 = DEBUG w.
Proof.
  rewrite await_results_cases, wait_for_unfold. intros H.
  destruct (wait_for_loop fuel results_are_ready 500 (1000 * t) (clock w) w)
    as [v w2|e w2|] eqn:Hloop; [| destruct e; discriminate | discriminate].
  apply wait_for_loop_returns in Hloop
    as (n & Hn & Hw2 & Hr & Hearlier & Hp & Hd).
  injection H as <- <-. exists n.
  cbn [ndoc pages DEBUG add_event next_doc].
  rewrite Hw2, Hp. repeat split; auto.
Qed.

(** The parsing loop stops at the first fragment that does not parse, in
    the world its handler leaves. *)
Lemma parse_results_raises_at file rs : forall acc w e w',
  parse_results file rs acc w = Raises e w' ->
  DEBUG w = false /\
  exists bad f,
    In bad rs /\ parse_fields bad = fail f /\
    e = BusliniensucheParsingError (parse_error_msg file f) /\
    w' = failure_world file f w.
Proof.
  induction rs as [|r rs IH]; intros acc w e w' H; [discriminate|].
  cbn [parse_results] in H. unfold bind at 1 in H.
  pose proof (framed_parse_result file r w) as Hfr.
  destruct (parse_fields r) as [c|f] eqn:Hp.
  - rewrite (parse_result_ok file r c w Hp) in H.
    apply IH in H as (Hd & bad & f & Hin & Hf & He & Hw).
    split; [exact Hd|]. exists bad, f. cbn [In]. auto.
  - rewrite (parse_result_fail file r f w Hp) in H, Hfr.
    destruct (DEBUG w) eqn:Hd.
    + destruct Hfr as (Hd' & _). apply IH in H as (H & _). congruence.
    + injection H as <- <-. split; [reflexivity|].
      exists r, f. cbn [In]. auto.
Qed.

Lemma submitted_world_trace a b d w :
  trace (submitted_world a b d w) = trace w ++ events_until_click a b d.
Proof.
  unfold submitted_world. rewrite add_events_trace.
  cbn [session_world trace add_event open_session].
  unfold events_until_click. now rewrite <- !app_assoc.
Qed.

(** A call that returns has gone through the form, the wait and the
    parsing loop. *)
Lemma find_bus_connections_returns_at file fuel a b d t w conns w' :
  find_bus_connections file fuel a b d t w = Returns conns w' ->
  exists n w1,
    (ndoc w <= n)%nat /\ ready (pages w n) /\
    (forall k, (ndoc w <= k < n)%nat -> ~ ready (pages w k)) /\
    ndoc w1 = S (S n) /\ pages w1 = pages w /\ DEBUG w1 = DEBUG w /\
    only (fun e => observing e = true) (submitted_world a b d w) w1 /\
    parse_results file (search_results (pages w (S n))) [] w1 = Returns conns
        w'.
Proof.
  intros H.
  apply find_bus_connections_returns_inv in H as (results & w1 & Hget & Hp).
  pose proof (keeps_returns _ _ _ _ _
                (only_await_results (fun e => observing e = true)
                   (fun e H => H) fuel t) Hget) as Honly.
  apply await_results_returns_at in Hget
    as (n & Hn & Hr & Hearlier & -> & Hn1 & Hp1 & Hd1).
  destruct (submitted_world_frame a b d w) as (HD&_&_&Hpg&Hnd&_).
  rewrite Hpg in *. rewrite Hnd in *. rewrite HD in *.
  exists n, w1. repeat split; auto.
Qed.


Lemma ends_in_returns {A} (a : A) w0 w' : ends_in (Returns a w0) w' -> w0 = w'.
Proof. intros [(x & H) | (x & H)]; [now injection H | discriminate]. Qed.

Lemma ends_in_raises {A} e w0 w' : ends_in (@Raises A e w0) w' -> w0 = w'.
Proof. intros [(x & H) | (x & H)]; [discriminate | now injection H]. Qed.

Lemma ends_in_unfinished {A} w' : ~ ends_in (@Unfinished A) w'.
Proof. intros [(x & H) | (x & H)]; discriminate. Qed.

Lemma observing_all_passive evs :
  Forall (fun e => observing e = true) evs ->
  Forall (fun e => passive e = true) evs.
Proof. apply Forall_impl. exact observing_passive. Qed.

Lemma trace_unchanged (w : world) evs : trace w = trace w ++ evs -> evs = [].
Proof.
  intros H. apply (app_inv_head (trace w)). now rewrite app_nil_r.
Qed.

Ltac before_click pre post :=
  exists pre, post, (@nil event);
  split; [reflexivity|];
  split; [rewrite ?add_events_trace;
          cbn [trace add_event open_session session_world];
          unfold events_before_check; rewrite <- ?app_assoc; reflexivity|];
  split; [now right|];
  split; [constructor|];
  right; right; constructor.

(** The events of a call, whatever its outcome: a prefix of the events
    that lead to the click and, once the click is done, passive events
    only; and these are events of polling unless [DEBUG] is on or the call
    ends with the parsing error. *)
Lemma find_bus_connections_events file fuel a b d t w w' :
  ends_in (find_bus_connections file fuel a b d t w) w' ->
  exists pre post evs,
    events_until_click a b d = pre ++ post /\
    trace w' = trace w ++ pre ++ evs /\
    (post = [] \/ evs = []) /\
    Forall (fun e => passive e = true) evs /\
    (DEBUG w = true \/
     (exists msg,
         find_bus_connections file fuel a b d t w
           = Raises (BusliniensucheParsingError msg) w') \/
     Forall (fun e => observing e = true) evs).
Proof.
  intros Hend.
  destruct (find_bus_connections file fuel a b d t w) as [conns w0|e w0|]
      eqn:Hrun;
    [| | now apply ends_in_unfinished in Hend].
  - apply ends_in_returns in Hend. subst w0.
    apply find_bus_connections_returns_at in Hrun
      as (n & w1 & _ & _ & _ & _ & _ & Hd1 & (evs1 & Ht1 & Hobs) & Hparse).
    pose proof (keeps_returns _ _ _ _ _
                  (only_passive_parse_results file _ []) Hparse)
      as (evs2 & Ht2 & Hpas).
    exists (events_until_click a b d), [], (evs1 ++ evs2).
    split; [now rewrite app_nil_r|].
    split; [rewrite Ht2, Ht1, submitted_world_trace;
            now rewrite <- !app_assoc|].
    split; [now left|].
    split; [apply Forall_app; split;
            [now apply observing_all_passive | exact Hpas]|].
    destruct (DEBUG w) eqn:Hd; [now left|]. right. right.
    apply (Table.parse_results_returns_debug_off file _ _ _ _ _ Hd1) in Hparse
      as (-> & _).
    apply trace_unchanged in Ht2. subst evs2. now rewrite app_nil_r.
  - apply ends_in_raises in Hend. subst w0. pose proof Hrun as Hrun0.
    rewrite find_bus_connections_unfold in Hrun. unfold bind at 1 in Hrun.
    rewrite get_results_cases in Hrun.
    destruct (form (session_world SEARCH_PAGE false w) "#From");
      cbn [negb] in Hrun;
      [|injection Hrun as _ <-;
        before_click
          [SessionNew; SetAttribute "auto_load_images" false;
           Visit SEARCH_PAGE; LogDebug "browser session created.";
           LogDebug (trying_msg a b d); AtCss "#From"]
          [FieldSet "#From" a; AtCss "#To"; FieldSet "#To" b; AtCss "#When";
           FieldSet "#When" d; AtCss ".btn-warning"; Click ".btn-warning"]].
    destruct (form (session_world SEARCH_PAGE false w) "#To");
      cbn [negb] in Hrun;
      [|injection Hrun as _ <-;
        before_click
          [SessionNew; SetAttribute "auto_load_images" false;
           Visit SEARCH_PAGE; LogDebug "browser session created.";
           LogDebug (trying_msg a b d); AtCss "#From"; FieldSet "#From" a;
           AtCss "#To"]
          [FieldSet "#To" b; AtCss "#When";
           FieldSet "#When" d; AtCss ".btn-warning"; Click ".btn-warning"]].
    destruct (String.leb
                (isoformat (today (session_world SEARCH_PAGE false w))) d);
      cbn [negb] in Hrun;
      [|injection Hrun as _ <-;
        before_click
          [SessionNew; SetAttribute "auto_load_images" false;
           Visit SEARCH_PAGE; LogDebug "browser session created.";
           LogDebug (trying_msg a b d); AtCss "#From"; FieldSet "#From" a;
           AtCss "#To"; FieldSet "#To" b; AtCss "#When"]
          [FieldSet "#When" d; AtCss ".btn-warning"; Click ".btn-warning"]].
    destruct (form (session_world SEARCH_PAGE false w) "#When");
      cbn [negb] in Hrun;
      [|injection Hrun as _ <-;
        before_click
          [SessionNew; SetAttribute "auto_load_images" false;
           Visit SEARCH_PAGE; LogDebug "browser session created.";
           LogDebug (trying_msg a b d); AtCss "#From"; FieldSet "#From" a;
           AtCss "#To"; FieldSet "#To" b; AtCss "#When"]
          [FieldSet "#When" d; AtCss ".btn-warning"; Click ".btn-warning"]].
    destruct (form (session_world SEARCH_PAGE false w) ".btn-warning");
      cbn [negb] in Hrun;
      [|injection Hrun as _ <-;
        before_click
          [SessionNew; SetAttribute "auto_load_images" false;
           Visit SEARCH_PAGE; LogDebug "browser session created.";
           LogDebug (trying_msg a b d); AtCss "#From"; FieldSet "#From" a;
           AtCss "#To"; FieldSet "#To" b; AtCss "#When";
           FieldSet "#When" d; AtCss ".btn-warning"]
          [Click ".btn-warning"]].
    fold (submitted_world a b d w) in Hrun.
    destruct (await_results fuel t (submitted_world a b d w))
      as [rs w1|e1 w1|] eqn:Hawait; [| |discriminate].
    + apply parse_results_raises_at in Hrun
        as (Hd1 & bad & f & _ & _ & -> & ->).
      pose proof (keeps_returns _ _ _ _ _
                    (only_await_results (fun e => passive e = true)
                       observing_passive fuel t) Hawait)
        as (evs1 & Ht1 & Hpas).
      exists (events_until_click a b d), [],
        (evs1 ++ [LogDebug (parse_error_msg file f); Render "error.png";
                  GetDocument;
                  FileWrite "error.htm" (pages w1 (ndoc w1))]).
      split; [now rewrite app_nil_r|].
      split; [unfold failure_world; cbn [trace add_event next_doc];
              rewrite Ht1, submitted_world_trace;
              now rewrite <- !app_assoc|].
      split; [now left|].
      split; [apply Forall_app; split; [exact Hpas | repeat constructor]|].
      right. left. eauto.
    + injection Hrun as _ <-.
      pose proof (keeps_raises_world _ _ _ _ _
                    (only_await_results (fun e => observing e = true)
                       (fun e H => H) fuel t) Hawait)
        as (evs1 & Ht1 & Hobs).
      exists (events_until_click a b d), [], evs1.
      split; [now rewrite app_nil_r|].
      split; [now rewrite Ht1, submitted_world_trace, <- app_assoc|].
      split; [now left|].
      split; [now apply observing_all_passive|].
      right. right. exact Hobs.
Qed.




(** X11: the results that are parsed are not those of the document in
    which the probe found the results loaded, but those of the document
    read next.  A call that returns has probed the documents of the page
    one by one up to the first in which the results are loaded, and its
    connections follow, one for one, the result containers of the
    document after that one. *)
Theorem results_read_after_probe file fuel a b d t w conns w' :
  find_bus_connections file fuel a b d t w = Returns conns w' ->
  exists n,
    (ndoc w <= n)%nat /\ ready (pages w n) /\
    (forall k, (ndoc w <= k < n)%nat -> ~ ready (pages w k)) /\
    Forall2 parsed_as (search_results (pages w (S n))) conns.
Proof.
  intros Hrun.
  apply find_bus_connections_returns_at in Hrun
    as (n & w1 & Hn & Hr & Hearlier & _ & _ & _ & _ & Hparse).
  exists n. repeat split; auto.
  apply parse_results_order in Hparse as (cs & -> & Hcs). exact Hcs.
Qed.

Lemma results_read_after_probe_witness :
  exists conns w',
    find_bus_connections Fixture.main_py 22 "Berlin" "Hamburg" "2015-06-06"
      10 (Cases.stream [Fixture.page_loading;
                        Fixture.page [Fixture.fragment "19,99 EUR"]]
                       (Fixture.page [Fixture.fragment "7,5 EUR"]))
      = Returns conns w' /\
    map (option_map price) conns = [Some "7.50 €"%string] /\
    exists n,
      (0 <= n)%nat /\
      ready (pages (Cases.stream
                      [Fixture.page_loading;
                       Fixture.page [Fixture.fragment "19,99 EUR"]]
                      (Fixture.page [Fixture.fragment "7,5 EUR"])) n) /\
      (forall k, (0 <= k < n)%nat ->
         ~ ready (pages (Cases.stream
                           [Fixture.page_loading;
                            Fixture.page [Fixture.fragment "19,99 EUR"]]
                           (Fixture.page [Fixture.fragment "7,5 EUR"])) k)) /\
      Forall2 parsed_as
        (search_results
           (pages (Cases.stream
                     [Fixture.page_loading;
                      Fixture.page [Fixture.fragment "19,99 EUR"]]
                     (Fixture.page [Fixture.fragment "7,5 EUR"])) (S n)))
        conns.
Proof.
  eexists. eexists. split; [vm_compute; reflexivity|].
  split; [reflexivity|].
  eapply (results_read_after_probe Fixture.main_py 22 "Berlin" "Hamburg"
            "2015-06-06" 10
            (Cases.stream [Fixture.page_loading;
                           Fixture.page [Fixture.fragment "19,99 EUR"]]
                          (Fixture.page [Fixture.fragment "7,5 EUR"]))).
  vm_compute. reflexivity.
Defined.



(** X13: the events of a call, whatever its outcome.  First come, in
    their fixed order, the events that lead to the click on the search
    button, or the first of them when the call fails on the way; once the
    click is done the call does nothing to the page any more: it reads
    the document, renders error.png, writes error.htm, logs, or enters
    the debugger. *)
Theorem events_of_a_call file fuel a b d t w w' :
  ends_in (find_bus_connections file fuel a b d t w) w' ->
  exists pre post evs,
    events_until_click a b d = pre ++ post /\
    trace w' = trace w ++ pre ++ evs /\
    (post = [] \/ evs = []) /\
    Forall (fun e => passive e = true) evs.
Proof.
  intros Hend.
  destruct (find_bus_connections_events file fuel a b d t w w' Hend)
    as (pre & post & evs & H1 & H2 & H3 & H4 & _).
  exists pre, post, evs. auto.
Qed.

Lemma events_of_a_call_witness :
  exists w' pre post evs,
    ends_in (find_bus_connections Fixture.main_py 22 "Berlin" "Hamburg"
               "2015-06-06" 10
               (Fixture.site Fixture.page_blank
                  (Fixture.page [Fixture.fragment "19,99 EUR"]))) w' /\
    events_until_click "Berlin" "Hamburg" "2015-06-06" = pre ++ post /\
    trace w' = [] ++ pre ++ evs /\
    (post = [] \/ evs = []) /\
    Forall (fun e => passive e = true) evs.
Proof.
  eexists.
  assert (Hend :
    ends_in (find_bus_connections Fixture.main_py 22 "Berlin" "Hamburg"
               "2015-06-06" 10
               (Fixture.site Fixture.page_blank
                  (Fixture.page [Fixture.fragment "19,99 EUR"]))) ?[w'])
    by (left; eexists; vm_compute; reflexivity).
  destruct (events_of_a_call _ _ _ _ _ _ _ _ Hend)
    as (pre & post & evs & H).
  exists pre, post, evs. split; [exact Hend | exact H].
Defined.

(** A call that returns with [DEBUG] off has parsed every result
    container of the document it read. *)
Lemma find_bus_connections_parsed file fuel a b d t w conns w' :
  DEBUG w = false ->
  find_bus_connections file fuel a b d t w = Returns conns w' ->
  exists n cs,
    conns = map Some cs /\
    Forall2 (fun r c => parse_fields r = ok c)
            (search_results (pages w n)) cs.
Proof.
  intros Hd Hrun.
  apply find_bus_connections_returns_at in Hrun
    as (n & w1 & _ & _ & _ & _ & _ & Hd1 & _ & Hparse).
  rewrite <- Hd1 in Hd.
  apply (Table.parse_results_returns_debug_off file _ _ _ _ _ Hd) in Hparse
    as (_ & cs & -> & Hcs).
  exists (S n), cs. auto.
Qed.




Lemma main_cases file fuel args w :
  main file fuel args w =
  match find_bus_connections file fuel (arg_origin args)
          (arg_destination args) (arg_date args) (arg_timeout args)
          (set_DEBUG false w) with
  | Returns conns w1 =>
      match results2table conns with
      | ok table => Returns tt (add_event (Stdout table) w1)
      | fail f => Raises (fault_exn f) w1
      end
  | Raises e w1 => Raises e w1
  | Unfinished => Unfinished
  end.
Proof.
  unfold main, bind at 1. rewrite run_cli_unfold. unfold bind at 1.
  destruct (find_bus_connections _ _ _ _ _ _ _) as [conns w1|e w1|];
    [|reflexivity|reflexivity].
  unfold bind, lift. now destruct (results2table conns).
Qed.



(** X16: a result whose departure or arrival stop has no text parses to a
    connection (see C7), and that connection breaks the table: the
    program raises the [TypeError] of slicing [None] and prints nothing,
    whatever the other results are. *)
Theorem textless_stop_breaks_table file fuel args w conns w1 c :
  find_bus_connections file fuel (arg_origin args) (arg_destination args)
    (arg_date args) (arg_timeout args) (set_DEBUG false w)
    = Returns conns w1 ->
  In (Some c) conns ->
  departure_stop c = None \/ arrival_stop c = None ->
  main file fuel args w = Raises slice_of_none w1.
Proof.
  intros Hrun Hin Hnone.
  destruct (find_bus_connections_parsed file fuel (arg_origin args)
              (arg_destination args) (arg_date args) (arg_timeout args)
              (set_DEBUG false w) conns w1 eq_refl Hrun)
    as (n & cs & Hconns & _).
  assert (Hall : Forall (fun x => x <> None) conns).
  { subst conns. apply Forall_forall. intros x Hx.
    apply in_map_iff in Hx as (y & <- & _). discriminate. }
  destruct (Table.results2table_none_stop conns c Hall Hin Hnone)
    as (f & Hfail & Hexn).
  rewrite main_cases, Hrun, Hfail. now rewrite Hexn.
Qed.

Lemma textless_stop_breaks_table_witness :
  exists c w1,
    parse_fields Cases.fragment_without_stop_text = ok c /\
    departure_stop c = None /\
    main Fixture.main_py 22 (Cases.cli false "2015-06-06")
      (Fixture.site Fixture.page_blank
         (Fixture.page [Fixture.fragment "19,99 EUR";
                        Cases.fragment_without_stop_text]))
    = Raises slice_of_none w1.
Proof.
  eexists. eexists. split; [vm_compute; reflexivity|].
  split; [reflexivity|].
  eapply (textless_stop_breaks_table Fixture.main_py 22
            (Cases.cli false "2015-06-06")
            (Fixture.site Fixture.page_blank
               (Fixture.page [Fixture.fragment "19,99 EUR";
                              Cases.fragment_without_stop_text]))).
  - vm_compute. reflexivity.
  - right. left. reflexivity.
  - left. reflexivity.
Defined.

End Run.

(** ** The price token *)

Module PriceFacts.

Import PyStr.

Lemma plain_cons c s :
  plain (String c s) = true ->
  is_ascii_byte c = true /\ uni_isspace (N_of_ascii c) = false /\
  plain s = true.
Proof.
  cbn [plain]. intros H. apply andb_true_iff in H as (H & Hs).
  apply andb_true_iff in H as (Ha & Hw). apply negb_true_iff in Hw. auto.
Qed.

Lemma uni_isspace_of_isspace c :
  isspace c = true -> uni_isspace (N_of_ascii c) = true.
Proof.
  unfold isspace, uni_isspace. intros H.
  apply orb_true_iff in H as [H | H].
  - now rewrite H.
  - apply N.eqb_eq in H. now rewrite H.
Qed.

Lemma plain_is_ascii s : plain s = true -> is_ascii s = true.
Proof.
  induction s as [|c s IH]; [reflexivity|]. intros H.
  apply plain_cons in H as (Ha & _ & Hs). cbn [is_ascii].
  now rewrite Ha, IH.
Qed.

Lemma plain_no_space s : plain s = true -> no_space s = true.
Proof.
  induction s as [|c s IH]; [reflexivity|]. intros H.
  apply plain_cons in H as (_ & Hw & Hs). cbn [no_space].
  rewrite (IH Hs), andb_true_r. apply negb_true_iff.
  destruct (isspace c) eqn:Hc; [|reflexivity].
  apply uni_isspace_of_isspace in Hc. congruence.
Qed.

Lemma app_snoc cur c s :
  ((cur ++ String c "") ++ s)%string = (cur ++ String c s)%string.
Proof. induction cur as [|x cur IH]; simpl; congruence. Qed.

(** [str.split]: a token, white space, and the rest. *)
Lemma split_from_token tok sp tail : forall cur,
  no_space tok = true -> is_empty (cur ++ tok) = false ->
  isspace sp = true ->
  split_from cur (tok ++ String sp tail)
  = (cur ++ tok)%string :: split_from "" tail.
Proof.
  induction tok as [|c tok IH]; intros cur Hs Hne Hsp.
  - rewrite Price.append_empty in *. cbn [String.append split_from].
    now rewrite Hsp, Hne.
  - cbn [no_space] in Hs. apply andb_true_iff in Hs as (Hc & Hs).
    apply negb_true_iff in Hc. cbn [String.append split_from]. rewrite Hc.
    rewrite IH; [now rewrite app_snoc | exact Hs | now rewrite app_snoc
                | exact Hsp].
Qed.

Lemma decode_plain tok rest :
  plain tok = true ->
  decode_utf8 (tok ++ rest) = codes tok ++ decode_utf8 rest.
Proof.
  induction tok as [|c tok IH]; [reflexivity|]. intros H.
  apply plain_cons in H as (Ha & _ & Hs).
  cbn [String.append codes app].
  rewrite (Table.decode_utf8_ascii c _ Ha). now rewrite (IH Hs).
Qed.

Lemma encode_codes tok : plain tok = true -> encode_utf8 (codes tok) = tok.
Proof.
  induction tok as [|c tok IH]; [reflexivity|]. intros H.
  apply plain_cons in H as (Ha & _ & Hs). cbn [codes encode_utf8].
  now rewrite (Table.encode_char_ascii c Ha), (IH Hs).
Qed.

(** [unicode.split]: a token, white space, and the rest. *)
Lemma usplit_from_token tok ws u : forall cur,
  plain tok = true -> cur ++ codes tok <> [] -> uni_isspace ws = true ->
  usplit_from cur (codes tok ++ ws :: u)
  = (cur ++ codes tok) :: usplit_from [] u.
Proof.
  induction tok as [|c tok IH]; intros cur Hp Hne Hws.
  - cbn [codes app] in *. rewrite app_nil_r in *. cbn [usplit_from].
    rewrite Hws. destruct cur; [congruence | reflexivity].
  - apply plain_cons in Hp as (_ & Hc & Hp).
    cbn [codes app usplit_from]. rewrite Hc.
    rewrite IH; [| exact Hp | | exact Hws].
    + now rewrite <- app_assoc.
    + rewrite <- app_assoc. cbn [app]. now destruct cur.
Qed.

(** The first token of a text that starts with a plain token followed by
    a space or a no-break space is that token, whatever comes after. *)
Lemma split_first_token tok sep tail :
  plain tok = true -> is_empty tok = false ->
  sep = " "%string \/ sep = nbsp ->
  exists more, split (tok ++ sep ++ tail) = tok :: more.
Proof.
  intros Hp Hne Hsep. unfold split.
  destruct (is_ascii (tok ++ sep ++ tail)) eqn:Ha.
  - destruct Hsep as [-> | ->].
    + eexists. cbn [String.append].
      rewrite (split_from_token tok " " tail "");
        [reflexivity | now apply plain_no_space | exact Hne | reflexivity].
    + rewrite !Digits.is_ascii_app in Ha. cbn in Ha.
      rewrite andb_false_r in Ha. discriminate.
  - assert (Hdec : exists ws u,
               uni_isspace ws = true /\
               decode_utf8 (tok ++ sep ++ tail) = codes tok ++ ws :: u).
    { rewrite (decode_plain tok _ Hp).
      destruct Hsep as [-> | ->].
      - exists 32%N, (decode_utf8 tail). split; [reflexivity|].
        cbn [String.append].
        now rewrite (Table.decode_utf8_ascii " " tail eq_refl).
      - exists 160%N, (decode_utf8 tail). split; [reflexivity|].
        reflexivity. }
    destruct Hdec as (ws & u & Hws & ->).
    rewrite (usplit_from_token tok ws u [] Hp); [| |exact Hws].
    + cbn [app map]. rewrite (encode_codes tok Hp). eauto.
    + cbn [app]. destruct tok; [discriminate | discriminate].
Qed.

(** X17: only the number counts.  When the price text starts with a token
    of ASCII bytes that is followed by a space or by a no-break space,
    what comes after (a currency sign, a word) is ignored: the price of
    the connection is made from that token alone, and ends in the euro
    sign whatever the text names. *)
Theorem price_ignores_what_follows r c n rest tok sep tail :
  parse_fields r = ok c ->
  xpath price_path r = n :: rest ->
  text n = Some (tok ++ sep ++ tail)%string ->
  plain tok = true -> is_empty tok = false ->
  sep = " "%string \/ sep = nbsp ->
  format_price tok = ok (price c).
Proof.
  intros Hparse Hx Ht Hp Hne Hsep.
  pose proof (parse_fields_spec r) as Hspec. rewrite Hparse in Hspec.
  destruct Hspec as (_ & _ & Hprice).
  unfold price_of in Hprice. rewrite Hx, Ht in Hprice.
  destruct (split_first_token tok sep tail Hp Hne Hsep) as (more & Hsplit).
  rewrite Hsplit in Hprice.
  destruct (format_price tok) as [p|f]; [|discriminate].
  now injection Hprice as ->.
Qed.

Lemma price_ignores_what_follows_witness :
  exists c,
    parse_fields (Fixture.fragment ("19,99" ++ nbsp ++ "$")) = ok c /\
    format_price "19,99" = ok (price c) /\
    price c = "19.99 €"%string.
Proof.
  eexists. split; [vm_compute; reflexivity|]. split; [|reflexivity].
  apply (price_ignores_what_follows
           (Fixture.fragment ("19,99" ++ nbsp ++ "$")) _
           (Fixture.strong (Some ("19,99" ++ nbsp ++ "$")%string)) []
           "19,99" nbsp "$").
  - vm_compute. reflexivity.
  - reflexivity.
  - reflexivity.
  - reflexivity.
  - reflexivity.
  - now right.
Defined.

(** A price as the site writes it, the number, a no-break space and the
    euro sign, is well-formed and is read as the number. *)
Example no_break_space_price :
  malformed (Fixture.fragment ("19,99" ++ nbsp ++ "€")) = false /\
  exists c,
    parse_fields (Fixture.fragment ("19,99" ++ nbsp ++ "€")) = ok c /\
    price c = "19.99 €"%string.
Proof.
  split; [vm_compute; reflexivity|].
  eexists. split; [vm_compute; reflexivity | reflexivity].
Qed.

Lemma sub_char_ascii s :
  is_ascii (sub_char "," "." s) = is_ascii s.
Proof.
  induction s as [|c s IH]; [reflexivity|]. cbn [sub_char is_ascii].
  rewrite IH. destruct (Ascii.eqb_spec c ","); [now subst | reflexivity].
Qed.

(** The literal of a price with a grouping period: two periods in it. *)
Lemma grouped_literal a b tail :
  all_digits a = true -> all_digits b = true ->
  sub_char "," "." (a ++ "." ++ b ++ "," ++ tail)
  = (a ++ "." ++ b ++ "." ++ sub_char "," "." tail)%string.
Proof.
  intros Ha Hb. rewrite Digits.sub_char_app, (Digits.sub_char_digits a Ha).
  cbn [String.append sub_char].
  change (if Ascii.eqb "." "," then "."%char else "."%char) with "."%char.
  rewrite Digits.sub_char_app, (Digits.sub_char_digits b Hb).
  reflexivity.
Qed.

(** [float()] reads the number before the second period and stops. *)
Lemma two_periods a b t :
  all_digits a = true -> is_empty a = false -> all_digits b = true ->
  PyFloat.of_string (a ++ "." ++ b ++ "." ++ t) = None /\
  PyFloat.starts_number (a ++ "." ++ b ++ "." ++ t) = true.
Proof.
  intros Ha Hne Hb.
  assert (Hspan : span_digits (a ++ "." ++ b ++ "." ++ t)
                  = (a, ("." ++ b ++ "." ++ t)%string))
    by (apply Digits.span_digits_app; [exact Ha | reflexivity]).
  assert (Hspan2 : span_digits (b ++ "." ++ t) = (b, ("." ++ t)%string))
    by (apply Digits.span_digits_app; [exact Hb | reflexivity]).
  destruct a as [|c a]; [discriminate|].
  cbn [all_digits] in Ha. apply andb_true_iff in Ha as (Hc & Ha).
  destruct (Price.of_string_head_digit c (a ++ "." ++ b ++ "." ++ t) Hc)
    as (Hs & Hk1 & Hk2).
  unfold PyFloat.of_string, PyFloat.starts_number.
  cbn [String.append] in *. rewrite Hs, Hk1, Hk2, Hspan.
  cbn [String.append]. rewrite Hspan2. split; reflexivity.
Qed.

Lemma price_token_unparsable r tok f :
  price_token r = ok tok -> format_price tok = fail f ->
  unparsable_price r = true.
Proof.
  unfold price_token, text_at, unparsable_price.
  destruct (xpath price_path r) as [|n ?]; [discriminate|].
  cbn [first_at attempt_bind].
  destruct (text n) as [s|]; [|discriminate].
  destruct (split s) as [|t ?]; [discriminate|].
  cbn [first_at]. intros H. injection H as ->. now intros ->.
Qed.

(** X18: a price with a grouping period cannot be read.  When the number
    in the price text has a period before its comma, as in 1.234,56, the
    comma becomes a second period, [float()] refuses the literal, and the
    fragment does not parse: a connection for a thousand euros or more,
    written that way, makes the whole call fail. *)
Theorem grouped_price_unparsable r a b tail :
  price_token r = ok (a ++ "." ++ b ++ "," ++ tail)%string ->
  all_digits a = true -> is_empty a = false -> all_digits b = true ->
  is_ascii tail = true ->
  format_price (a ++ "." ++ b ++ "," ++ tail)
  = fail {| fault_line := 122;
            fault_exn :=
              ValueError
                ("invalid literal for float(): " ++
                 substring 0 200
                   (a ++ "." ++ b ++ "." ++ sub_char "," "." tail)) |} /\
  exists f, parse_fields r = fail f.
Proof.
  intros Htok Ha Hne Hb Ht.
  assert (Hfmt :
    format_price (a ++ "." ++ b ++ "," ++ tail)
    = fail {| fault_line := 122;
              fault_exn :=
                ValueError
                  ("invalid literal for float(): " ++
                   substring 0 200
                     (a ++ "." ++ b ++ "." ++ sub_char "," "." tail)) |}).
  { unfold format_price. rewrite (grouped_literal a b tail Ha Hb).
    assert (Hascii : is_ascii (a ++ "." ++ b ++ "." ++ sub_char "," "." tail)
                     = true).
    { rewrite Digits.is_ascii_app, (Digits.all_digits_ascii a Ha).
      cbn [String.append is_ascii andb is_ascii_byte].
      rewrite Digits.is_ascii_app, (Digits.all_digits_ascii b Hb).
      cbn [String.append is_ascii andb].
      now rewrite sub_char_ascii, Ht. }
    rewrite Hascii. cbn [attempt_bind].
    destruct (two_periods a b (sub_char "," "." tail) Ha Hne Hb)
      as (Hnone & Hstarts).
    rewrite Hnone. unfold float_error. now rewrite Hstarts. }
  split; [exact Hfmt|].
  apply malformed_fails. unfold malformed.
  rewrite (price_token_unparsable r _ _ Htok Hfmt). apply orb_true_r.
Qed.

Lemma grouped_price_unparsable_witness :
  format_price "1.234,56"
  = fail {| fault_line := 122;
            fault_exn :=
              ValueError "invalid literal for float(): 1.234.56" |} /\
  exists f, parse_fields (Fixture.fragment "1.234,56 EUR") = fail f.
Proof.
  apply (grouped_price_unparsable (Fixture.fragment "1.234,56 EUR")
           "1" "234" "56"); reflexivity.
Defined.

End PriceFacts.
